(** * A shallow embedding of the network monitor's policy core

    The development follows the Python sources module by module:

    - [PyStr]       the [str] methods the sources call ([lower], [upper],
                    [strip], [rstrip], [endswith], [startswith], [in], [find],
                    [split], slicing), [int] and the [:02d] format;
    - [DnsBlocker]  [python/dns/dns_blocker.py];
    - [Categories]  [python/blocking/categories.py];
    - [Schedules]   [python/blocking/schedules.py];
    - [Blocker]     [python/blocking/blocker.py];
    - [Keywords]    [python/alerts/keywords.py];
    - [ArpGateway]  [python/arp/arp_gateway.py];
    - [Proxy]       [python/https/transparent_proxy.py];
    - [DbManager]   [python/database/db_manager.py] (the [devices] table).

    Conventions.  A Python [str] is a [string] of 8-bit characters; case
    mapping and white space are those of the ASCII range.  A [Set[str]] is a
    [gset string]; a [dict] is an association list in insertion order with
    pairwise distinct keys; standard output and the callbacks are a trace of
    events appended to the state.  A call reads the wall clock once: the
    reading is a parameter [now]. *)

From Stdlib Require Import ZArith Ascii String List Bool Lia.
From Stdlib Require Import Decimal DecimalString DecimalZ.
From stdpp Require Import base decidable option list gmap sets strings sorting.

Open Scope string_scope.
Open Scope list_scope.

(** ** Python string methods *)

Module PyStr.

(** [c.lower()] for one character: [A]..[Z] are shifted by 32. *)
Definition lower_ascii (c : ascii) : ascii :=
  let n := nat_of_ascii c in
  if (65 <=? n)%nat && (n <=? 90)%nat then ascii_of_nat (n + 32) else c.

(** [s.lower()] *)
Fixpoint lower (s : string) : string :=
  match s with
  | EmptyString => EmptyString
  | String c s' => String (lower_ascii c) (lower s')
  end.

(** The characters [str.strip()] removes: tab, line feed, vertical tab,
    form feed, carriage return, the four separators 0x1c..0x1f, space. *)
Definition is_space (c : ascii) : bool :=
  let n := nat_of_ascii c in
  ((9 <=? n)%nat && (n <=? 13)%nat) || ((28 <=? n)%nat && (n <=? 32)%nat).

(** [s.lstrip(chars)], the set of characters given as a predicate. *)
Fixpoint lstrip_by (p : ascii -> bool) (s : string) : string :=
  match s with
  | EmptyString => EmptyString
  | String c s' => if p c then lstrip_by p s' else s
  end.

(** [s.rstrip(chars)] *)
Fixpoint rstrip_by (p : ascii -> bool) (s : string) : string :=
  match s with
  | EmptyString => EmptyString
  | String c s' =>
      match rstrip_by p s' with
      | EmptyString => if p c then EmptyString else String c EmptyString
      | r => String c r
      end
  end.

(** [s.strip()] *)
Definition strip (s : string) : string := rstrip_by is_space (lstrip_by is_space s).

(** [s.rstrip('.')] *)
Definition rstrip_dot (s : string) : string :=
  rstrip_by (fun c => Ascii.eqb c ".") s.

(** [s.startswith(p)] *)
Fixpoint startswith (s p : string) {struct p} : bool :=
  match p, s with
  | EmptyString, _ => true
  | String a p', String b s' => Ascii.eqb a b && startswith s' p'
  | String _ _, EmptyString => false
  end.

(** [s.endswith(suf)] *)
Fixpoint endswith (s suf : string) : bool :=
  if String.eqb s suf then true
  else match s with
       | EmptyString => false
       | String _ s' => endswith s' suf
       end.

(** [needle in hay] *)
Fixpoint contains (needle hay : string) : bool :=
  if startswith hay needle then true
  else match hay with
       | EmptyString => false
       | String _ hay' => contains needle hay'
       end.

(** [hay.find(needle)]: the lowest index, [None] for Python's [-1]. *)
Fixpoint find (hay needle : string) : option nat :=
  if startswith hay needle then Some 0%nat
  else match hay with
       | EmptyString => None
       | String _ hay' => S <$> find hay' needle
       end.

(** [s[n:]] and [s[:n]] for [0 <= n]; [s[a:b]] for [0 <= a], [0 <= b]. *)
Fixpoint drop (n : nat) (s : string) : string :=
  match n, s with
  | O, _ => s
  | S n', String _ s' => drop n' s'
  | S _, EmptyString => EmptyString
  end.

Fixpoint take (n : nat) (s : string) : string :=
  match n, s with
  | O, _ => EmptyString
  | S n', String c s' => String c (take n' s')
  | S _, EmptyString => EmptyString
  end.

Definition slice (s : string) (a b : nat) : string := take (b - a) (drop a s).

(** Truth value of a [str]: the empty string is false. *)
Definition truthy (s : string) : bool := negb (String.eqb s "").

(** Truth value of an [Optional[str]]: [None] and [""] are false. *)
Definition truthy_opt (o : option string) : bool :=
  match o with
  | Some s => truthy s
  | None => false
  end.


(** [s.upper()] *)
Definition upper_ascii (c : ascii) : ascii :=
  let n := nat_of_ascii c in
  if (97 <=? n)%nat && (n <=? 122)%nat then ascii_of_nat (n - 32) else c.

Fixpoint upper (s : string) : string :=
  match s with
  | EmptyString => EmptyString
  | String c s' => String (upper_ascii c) (upper s')
  end.

(** [s.split(sep)] for a separator of one character. *)
Fixpoint split_on (sep : ascii) (s : string) : list string :=
  match s with
  | EmptyString => [EmptyString]
  | String c s' =>
      if Ascii.eqb c sep then EmptyString :: split_on sep s'
      else match split_on sep s' with
           | part :: parts => String c part :: parts
           | [] => [String c EmptyString]
           end
  end.

(** [str(n)] for an [int]. *)
Definition str_int (n : Z) : string := NilZero.string_of_int (Z.to_int n).

(** [f"{n:02d}"]: at least two characters, zero filled, the sign counted. *)
Definition format_02d (n : Z) : string :=
  let s := str_int n in
  if (String.length s <? 2)%nat then "0" +:+ s else s.

Definition is_digit (c : ascii) : bool :=
  let n := nat_of_ascii c in (48 <=? n)%nat && (n <=? 57)%nat.

(** The grouping underscores of an [int] literal: one underscore may stand
    between two digits, and is skipped. *)
Fixpoint ungroup (after_digit : bool) (s : string) : option string :=
  match s with
  | EmptyString => Some EmptyString
  | String c s' =>
      if Ascii.eqb c "_" then
        match s' with
        | String d _ => if after_digit && is_digit d then ungroup false s' else None
        | EmptyString => None
        end
      else String c <$> ungroup (is_digit c) s'
  end.

(** The digits of [int(s)]: at least one, all decimal. *)
Definition digits (s : string) : option Z :=
  match s with
  | EmptyString => None
  | _ => r ← ungroup false s; Z.of_uint <$> NilEmpty.uint_of_string r
  end.

(** [int(s)] for a text: white space around, an optional sign, decimal
    digits; [None] stands for [ValueError]. *)
Definition int (s : string) : option Z :=
  match strip s with
  | String "+" r => digits r
  | String "-" r => Z.opp <$> digits r
  | r => digits r
  end.

End PyStr.

(** ** Python dictionaries with [str] keys, oldest key first *)

Module PyDict.

(** [d[k] = v]: an existing key keeps its place, a new key goes last. *)
Fixpoint set {V} (d : list (string * V)) (k : string) (v : V)
    : list (string * V) :=
  match d with
  | [] => [(k, v)]
  | (k', v') :: d' =>
      if String.eqb k' k then (k, v) :: d' else (k', v') :: set d' k v
  end.

(** [d.get(k)] *)
Fixpoint get {V} (d : list (string * V)) (k : string) : option V :=
  match d with
  | [] => None
  | (k', v') :: d' => if String.eqb k' k then Some v' else get d' k
  end.

(** [del d[k]] for a key that is present; no change otherwise. *)
Fixpoint del {V} (d : list (string * V)) (k : string) : list (string * V) :=
  match d with
  | [] => []
  | (k', v') :: d' => if String.eqb k' k then d' else (k', v') :: del d' k
  end.

(** [d.keys()], [d.values()] *)
Definition keys {V} (d : list (string * V)) : list string := fst <$> d.
Definition values {V} (d : list (string * V)) : list V := snd <$> d.

End PyDict.

(** ** python/dns/dns_blocker.py *)

Module DnsBlocker.

(** The layers of a captured packet that the blocker reads.  The field
    defaults of the DNS layer are those the packet library declares. *)
Record IP := { ip_src : string; ip_dst : string }.
Record UDP := { udp_sport : Z; udp_dport : Z }.
Record DNSQR := { qname : string; qtype : Z; qclass : Z }.
Record DNSRR := { rrname : string; rr_type : string; rr_ttl : Z; rdata : string }.

Record DNS := {
  dns_id : Z; dns_qr : Z; dns_opcode : Z; dns_aa : Z; dns_tc : Z;
  dns_rd : Z; dns_ra : Z; dns_z : Z; dns_ad : Z; dns_cd : Z; dns_rcode : Z;
  dns_qd : list DNSQR; dns_an : list DNSRR;
  dns_ns : list DNSRR; dns_ar : list DNSRR }.

(** [DNS()] with no argument. *)
Definition DNS_default : DNS :=
  {| dns_id := 0; dns_qr := 0; dns_opcode := 0; dns_aa := 0; dns_tc := 0;
     dns_rd := 1; dns_ra := 0; dns_z := 0; dns_ad := 0; dns_cd := 0;
     dns_rcode := 0; dns_qd := []; dns_an := []; dns_ns := []; dns_ar := [] |}.

(** A packet: each layer is present or not ([packet[IP]] raises when it
    is not). *)
Record Packet := { pkt_ip : option IP; pkt_udp : option UDP; pkt_dns : option DNS }.

Record BlockedQuery := {
  bq_timestamp : string; bq_device_ip : string;
  bq_domain : string; bq_action : string }.

(** What the blocker prints and what it puts on the wire. *)
Inductive Output :=
| OutBlocked (q : BlockedQuery)
| OutError.

Record DNSBlocker := {
  interface : string;
  blocked_domains : gset string;
  redirect_ip : string;
  block_mode : string;
  running : bool;
  blocked_count : nat;
  blocked_log : list BlockedQuery;
  stdout : list Output;
  sent : list Packet }.

(** [DNSBlocker.__init__] *)
Definition init (iface : string) (domains : list string)
    (redirect : string) (mode : string) : DNSBlocker :=
  {| interface := iface;
     blocked_domains := list_to_set (PyStr.lower <$> domains);
     redirect_ip := redirect; block_mode := mode; running := false;
     blocked_count := 0; blocked_log := []; stdout := []; sent := [] |}.

(** One round of the loop over [self.blocked_domains] in [is_blocked]. *)
Definition entry_matches (domain blocked : string) : bool :=
  PyStr.endswith domain ("." +:+ blocked)
  || (PyStr.startswith blocked "*." && PyStr.endswith domain (PyStr.drop 1 blocked)).

(** [DNSBlocker.is_blocked] *)
Definition is_blocked (self : DNSBlocker) (domain : string) : bool :=
  let domain := PyStr.rstrip_dot (PyStr.lower domain) in
  if decide (domain ∈ blocked_domains self) then true
  else existsb (entry_matches domain) (elements (blocked_domains self)).

(** The matching rule as the specification words it, for a query name [q]
    and an entry [e]: equal up to case, or [q] ends with a dot followed by
    [e], or [e] is [*.suffix] and [q] ends with [.suffix] (the last two read
    up to case as well). *)
Definition claimed_match (q e : string) : bool :=
  String.eqb (PyStr.lower q) (PyStr.lower e)
  || PyStr.endswith (PyStr.lower q) ("." +:+ PyStr.lower e)
  || (PyStr.startswith e "*."
      && PyStr.endswith (PyStr.lower q) (PyStr.drop 1 (PyStr.lower e))).

Definition claimed_blocked (self : DNSBlocker) (q : string) : bool :=
  existsb (claimed_match q) (elements (blocked_domains self)).

(** [DNSBlocker._create_nxdomain_response]: [None] when a layer is absent. *)
Definition _create_nxdomain_response (packet : Packet) : option Packet :=
  i ← pkt_ip packet;
  u ← pkt_udp packet;
  d ← pkt_dns packet;
  Some {| pkt_ip := Some {| ip_src := ip_dst i; ip_dst := ip_src i |};
          pkt_udp := Some {| udp_sport := 53; udp_dport := udp_sport u |};
          pkt_dns := Some {| dns_id := dns_id d; dns_qr := 1;
                             dns_opcode := dns_opcode DNS_default;
                             dns_aa := 1; dns_tc := dns_tc DNS_default;
                             dns_rd := dns_rd DNS_default;
                             dns_ra := dns_ra DNS_default;
                             dns_z := dns_z DNS_default;
                             dns_ad := dns_ad DNS_default;
                             dns_cd := dns_cd DNS_default;
                             dns_rcode := 3; dns_qd := dns_qd d;
                             dns_an := dns_an DNS_default;
                             dns_ns := dns_ns DNS_default;
                             dns_ar := dns_ar DNS_default |} |}.

(** [DNSBlocker._create_redirect_response] *)
Definition _create_redirect_response (self : DNSBlocker) (packet : Packet)
    : option Packet :=
  i ← pkt_ip packet;
  u ← pkt_udp packet;
  d ← pkt_dns packet;
  q ← head (dns_qd d);
  Some {| pkt_ip := Some {| ip_src := ip_dst i; ip_dst := ip_src i |};
          pkt_udp := Some {| udp_sport := 53; udp_dport := udp_sport u |};
          pkt_dns := Some {| dns_id := dns_id d; dns_qr := 1;
                             dns_opcode := dns_opcode DNS_default;
                             dns_aa := 1; dns_tc := dns_tc DNS_default;
                             dns_rd := dns_rd DNS_default;
                             dns_ra := dns_ra DNS_default;
                             dns_z := dns_z DNS_default;
                             dns_ad := dns_ad DNS_default;
                             dns_cd := dns_cd DNS_default;
                             dns_rcode := 0; dns_qd := dns_qd d;
                             dns_an := [ {| rrname := qname q; rr_type := "A";
                                            rr_ttl := 300;
                                            rdata := redirect_ip self |} ];
                             dns_ns := dns_ns DNS_default;
                             dns_ar := dns_ar DNS_default |} |}.

Definition set_count (self : DNSBlocker) (n : nat) : DNSBlocker :=
  {| interface := interface self; blocked_domains := blocked_domains self;
     redirect_ip := redirect_ip self; block_mode := block_mode self;
     running := running self; blocked_count := n;
     blocked_log := blocked_log self; stdout := stdout self; sent := sent self |}.

Definition log_query (self : DNSBlocker) (q : BlockedQuery) : DNSBlocker :=
  {| interface := interface self; blocked_domains := blocked_domains self;
     redirect_ip := redirect_ip self; block_mode := block_mode self;
     running := running self; blocked_count := blocked_count self;
     blocked_log := blocked_log self ++ [q]; stdout := stdout self; sent := sent self |}.

Definition print (self : DNSBlocker) (o : Output) : DNSBlocker :=
  {| interface := interface self; blocked_domains := blocked_domains self;
     redirect_ip := redirect_ip self; block_mode := block_mode self;
     running := running self; blocked_count := blocked_count self;
     blocked_log := blocked_log self; stdout := stdout self ++ [o]; sent := sent self |}.

(** [send(response, iface=self.interface)] *)
Definition send (self : DNSBlocker) (p : Packet) : DNSBlocker :=
  {| interface := interface self; blocked_domains := blocked_domains self;
     redirect_ip := redirect_ip self; block_mode := block_mode self;
     running := running self; blocked_count := blocked_count self;
     blocked_log := blocked_log self; stdout := stdout self; sent := sent self ++ [p] |}.

Definition send_if (self : DNSBlocker) (r : option Packet) : DNSBlocker :=
  match r with
  | Some p => send self p
  | None => self
  end.

(** [DNSBlocker._process_packet]; [now] is [datetime.now().isoformat()].
    An exception raised after the counter is incremented (an absent IP
    layer) is caught by the handler, which prints an error. *)
Definition _process_packet (self : DNSBlocker) (now : string) (packet : Packet)
    : DNSBlocker :=
  match pkt_dns packet with
  | None => self
  | Some dns =>
      if negb (dns_qr dns =? 0)%Z then self
      else match dns_qd dns with
      | [] => self
      | q :: _ =>
          let domain := PyStr.rstrip_dot (qname q) in
          if negb (is_blocked self domain) then self
          else
            let self := set_count self (blocked_count self + 1) in
            match pkt_ip packet with
            | None => print self OutError
            | Some iph =>
                let blocked_query :=
                  {| bq_timestamp := now; bq_device_ip := ip_src iph;
                     bq_domain := domain; bq_action := block_mode self |} in
                let self := log_query self blocked_query in
                let self := print self (OutBlocked blocked_query) in
                if String.eqb (block_mode self) "nxdomain" then
                  send_if self (_create_nxdomain_response packet)
                else if String.eqb (block_mode self) "redirect" then
                  send_if self (_create_redirect_response self packet)
                else self
            end
      end
  end.

(** [DNSBlocker.add_domain] / [remove_domain] (the printed acknowledgement
    is not part of the blocker's state). *)
Definition add_domain (self : DNSBlocker) (domain : string) : DNSBlocker :=
  {| interface := interface self;
     blocked_domains := blocked_domains self ∪ {[ PyStr.lower domain ]};
     redirect_ip := redirect_ip self; block_mode := block_mode self;
     running := running self; blocked_count := blocked_count self;
     blocked_log := blocked_log self; stdout := stdout self; sent := sent self |}.

Definition remove_domain (self : DNSBlocker) (domain : string) : DNSBlocker :=
  {| interface := interface self;
     blocked_domains := blocked_domains self ∖ {[ PyStr.lower domain ]};
     redirect_ip := redirect_ip self; block_mode := block_mode self;
     running := running self; blocked_count := blocked_count self;
     blocked_log := blocked_log self; stdout := stdout self; sent := sent self |}.

(** The capture loop of [DNSBlocker.start]: [sniff] hands each captured
    packet to [_process_packet], in the order of capture; a packet comes
    with the reading of the clock at its turn. *)
Definition sniff (self : DNSBlocker) (captured : list (string * Packet)) : DNSBlocker :=
  foldl (fun self np => _process_packet self np.1 np.2) self captured.

End DnsBlocker.

(** ** python/blocking/categories.py *)

Module Categories.

Inductive BlockCategory :=
| ADULT | GAMBLING | SOCIAL_MEDIA | GAMING | STREAMING | DATING | VIOLENCE
| DRUGS | WEAPONS | MALWARE | PHISHING | ADVERTISING | CRYPTOCURRENCY
| VPN_PROXY | FILE_SHARING | MESSAGING | CUSTOM.

Global Instance BlockCategory_eq_dec : EqDecision BlockCategory.
Proof. solve_decision. Defined.

(** [category.value] *)
Definition value (c : BlockCategory) : string :=
  match c with
  | ADULT => "adult" | GAMBLING => "gambling" | SOCIAL_MEDIA => "social_media"
  | GAMING => "gaming" | STREAMING => "streaming" | DATING => "dating"
  | VIOLENCE => "violence" | DRUGS => "drugs" | WEAPONS => "weapons"
  | MALWARE => "malware" | PHISHING => "phishing"
  | ADVERTISING => "advertising" | CRYPTOCURRENCY => "cryptocurrency"
  | VPN_PROXY => "vpn_proxy" | FILE_SHARING => "file_sharing"
  | MESSAGING => "messaging" | CUSTOM => "custom"
  end.

(** [BlockCategory(s)]: the member whose value is [s]. *)
Definition of_value (s : string) : option BlockCategory :=
  List.find (fun c => String.eqb (value c) s)
    [ ADULT; GAMBLING; SOCIAL_MEDIA; GAMING; STREAMING; DATING; VIOLENCE;
      DRUGS; WEAPONS; MALWARE; PHISHING; ADVERTISING; CRYPTOCURRENCY;
      VPN_PROXY; FILE_SHARING; MESSAGING; CUSTOM ].

Global Program Instance BlockCategory_countable : Countable BlockCategory :=
  inj_countable value of_value _.
Next Obligation. by intros []. Qed.

(** [domains] is a set display in the source; only membership tests read
    it, so it is kept as the list of its elements. *)
Record CategoryDefinition := {
  name : string;
  description : string;
  severity : string;
  domains : list string;
  keywords : list string;
  url_patterns : list string }.

(** [CATEGORY_DEFINITIONS], in the order of the dictionary display. *)
Definition CATEGORY_DEFINITIONS : list (BlockCategory * CategoryDefinition) :=
  [ (ADULT,
     {| name := "Adult Content";
        description := "Pornographic and adult-only websites";
        severity := "critical";
        domains :=
          [ "pornhub.com"; "xvideos.com"; "xnxx.com"; "xhamster.com";
            "redtube.com"; "youporn.com"; "tube8.com"; "spankbang.com";
            "brazzers.com"; "bangbros.com"; "onlyfans.com"; "chaturbate.com";
            "stripchat.com"; "livejasmin.com"; "cam4.com"; "bongacams.com";
            "porntrex.com"; "hqporner.com"; "eporner.com"; "tnaflix.com" ];
        keywords :=
          [ "porn"; "xxx"; "adult"; "nsfw"; "nude"; "naked";
            "sex video"; "hardcore"; "escort" ];
        url_patterns := [] |});
    (GAMBLING,
     {| name := "Gambling";
        description := "Online gambling and betting websites";
        severity := "high";
        domains :=
          [ "bet365.com"; "draftkings.com"; "fanduel.com"; "betmgm.com";
            "caesars.com"; "pokerstars.com"; "888poker.com"; "partypoker.com";
            "bovada.lv"; "stake.com"; "betway.com"; "unibet.com";
            "williamhill.com"; "paddypower.com"; "ladbrokes.com";
            "betfair.com"; "1xbet.com"; "pinnacle.com" ];
        keywords :=
          [ "gambling"; "casino"; "poker"; "betting"; "sportsbook";
            "slot machine"; "blackjack"; "roulette" ];
        url_patterns := [] |});
    (SOCIAL_MEDIA,
     {| name := "Social Media";
        description := "Social networking platforms";
        severity := "low";
        domains :=
          [ "facebook.com"; "instagram.com"; "twitter.com"; "x.com";
            "tiktok.com"; "snapchat.com"; "linkedin.com"; "pinterest.com";
            "tumblr.com"; "reddit.com"; "threads.net"; "mastodon.social";
            "bsky.app"; "truthsocial.com" ];
        keywords := []; url_patterns := [] |});
    (GAMING,
     {| name := "Gaming";
        description := "Online games and gaming platforms";
        severity := "low";
        domains :=
          [ "steampowered.com"; "store.steampowered.com"; "epicgames.com";
            "roblox.com"; "minecraft.net"; "fortnite.com"; "ea.com";
            "blizzard.com"; "ubisoft.com"; "xbox.com"; "playstation.com";
            "nintendo.com"; "gog.com"; "twitch.tv"; "itch.io";
            "kongregate.com"; "miniclip.com"; "poki.com"; "crazygames.com" ];
        keywords := []; url_patterns := [] |});
    (STREAMING,
     {| name := "Streaming";
        description := "Video and music streaming services";
        severity := "low";
        domains :=
          [ "youtube.com"; "netflix.com"; "hulu.com"; "disneyplus.com";
            "hbomax.com"; "max.com"; "peacocktv.com"; "paramountplus.com";
            "primevideo.com"; "twitch.tv"; "crunchyroll.com"; "funimation.com";
            "spotify.com"; "soundcloud.com"; "pandora.com"; "tidal.com";
            "deezer.com"; "vimeo.com"; "dailymotion.com" ];
        keywords := []; url_patterns := [] |});
    (DATING,
     {| name := "Dating";
        description := "Dating and relationship websites";
        severity := "medium";
        domains :=
          [ "tinder.com"; "bumble.com"; "hinge.co"; "match.com";
            "okcupid.com"; "plentyoffish.com"; "eharmony.com"; "zoosk.com";
            "grindr.com"; "her.app"; "coffee-meets-bagel.com" ];
        keywords := [ "dating"; "hookup"; "singles"; "meet singles" ];
        url_patterns := [] |});
    (VIOLENCE,
     {| name := "Violence";
        description := "Violent or disturbing content";
        severity := "critical";
        domains :=
          [ "liveleak.com"; "bestgore.com"; "theync.com"; "crazyshit.com";
            "documentingreality.com" ];
        keywords := [ "gore"; "death video"; "execution"; "murder video" ];
        url_patterns := [] |});
    (DRUGS,
     {| name := "Drugs";
        description := "Drug-related content";
        severity := "critical";
        domains :=
          [ "erowid.org"; "drugs-forum.com"; "420magazine.com";
            "grasscity.com"; "shroomery.org" ];
        keywords :=
          [ "buy drugs"; "drug dealer"; "cannabis seeds"; "psychedelics" ];
        url_patterns := [] |});
    (WEAPONS,
     {| name := "Weapons";
        description := "Weapons sales and related content";
        severity := "high";
        domains :=
          [ "gunbroker.com"; "budsgunshop.com"; "palmettostatearmory.com";
            "cheaperthandirt.com"; "midwayusa.com" ];
        keywords := [ "buy guns"; "firearms sale"; "ammunition sale" ];
        url_patterns := [] |});
    (VPN_PROXY,
     {| name := "VPN/Proxy Services";
        description := "VPN and proxy services that could bypass monitoring";
        severity := "high";
        domains :=
          [ "nordvpn.com"; "expressvpn.com"; "surfshark.com"; "cyberghostvpn.com";
            "privateinternetaccess.com"; "protonvpn.com"; "mullvad.net";
            "torproject.org"; "hidemyass.com"; "hotspotshield.com";
            "tunnelbear.com"; "windscribe.com"; "hide.me"; "proxify.com";
            "kproxy.com"; "proxysite.com"; "whoer.net" ];
        keywords :=
          [ "vpn download"; "anonymous proxy"; "hide ip"; "unblock sites" ];
        url_patterns := [] |});
    (FILE_SHARING,
     {| name := "File Sharing";
        description := "Torrents and file sharing platforms";
        severity := "medium";
        domains :=
          [ "thepiratebay.org"; "1337x.to"; "rarbg.to"; "yts.mx";
            "kickasstorrents.to"; "limetorrents.info"; "torrentz2.eu";
            "nyaa.si"; "rutracker.org"; "mega.nz"; "rapidgator.net";
            "mediafire.com"; "zippyshare.com" ];
        keywords := [ "torrent download"; "free movies download"; "pirated" ];
        url_patterns := [] |});
    (MESSAGING,
     {| name := "Messaging Apps";
        description := "Instant messaging and chat platforms";
        severity := "low";
        domains :=
          [ "whatsapp.com"; "web.whatsapp.com"; "telegram.org"; "web.telegram.org";
            "signal.org"; "discord.com"; "slack.com"; "messenger.com";
            "teams.microsoft.com"; "zoom.us"; "skype.com"; "viber.com" ];
        keywords := []; url_patterns := [] |});
    (ADVERTISING,
     {| name := "Advertising";
        description := "Ad networks and tracking";
        severity := "low";
        domains :=
          [ "doubleclick.net"; "googlesyndication.com"; "googleadservices.com";
            "facebook.com/tr"; "adnxs.com"; "criteo.com"; "taboola.com";
            "outbrain.com"; "amazon-adsystem.com"; "adsrvr.org" ];
        keywords := []; url_patterns := [] |});
    (CRYPTOCURRENCY,
     {| name := "Cryptocurrency";
        description := "Cryptocurrency trading and mining";
        severity := "medium";
        domains :=
          [ "coinbase.com"; "binance.com"; "kraken.com"; "crypto.com";
            "robinhood.com"; "ftx.com"; "kucoin.com"; "gemini.com";
            "bitfinex.com"; "blockchain.com"; "nicehash.com" ];
        keywords := [ "buy bitcoin"; "crypto trading"; "mining pool" ];
        url_patterns := [] |});
    (MALWARE,
     {| name := "Malware";
        description := "Known malware and phishing domains";
        severity := "critical";
        domains := []; keywords := []; url_patterns := [] |});
    (PHISHING,
     {| name := "Phishing";
        description := "Phishing and scam websites";
        severity := "critical";
        domains := []; keywords := []; url_patterns := [] |});
    (CUSTOM,
     {| name := "Custom";
        description := "User-defined blocked sites";
        severity := "medium";
        domains := []; keywords := []; url_patterns := [] |}) ].

(** The test of the inner loop of [check_domain_category]. *)
Definition domain_matches (domain blocked_domain : string) : bool :=
  String.eqb domain blocked_domain
  || PyStr.endswith domain ("." +:+ blocked_domain).

(** [check_domain_category], over a table of definitions. *)
Definition check_domain_category_in
    (defs : list (BlockCategory * CategoryDefinition)) (domain : string)
    : list BlockCategory :=
  let domain := PyStr.lower domain in
  fst <$> filter (fun cd => existsb (domain_matches domain) (domains cd.2)) defs.

Definition check_domain_category : string -> list BlockCategory :=
  check_domain_category_in CATEGORY_DEFINITIONS.

(** [check_url_keywords] *)
Definition check_url_keywords_in
    (defs : list (BlockCategory * CategoryDefinition)) (url content : string)
    : list BlockCategory :=
  let combined := PyStr.lower (url +:+ " " +:+ content) in
  fst <$> filter
    (fun cd => existsb (fun keyword => PyStr.contains (PyStr.lower keyword) combined)
                       (keywords cd.2)) defs.

Definition check_url_keywords : string -> string -> list BlockCategory :=
  check_url_keywords_in CATEGORY_DEFINITIONS.


(** [category.name] *)
Definition member_name (c : BlockCategory) : string :=
  match c with
  | ADULT => "ADULT" | GAMBLING => "GAMBLING" | SOCIAL_MEDIA => "SOCIAL_MEDIA"
  | GAMING => "GAMING" | STREAMING => "STREAMING" | DATING => "DATING"
  | VIOLENCE => "VIOLENCE" | DRUGS => "DRUGS" | WEAPONS => "WEAPONS"
  | MALWARE => "MALWARE" | PHISHING => "PHISHING"
  | ADVERTISING => "ADVERTISING" | CRYPTOCURRENCY => "CRYPTOCURRENCY"
  | VPN_PROXY => "VPN_PROXY" | FILE_SHARING => "FILE_SHARING"
  | MESSAGING => "MESSAGING" | CUSTOM => "CUSTOM"
  end.

(** The members of [BlockCategory], in the order of the class body. *)
Definition members : list BlockCategory :=
  [ ADULT; GAMBLING; SOCIAL_MEDIA; GAMING; STREAMING; DATING; VIOLENCE;
    DRUGS; WEAPONS; MALWARE; PHISHING; ADVERTISING; CRYPTOCURRENCY;
    VPN_PROXY; FILE_SHARING; MESSAGING; CUSTOM ].

(** [get_category]: [None] stands for the [ValueError] it raises. *)
Definition get_category (category : string) : option BlockCategory :=
  match of_value (PyStr.lower category) with
  | Some c => Some c
  | None =>
      List.find (fun cat => String.eqb (PyStr.lower (member_name cat))
                                       (PyStr.lower category)) members
  end.

(** [get_category_definition]: the table entry, the entry of [CUSTOM] when
    the table has none. *)
Definition lookup_definition (defs : list (BlockCategory * CategoryDefinition))
    (c : BlockCategory) : option CategoryDefinition :=
  snd <$> List.find (fun cd => bool_decide (cd.1 = c)) defs.

Definition get_category_definition (c : BlockCategory) : option CategoryDefinition :=
  match lookup_definition CATEGORY_DEFINITIONS c with
  | Some d => Some d
  | None => lookup_definition CATEGORY_DEFINITIONS CUSTOM
  end.

End Categories.

(** ** python/blocking/schedules.py *)

Module Schedules.

Inductive DayOfWeek :=
| MONDAY | TUESDAY | WEDNESDAY | THURSDAY | FRIDAY | SATURDAY | SUNDAY.

Global Instance DayOfWeek_eq_dec : EqDecision DayOfWeek.
Proof. solve_decision. Defined.

(** [DayOfWeek(n)] for [n] in [0..6]. *)
Definition DayOfWeek_of (n : Z) : DayOfWeek :=
  match n with
  | 0 => MONDAY | 1 => TUESDAY | 2 => WEDNESDAY | 3 => THURSDAY
  | 4 => FRIDAY | 5 => SATURDAY | _ => SUNDAY
  end%Z.

Inductive ScheduleType :=
| ALWAYS_BLOCK | NEVER_BLOCK | TIME_RANGE | ALLOW_RANGE | CUSTOM.

Global Instance ScheduleType_eq_dec : EqDecision ScheduleType.
Proof. solve_decision. Defined.

(** [datetime.date], [datetime.time] and [datetime.datetime]: a proleptic
    Gregorian date and a time of day whose fields are in range. *)
Record date := { year : Z; month : Z; day : Z }.
Record time := { hour : Z; minute : Z; second : Z; microsecond : Z }.
Record datetime := { dt_date : date; dt_time : time }.

Definition is_leap (y : Z) : bool :=
  ((y mod 4 =? 0) && (negb (y mod 100 =? 0) || (y mod 400 =? 0)))%Z.

Definition days_before_month (y m : Z) : Z :=
  (nth (Z.to_nat (m - 1)) [0; 31; 59; 90; 120; 151; 181; 212; 243; 273; 304; 334] 0
   + if (2 <? m) && is_leap y then 1 else 0)%Z.

(** [d.toordinal()] *)
Definition toordinal (d : date) : Z :=
  let y := (year d - 1)%Z in
  (y * 365 + y / 4 - y / 100 + y / 400 + days_before_month (year d) (month d) + day d)%Z.

(** [d.weekday()]: Monday is 0. *)
Definition weekday (d : date) : Z := ((toordinal d + 6) mod 7)%Z.

(** [d1 < d2] on dates. *)
Definition date_ltb (d1 d2 : date) : bool :=
  ((year d1 <? year d2)
   || ((year d1 =? year d2)
       && ((month d1 <? month d2)
           || ((month d1 =? month d2) && (day d1 <? day d2)))))%Z.

(** [t1 <= t2] on times of day. *)
Definition time_key (t : time) : Z :=
  (((hour t * 60 + minute t) * 60 + second t) * 1000000 + microsecond t)%Z.
Definition time_leb (t1 t2 : time) : bool := (time_key t1 <=? time_key t2)%Z.

(** [time(h, m)] *)
Definition mk_time (h m : Z) : time :=
  {| hour := h; minute := m; second := 0; microsecond := 0 |}.

Record TimeRange := {
  start_hour : Z; start_minute : Z; end_hour : Z; end_minute : Z }.

(** [TimeRange.contains] *)
Definition contains (self : TimeRange) (t : time) : bool :=
  let start := mk_time (start_hour self) (start_minute self) in
  let end_ := mk_time (end_hour self) (end_minute self) in
  if time_leb start end_ then time_leb start t && time_leb t end_
  else time_leb start t || time_leb t end_.

(** [Schedule].  [start_date] and [end_date] hold the date that
    [strptime(..., "%Y-%m-%d")] reads from the stored text; [None] stands
    for an absent or empty text. *)
Record Schedule := {
  id : string;
  name : string;
  schedule_type : ScheduleType;
  enabled : bool;
  categories : gset string;
  domains : gset string;
  time_ranges : list (DayOfWeek * list TimeRange);
  start_date : option date;
  end_date : option date;
  priority : Z;
  created_at : option string;
  updated_at : option string }.

(** [self.time_ranges.get(day, [])] *)
Definition day_ranges (self : Schedule) (day : DayOfWeek) : list TimeRange :=
  match List.find (fun kv => bool_decide (kv.1 = day)) (time_ranges self) with
  | Some kv => kv.2
  | None => []
  end.

Definition before_start (self : Schedule) (dt : datetime) : bool :=
  match start_date self with
  | Some start => date_ltb (dt_date dt) start
  | None => false
  end.

Definition after_end (self : Schedule) (dt : datetime) : bool :=
  match end_date self with
  | Some end_ => date_ltb end_ (dt_date dt)
  | None => false
  end.

(** [Schedule.is_active_now] *)
Definition is_active_now (self : Schedule) (dt : datetime) : bool :=
  if negb (enabled self) then false
  else if before_start self dt then false
  else if after_end self dt then false
  else match schedule_type self with
  | ALWAYS_BLOCK => true
  | NEVER_BLOCK => false
  | TIME_RANGE =>
      existsb (fun r => contains r (dt_time dt))
              (day_ranges self (DayOfWeek_of (weekday (dt_date dt))))
  | ALLOW_RANGE =>
      negb (existsb (fun r => contains r (dt_time dt))
                    (day_ranges self (DayOfWeek_of (weekday (dt_date dt)))))
  | CUSTOM => false
  end.

(** The domain test of [Schedule.should_block]. *)
Definition domain_hit (self : Schedule) (domain : string) : bool :=
  PyStr.truthy domain
  && existsb (fun blocked =>
                String.eqb (PyStr.lower domain) blocked
                || PyStr.endswith (PyStr.lower domain) ("." +:+ blocked))
             (elements (domains self)).

(** The category test of [Schedule.should_block]. *)
Definition category_hit (self : Schedule) (category : string) : bool :=
  PyStr.truthy category
  && bool_decide (PyStr.lower category ∈ set_map (D := gset string) PyStr.lower (categories self)).

(** [Schedule.should_block]; [now] is the reading of [datetime.now()]. *)
Definition should_block (self : Schedule) (now : datetime)
    (domain category : string) : bool :=
  if negb (is_active_now self now) then false
  else if domain_hit self domain then true
  else if category_hit self category then true
  else if bool_decide (domains self = ∅) && bool_decide (categories self = ∅) then true
  else false.

(** [sorted(xs, key=key, reverse=True)]: a stable sort, greatest key
    first; elements with equal keys keep their order in [xs]. *)
Fixpoint insert_desc {A} (key : A -> Z) (x : A) (l : list A) : list A :=
  match l with
  | [] => [x]
  | y :: l' => if (key x <? key y)%Z then y :: insert_desc key x l' else x :: l
  end.

Definition sorted_reverse {A} (key : A -> Z) (xs : list A) : list A :=
  foldr (insert_desc key) [] xs.

(** [ScheduleManager]: [schedules] is the dictionary, oldest key first. *)
Record ScheduleManager := { schedules : list (string * Schedule) }.

(** [ScheduleManager.add_schedule]; [now] is [datetime.now().isoformat()]. *)
Definition add_schedule (self : ScheduleManager) (now : string) (s : Schedule)
    : ScheduleManager :=
  let s' := {| id := id s; name := name s; schedule_type := schedule_type s;
               enabled := enabled s; categories := categories s;
               domains := domains s; time_ranges := time_ranges s;
               start_date := start_date s; end_date := end_date s;
               priority := priority s;
               created_at := Some now; updated_at := Some now |} in
  {| schedules := PyDict.set (schedules self) (id s) s' |}.

(** [ScheduleManager.delete_schedule] *)
Definition delete_schedule (self : ScheduleManager) (schedule_id : string)
    : ScheduleManager :=
  {| schedules := PyDict.del (schedules self) schedule_id |}.

(** The loop of [ScheduleManager.should_block] over the sorted schedules. *)
Fixpoint first_blocking (now : datetime) (domain category : string)
    (l : list Schedule) : bool * option string :=
  match l with
  | [] => (false, None)
  | s :: l' =>
      if should_block s now domain category then (true, Some (id s))
      else first_blocking now domain category l'
  end.


(** The dictionary of [TimeRange.to_dict]: the values under ["start"] and
    ["end"]. *)
Record TimeRangeDict := { dict_start : string; dict_end : string }.

(** [TimeRange.to_dict] *)
Definition to_dict (self : TimeRange) : TimeRangeDict :=
  {| dict_start := PyStr.format_02d (start_hour self) +:+ ":"
                   +:+ PyStr.format_02d (start_minute self);
     dict_end := PyStr.format_02d (end_hour self) +:+ ":"
                 +:+ PyStr.format_02d (end_minute self) |}.

(** [int(parts[0]), int(parts[1])] for [parts = text.split(":")]; [None]
    stands for the [IndexError] or [ValueError] raised. *)
Definition hour_minute (text : string) : option (Z * Z) :=
  match PyStr.split_on ":" text with
  | h :: m :: _ =>
      match PyStr.int h, PyStr.int m with
      | Some h, Some m => Some (h, m)
      | _, _ => None
      end
  | _ => None
  end.

(** [TimeRange.from_dict] *)
Definition from_dict (data : TimeRangeDict) : option TimeRange :=
  match hour_minute (dict_start data), hour_minute (dict_end data) with
  | Some (sh, sm), Some (eh, em) =>
      Some {| start_hour := sh; start_minute := sm; end_hour := eh; end_minute := em |}
  | _, _ => None
  end.

(** [TimeRange.__str__] *)
Definition to_str (self : TimeRange) : string :=
  PyStr.format_02d (start_hour self) +:+ ":" +:+ PyStr.format_02d (start_minute self)
  +:+ "-" +:+ PyStr.format_02d (end_hour self) +:+ ":"
  +:+ PyStr.format_02d (end_minute self).

(** The schedule as [add_schedule] files it. *)
Definition stamped (now : string) (s : Schedule) : Schedule :=
  {| id := id s; name := name s; schedule_type := schedule_type s;
     enabled := enabled s; categories := categories s;
     domains := domains s; time_ranges := time_ranges s;
     start_date := start_date s; end_date := end_date s;
     priority := priority s;
     created_at := Some now; updated_at := Some now |}.

(** [ScheduleManager.get_schedule] *)
Definition get_schedule (self : ScheduleManager) (schedule_id : string)
    : option Schedule :=
  PyDict.get (schedules self) schedule_id.

(** The value [ScheduleManager.delete_schedule] returns. *)
Definition delete_schedule_result (self : ScheduleManager) (schedule_id : string)
    : bool :=
  bool_decide (is_Some (PyDict.get (schedules self) schedule_id)).

End Schedules.

Module ScheduleManager.

(** [ScheduleManager.should_block].  The [dt] argument of the source is
    not read: every schedule asks the clock. *)
Definition should_block (self : Schedules.ScheduleManager)
    (now : Schedules.datetime) (domain category : string)
    : bool * option string :=
  let sorted_schedules :=
    Schedules.sorted_reverse Schedules.priority
      (PyDict.values (Schedules.schedules self)) in
  Schedules.first_blocking now domain category sorted_schedules.

(** [ScheduleManager.get_active_schedules] *)
Definition get_active_schedules (self : Schedules.ScheduleManager)
    (now : Schedules.datetime) : list Schedules.Schedule :=
  filter (fun s => Schedules.is_active_now s now = true)
         (PyDict.values (Schedules.schedules self)).

End ScheduleManager.

(** ** python/blocking/blocker.py *)

Module Blocker.

Import Categories.

Record BlockRule := {
  rule_id_ : string;
  rule_type_ : string;
  rule_value : string;
  rule_enabled : bool;
  rule_reason : string;
  rule_created_at : option string }.

Record BlockDecision := {
  should_block : bool;
  reason : string;
  rule_id : option string;
  rule_type : option string;
  category : option string;
  schedule_id : option string;
  timestamp : Schedules.datetime }.

(** A compiled [re.Pattern]: the text it was compiled from.  All patterns
    of the engine are compiled with [re.I]. *)
Record Pattern := { pattern : string }.

Record BlockingEngine := {
  schedule_manager : Schedules.ScheduleManager;
  blocked_domains : gset string;
  blocked_categories : gset BlockCategory;
  blocked_keywords : list string;
  url_patterns : list Pattern;
  custom_rules : list (string * BlockRule);
  whitelisted_domains : gset string }.

(** What [_save_config] writes to the configuration file. *)
Record ConfigData := {
  cfg_blocked_domains : gset string;
  cfg_whitelisted_domains : gset string;
  cfg_blocked_categories : gset string;
  cfg_blocked_keywords : list string;
  cfg_url_patterns : list string;
  cfg_custom_rules : list BlockRule }.

(** [BlockingEngine._save_config] *)
Definition _save_config (self : BlockingEngine) : ConfigData :=
  {| cfg_blocked_domains := blocked_domains self;
     cfg_whitelisted_domains := whitelisted_domains self;
     cfg_blocked_categories := set_map value (blocked_categories self);
     cfg_blocked_keywords := blocked_keywords self;
     cfg_url_patterns := pattern <$> url_patterns self;
     cfg_custom_rules := PyDict.values (custom_rules self) |}.

(** [BlockingEngine._is_whitelisted] *)
Definition _is_whitelisted (self : BlockingEngine) (domain : string) : bool :=
  existsb (fun whitelisted =>
             String.eqb domain whitelisted
             || PyStr.endswith domain ("." +:+ whitelisted))
          (elements (whitelisted_domains self)).

(** [BlockingEngine._check_domain_block] *)
Definition _check_domain_block (self : BlockingEngine) (domain : string) : bool :=
  existsb (fun blocked =>
             String.eqb domain blocked
             || PyStr.endswith domain ("." +:+ blocked))
          (elements (blocked_domains self)).

(** [BlockingEngine._check_keywords] *)
Definition _check_keywords (self : BlockingEngine) (url content : string)
    : option string :=
  let combined := PyStr.lower (url +:+ " " +:+ content) in
  List.find (fun keyword => PyStr.contains (PyStr.lower keyword) combined)
            (blocked_keywords self).

Definition allow (now : Schedules.datetime) (why : string) : BlockDecision :=
  {| should_block := false; reason := why; rule_id := None; rule_type := None;
     category := None; schedule_id := None; timestamp := now |}.

Definition block (now : Schedules.datetime) (why : string)
    (rid rtype cat sid : option string) : BlockDecision :=
  {| should_block := true; reason := why; rule_id := rid; rule_type := rtype;
     category := cat; schedule_id := sid; timestamp := now |}.

(** The first loop of step "Check categories": the first category of the
    domain that the policy blocks. *)
Definition blocked_category_of (self : BlockingEngine)
    (cats : list BlockCategory) : option BlockCategory :=
  List.find (fun c => bool_decide (c ∈ blocked_categories self)) cats.

(** The loop over [categories] of step "Check time-based schedules". *)
Fixpoint schedule_for_categories (self : BlockingEngine)
    (now : Schedules.datetime) (domain : string) (cats : list BlockCategory)
    : option (BlockCategory * option string) :=
  match cats with
  | [] => None
  | c :: cats' =>
      let '(blocked, sid) :=
        ScheduleManager.should_block (schedule_manager self) now domain (value c) in
      if blocked then Some (c, sid)
      else schedule_for_categories self now domain cats'
  end.

(** The test of the loop of step "Check custom rules". *)
Definition custom_rule_hits (domain : string) (rule : BlockRule) : bool :=
  rule_enabled rule
  && String.eqb (rule_type_ rule) "domain"
  && String.eqb domain (PyStr.lower (rule_value rule)).

(** [rule.reason or f"Custom rule: {rule.value}"] *)
Definition custom_reason (rule : BlockRule) : string :=
  if PyStr.truthy (rule_reason rule) then rule_reason rule
  else "Custom rule: " +:+ rule_value rule.

(** [str(schedule_id)] inside the f-string of the schedule step. *)
Definition show_id (sid : option string) : string := default "None" sid.

Section Check.

(** [p.search(url)] for a pattern compiled with [re.I]: the regular
    expression engine is the interpreter's. *)
Variable re_search : Pattern -> string -> bool.

(** [BlockingEngine._check_url_patterns] *)
Definition _check_url_patterns (self : BlockingEngine) (url : string)
    : option string :=
  pattern <$> List.find (fun p => re_search p url) (url_patterns self).

(** [BlockingEngine.check].  The result is the decision together with
    the decisions handed to [_notify_block] (one per registered
    callback; a callback that raises is ignored). *)
Definition check (self : BlockingEngine) (now : Schedules.datetime)
    (domain url content : string) (check_schedule : bool)
    : BlockDecision * list BlockDecision :=
  let domain := PyStr.strip (PyStr.lower domain) in
  let url := PyStr.strip (PyStr.lower url) in
  let notify d := (d, [d]) in
  if _is_whitelisted self domain then
    (allow now "Domain is whitelisted", [])
  else if _check_domain_block self domain then
    notify (block now ("Domain blocked: " +:+ domain) None (Some "domain") None None)
  else
  let matched_pattern := _check_url_patterns self url in
  if PyStr.truthy_opt matched_pattern then
    notify (block now ("URL pattern matched: " +:+ show_id matched_pattern)
                  None (Some "url_pattern") None None)
  else
  let categories := check_domain_category domain in
  match blocked_category_of self categories with
  | Some c =>
      notify (block now ("Category blocked: " +:+ value c)
                    None (Some "category") (Some (value c)) None)
  | None =>
  match (if check_schedule
         then schedule_for_categories self now domain categories
         else None) with
  | Some (c, sid) =>
      notify (block now ("Blocked by schedule: " +:+ show_id sid)
                    None (Some "schedule") (Some (value c)) sid)
  | None =>
  match (if check_schedule
         then ScheduleManager.should_block (schedule_manager self) now domain ""
         else (false, None)) with
  | (true, sid) =>
      notify (block now ("Blocked by schedule: " +:+ show_id sid)
                    None (Some "schedule") None sid)
  | (false, _) =>
  let keyword_categories := check_url_keywords url content in
  match blocked_category_of self keyword_categories with
  | Some c =>
      notify (block now ("Keyword matched in " +:+ value c)
                    None (Some "keyword") (Some (value c)) None)
  | None =>
  let matched_keyword := _check_keywords self url content in
  if PyStr.truthy_opt matched_keyword then
    notify (block now ("Keyword blocked: " +:+ show_id matched_keyword)
                  None (Some "keyword") None None)
  else
  match List.find (custom_rule_hits domain) (PyDict.values (custom_rules self)) with
  | Some rule =>
      notify (block now (custom_reason rule)
                    (Some (rule_id_ rule)) (Some "custom") None None)
  | None => (allow now "Allowed", [])
  end end end end end.

End Check.

(** [BlockingEngine.block_domain]: the new engine and the file written;
    the call returns [True]. *)
Definition block_domain (self : BlockingEngine) (domain : string)
    : BlockingEngine * ConfigData :=
  let domain := PyStr.strip (PyStr.lower domain) in
  let self' :=
    {| schedule_manager := schedule_manager self;
       blocked_domains := blocked_domains self ∪ {[ domain ]};
       blocked_categories := blocked_categories self;
       blocked_keywords := blocked_keywords self;
       url_patterns := url_patterns self;
       custom_rules := custom_rules self;
       whitelisted_domains := whitelisted_domains self |} in
  (self', _save_config self').

(** [BlockingEngine.unblock_domain] *)
Definition unblock_domain (self : BlockingEngine) (domain : string)
    : BlockingEngine * ConfigData :=
  let domain := PyStr.strip (PyStr.lower domain) in
  let self' :=
    {| schedule_manager := schedule_manager self;
       blocked_domains := blocked_domains self ∖ {[ domain ]};
       blocked_categories := blocked_categories self;
       blocked_keywords := blocked_keywords self;
       url_patterns := url_patterns self;
       custom_rules := custom_rules self;
       whitelisted_domains := whitelisted_domains self |} in
  (self', _save_config self').

(** [engine.block_domain(d); engine.unblock_domain(d)] *)
Definition block_then_unblock (self : BlockingEngine) (domain : string)
    : BlockingEngine :=
  (unblock_domain (block_domain self domain).1 domain).1.


(** The engine with one field replaced. *)
Definition with_whitelist (self : BlockingEngine) (w : gset string) : BlockingEngine :=
  {| schedule_manager := schedule_manager self;
     blocked_domains := blocked_domains self;
     blocked_categories := blocked_categories self;
     blocked_keywords := blocked_keywords self;
     url_patterns := url_patterns self;
     custom_rules := custom_rules self;
     whitelisted_domains := w |}.

Definition with_categories (self : BlockingEngine) (c : gset BlockCategory)
    : BlockingEngine :=
  {| schedule_manager := schedule_manager self;
     blocked_domains := blocked_domains self;
     blocked_categories := c;
     blocked_keywords := blocked_keywords self;
     url_patterns := url_patterns self;
     custom_rules := custom_rules self;
     whitelisted_domains := whitelisted_domains self |}.

Definition with_keywords (self : BlockingEngine) (k : list string) : BlockingEngine :=
  {| schedule_manager := schedule_manager self;
     blocked_domains := blocked_domains self;
     blocked_categories := blocked_categories self;
     blocked_keywords := k;
     url_patterns := url_patterns self;
     custom_rules := custom_rules self;
     whitelisted_domains := whitelisted_domains self |}.

Definition with_patterns (self : BlockingEngine) (p : list Pattern) : BlockingEngine :=
  {| schedule_manager := schedule_manager self;
     blocked_domains := blocked_domains self;
     blocked_categories := blocked_categories self;
     blocked_keywords := blocked_keywords self;
     url_patterns := p;
     custom_rules := custom_rules self;
     whitelisted_domains := whitelisted_domains self |}.

Definition with_rules (self : BlockingEngine) (r : list (string * BlockRule))
    : BlockingEngine :=
  {| schedule_manager := schedule_manager self;
     blocked_domains := blocked_domains self;
     blocked_categories := blocked_categories self;
     blocked_keywords := blocked_keywords self;
     url_patterns := url_patterns self;
     custom_rules := r;
     whitelisted_domains := whitelisted_domains self |}.

(** [BlockingEngine.whitelist_domain] / [remove_whitelist]: the new engine
    and the file written; both return [True]. *)
Definition whitelist_domain (self : BlockingEngine) (domain : string)
    : BlockingEngine * ConfigData :=
  let domain := PyStr.strip (PyStr.lower domain) in
  let self' := with_whitelist self (whitelisted_domains self ∪ {[ domain ]}) in
  (self', _save_config self').

Definition remove_whitelist (self : BlockingEngine) (domain : string)
    : BlockingEngine * ConfigData :=
  let domain := PyStr.strip (PyStr.lower domain) in
  let self' := with_whitelist self (whitelisted_domains self ∖ {[ domain ]}) in
  (self', _save_config self').

(** [BlockingEngine.block_category] / [unblock_category]: the new engine,
    the file written if any, and the value returned ([False] for an unknown
    category, which changes nothing). *)
Definition block_category (self : BlockingEngine) (category : string)
    : BlockingEngine * option ConfigData * bool :=
  match get_category category with
  | Some cat =>
      let self' := with_categories self (blocked_categories self ∪ {[ cat ]}) in
      (self', Some (_save_config self'), true)
  | None => (self, None, false)
  end.

Definition unblock_category (self : BlockingEngine) (category : string)
    : BlockingEngine * option ConfigData * bool :=
  match get_category category with
  | Some cat =>
      let self' := with_categories self (blocked_categories self ∖ {[ cat ]}) in
      (self', Some (_save_config self'), true)
  | None => (self, None, false)
  end.

(** [BlockingEngine.add_keyword] *)
Definition add_keyword (self : BlockingEngine) (keyword : string)
    : BlockingEngine * option ConfigData * bool :=
  if existsb (String.eqb (PyStr.lower keyword)) (PyStr.lower <$> blocked_keywords self)
  then (self, None, false)
  else
    let self' := with_keywords self (blocked_keywords self ++ [keyword]) in
    (self', Some (_save_config self'), true).

(** The loop of [remove_keyword]: the list without the first keyword equal
    to [keyword_lower] up to case, [None] when there is none. *)
Fixpoint pop_keyword (keyword_lower : string) (ks : list string) : option (list string) :=
  match ks with
  | [] => None
  | k :: ks' =>
      if String.eqb (PyStr.lower k) keyword_lower then Some ks'
      else cons k <$> pop_keyword keyword_lower ks'
  end.

(** [BlockingEngine.remove_keyword] *)
Definition remove_keyword (self : BlockingEngine) (keyword : string)
    : BlockingEngine * option ConfigData * bool :=
  match pop_keyword (PyStr.lower keyword) (blocked_keywords self) with
  | Some ks =>
      let self' := with_keywords self ks in
      (self', Some (_save_config self'), true)
  | None => (self, None, false)
  end.

(** The loop of [remove_url_pattern]. *)
Fixpoint pop_pattern (text : string) (ps : list Pattern) : option (list Pattern) :=
  match ps with
  | [] => None
  | p :: ps' =>
      if String.eqb (pattern p) text then Some ps'
      else cons p <$> pop_pattern text ps'
  end.

(** [BlockingEngine.remove_url_pattern] *)
Definition remove_url_pattern (self : BlockingEngine) (text : string)
    : BlockingEngine * option ConfigData * bool :=
  match pop_pattern text (url_patterns self) with
  | Some ps =>
      let self' := with_patterns self ps in
      (self', Some (_save_config self'), true)
  | None => (self, None, false)
  end.

(** [BlockingEngine.add_rule]; [now] is [datetime.now().isoformat()]. *)
Definition add_rule (self : BlockingEngine) (now : string) (rule : BlockRule)
    : BlockingEngine * ConfigData :=
  let rule := {| rule_id_ := rule_id_ rule; rule_type_ := rule_type_ rule;
                 rule_value := rule_value rule; rule_enabled := rule_enabled rule;
                 rule_reason := rule_reason rule; rule_created_at := Some now |} in
  let self' := with_rules self (PyDict.set (custom_rules self) (rule_id_ rule) rule) in
  (self', _save_config self').

(** [BlockingEngine.remove_rule] *)
Definition remove_rule (self : BlockingEngine) (rid : string)
    : BlockingEngine * option ConfigData * bool :=
  match PyDict.get (custom_rules self) rid with
  | Some _ =>
      let self' := with_rules self (PyDict.del (custom_rules self) rid) in
      (self', Some (_save_config self'), true)
  | None => (self, None, false)
  end.

Definition set_enabled (rule : BlockRule) (b : bool) : BlockRule :=
  {| rule_id_ := rule_id_ rule; rule_type_ := rule_type_ rule;
     rule_value := rule_value rule; rule_enabled := b;
     rule_reason := rule_reason rule; rule_created_at := rule_created_at rule |}.

(** [BlockingEngine.enable_rule] ([b] true) and [disable_rule] ([b] false). *)
Definition switch_rule (b : bool) (self : BlockingEngine) (rid : string)
    : BlockingEngine * option ConfigData * bool :=
  match PyDict.get (custom_rules self) rid with
  | Some rule =>
      let self' := with_rules self (PyDict.set (custom_rules self) rid (set_enabled rule b)) in
      (self', Some (_save_config self'), true)
  | None => (self, None, false)
  end.

Definition enable_rule := switch_rule true.
Definition disable_rule := switch_rule false.

(** The engine of [__init__] before the configuration is read. *)
Definition new_engine (sm : Schedules.ScheduleManager) : BlockingEngine :=
  {| schedule_manager := sm; blocked_domains := ∅; blocked_categories := ∅;
     blocked_keywords := []; url_patterns := []; custom_rules := [];
     whitelisted_domains := ∅ |}.

Section Config.

(** Whether [re.compile(text, re.I)] takes the text; it raises [re.error]
    otherwise. *)
Variable re_valid : string -> bool.

(** [BlockingEngine.add_url_pattern] *)
Definition add_url_pattern (self : BlockingEngine) (text : string)
    : BlockingEngine * option ConfigData * bool :=
  if re_valid text then
    let self' := with_patterns self (url_patterns self ++ [ {| pattern := text |} ]) in
    (self', Some (_save_config self'), true)
  else (self, None, false).

(** [BlockingEngine._load_config] for a configuration file that exists
    and parses: unknown categories and patterns that do not compile are
    skipped. *)
Definition _load_config (self : BlockingEngine) (data : ConfigData) : BlockingEngine :=
  {| schedule_manager := schedule_manager self;
     blocked_domains := cfg_blocked_domains data;
     blocked_categories :=
       blocked_categories self
       ∪ list_to_set (omap get_category (elements (cfg_blocked_categories data)));
     blocked_keywords := cfg_blocked_keywords data;
     url_patterns :=
       url_patterns self
       ++ ((fun t => {| pattern := t |}) <$> List.filter re_valid (cfg_url_patterns data));
     custom_rules :=
       foldl (fun d rule => PyDict.set d (rule_id_ rule) rule)
             (custom_rules self) (cfg_custom_rules data);
     whitelisted_domains := cfg_whitelisted_domains data |}.

End Config.

End Blocker.

(** ** python/alerts/keywords.py *)

Module Keywords.

Inductive MatchType := EXACT | CONTAINS | REGEX | FUZZY.
Inductive AlertSeverity := LOW | MEDIUM | HIGH | CRITICAL.
Inductive AlertCategory :=
| SELF_HARM | VIOLENCE | BULLYING | DRUGS | SEXUAL | PREDATOR
| PERSONAL_INFO | PROFANITY | CUSTOM.

Global Instance AlertSeverity_eq_dec : EqDecision AlertSeverity.
Proof. solve_decision. Defined.

Record Keyword := {
  id : string;
  word : string;
  match_type : MatchType;
  category : AlertCategory;
  severity : AlertSeverity;
  enabled : bool;
  case_sensitive : bool;
  context_words : list string;
  exclude_words : list string;
  description : string }.

Record KeywordMatch := {
  keyword : Keyword;
  matched_text : string;
  context : string;
  location : string;
  match_severity : AlertSeverity;
  timestamp : string }.

(** The "Check exclusions first" loop of [Keyword.matches]. *)
Definition excluded (self : Keyword) (text : string) : bool :=
  existsb (fun exclude => PyStr.contains (PyStr.lower exclude) (PyStr.lower text))
          (exclude_words self).

(** [leetspeak_map] of [Keyword._fuzzy_match]. *)
Definition leetspeak_map (c : ascii) : option string :=
  if Ascii.eqb c "a" then Some "[a@4]"
  else if Ascii.eqb c "e" then Some "[e3]"
  else if Ascii.eqb c "i" then Some "[i1!]"
  else if Ascii.eqb c "o" then Some "[o0]"
  else if Ascii.eqb c "s" then Some "[s$5]"
  else if Ascii.eqb c "t" then Some "[t7+]"
  else if Ascii.eqb c "l" then Some "[l1]"
  else if Ascii.eqb c "b" then Some "[b8]"
  else None.

(** The severity one level up, as the branches of
    [get_severity_with_context] give it; [CRITICAL] has no branch. *)
Definition elevated (s : AlertSeverity) : option AlertSeverity :=
  match s with
  | LOW => Some MEDIUM
  | MEDIUM => Some HIGH
  | HIGH => Some CRITICAL
  | CRITICAL => None
  end.

(** The loop of [Keyword.get_severity_with_context]. *)
Fixpoint severity_loop (base : AlertSeverity) (text_lower : string)
    (words : list string) : AlertSeverity :=
  match words with
  | [] => base
  | context_word :: words' =>
      if PyStr.contains (PyStr.lower context_word) text_lower then
        match elevated base with
        | Some s => s
        | None => severity_loop base text_lower words'
        end
      else severity_loop base text_lower words'
  end.

(** [Keyword.get_severity_with_context] *)
Definition get_severity_with_context (self : Keyword) (text : string)
    : AlertSeverity :=
  match context_words self with
  | [] => severity self
  | _ => severity_loop (severity self) (PyStr.lower text) (context_words self)
  end.

(** [KeywordMatcher._extract_context] *)
Definition _extract_context (text matched : string) (context_chars : nat)
    : string :=
  match PyStr.find (PyStr.lower text) (PyStr.lower matched) with
  | None => ""
  | Some idx =>
      let start := (idx - context_chars)%nat in
      let end_ := Nat.min (String.length text)
                          (idx + String.length matched + context_chars) in
      let context := PyStr.slice text start end_ in
      let context := if (0 <? start)%nat then "..." +:+ context else context in
      if (end_ <? String.length text)%nat then context +:+ "..." else context
  end.

Section Matching.

(** The regular expression engine of the interpreter:
    [re.search(pattern, text, flags)] gives [match.group()] when there is
    a match ([ignorecase] tells whether [re.IGNORECASE] is set), and
    [re.escape]. *)
Variable re_search : forall (ignorecase : bool) (pattern text : string), option string.
Variable re_escape : string -> string.

(** The pattern [Keyword._fuzzy_match] builds. *)
Fixpoint fuzzy_pattern (word : string) : string :=
  match word with
  | EmptyString => EmptyString
  | String c word' =>
      match leetspeak_map c with
      | Some cls => cls
      | None => re_escape (String c EmptyString)
      end +:+ fuzzy_pattern word'
  end.

(** [Keyword._fuzzy_match] *)
Definition _fuzzy_match (self : Keyword) (text : string) : option string :=
  re_search true (fuzzy_pattern (PyStr.lower (word self))) text.

(** [Keyword.matches] *)
Definition matches (self : Keyword) (text : string) : bool * option string :=
  if negb (enabled self) then (false, None)
  else if excluded self text then (false, None)
  else match match_type self with
  | EXACT =>
      match re_search (negb (case_sensitive self))
              ("\b" +:+ re_escape (word self) +:+ "\b") text with
      | Some g => (true, Some g)
      | None => (false, None)
      end
  | CONTAINS =>
      let search_text := if case_sensitive self then text else PyStr.lower text in
      let search_word :=
        if case_sensitive self then word self else PyStr.lower (word self) in
      if PyStr.contains search_word search_text then (true, Some (word self))
      else (false, None)
  | REGEX =>
      match re_search (negb (case_sensitive self)) (word self) text with
      | Some g => (true, Some g)
      | None => (false, None)
      end
  | FUZZY =>
      match _fuzzy_match self text with
      | Some g => if PyStr.truthy g then (true, Some g) else (false, None)
      | None => (false, None)
      end
  end.

(** One round of the loop of [KeywordMatcher.match]; [now] is the time
    stamp of the record. *)
Definition match_one (now : string) (text location : string)
    (context_chars : nat) (kw : Keyword) : option KeywordMatch :=
  match matches kw text with
  | (true, Some matched) =>
      if PyStr.truthy matched then
        let context := _extract_context text matched context_chars in
        Some {| keyword := kw; matched_text := matched; context := context;
                location := location;
                match_severity := get_severity_with_context kw context;
                timestamp := now |}
      else None
  | _ => None
  end.

(** [KeywordMatcher.match] over [self.keywords.values()]. *)
Definition match_ (keywords : list (string * Keyword)) (now : string)
    (text location : string) (context_chars : nat) : list KeywordMatch :=
  omap (match_one now text location context_chars) (PyDict.values keywords).

End Matching.

End Keywords.

(** ** python/arp/arp_gateway.py *)

Module ArpGateway.

Record TargetDevice := {
  ip : string;
  mac : string;
  hostname : option string;
  last_seen : option string;
  active : bool }.

(** [Ether(dst=...) / ARP(op=..., pdst=..., hwdst=..., psrc=..., hwsrc=...)].
    The gateway's addresses are [None] until [start] has resolved them. *)
Record Frame := {
  eth_dst : option string;
  op : Z;
  pdst : option string;
  hwdst : option string;
  psrc : option string;
  hwsrc : option string }.

Global Instance Frame_eq_dec : EqDecision Frame.
Proof. solve_decision. Defined.

(** The messages handed to [self.callback]. *)
Inductive Message :=
| MsgError (message : string)
| MsgTargetAdded (ip mac : string) (hostname : option string)
| MsgTargetRemoved (ip : string)
| MsgStopped (restored_targets : list string).

Global Instance Message_eq_dec : EqDecision Message.
Proof. solve_decision. Defined.

(** What the engine does to the outside, in order: a frame put on the
    wire, a pause the sender asks for (milliseconds), the switch of the
    host's IP forwarding, a callback. *)
Inductive Event :=
| Send (f : Frame)
| Sleep (ms : Z)
| IpForwarding (on : bool)
| Callback (m : Message).

Global Instance Event_eq_dec : EqDecision Event.
Proof. solve_decision. Defined.

Record ARPGateway := {
  interface : string;
  gateway_ip : option string;
  gateway_mac : option string;
  our_mac : string;
  targets : list (string * TargetDevice);
  quiet_mode : bool;
  spoof_interval : Z;
  running : bool;
  trace : list Event }.

Definition with_trace (self : ARPGateway) (t : list Event) : ARPGateway :=
  {| interface := interface self; gateway_ip := gateway_ip self;
     gateway_mac := gateway_mac self; our_mac := our_mac self;
     targets := targets self; quiet_mode := quiet_mode self;
     spoof_interval := spoof_interval self; running := running self;
     trace := t |}.

Definition emit (self : ARPGateway) (es : list Event) : ARPGateway :=
  with_trace self (trace self ++ es).

(** The pause between frames that [sendp] uses when the caller gives no
    [inter] argument. *)
Definition sendp_default_inter : Z := 0.

(** The frame of [_spoof_target] / [_spoof_gateway]. *)
Definition spoof_target_frame (self : ARPGateway) (target_ip target_mac : string) : Frame :=
  {| eth_dst := Some target_mac; op := 2; pdst := Some target_ip;
     hwdst := Some target_mac; psrc := gateway_ip self; hwsrc := Some (our_mac self) |}.

Definition spoof_gateway_frame (self : ARPGateway) (target_ip target_mac : string) : Frame :=
  {| eth_dst := gateway_mac self; op := 2; pdst := gateway_ip self;
     hwdst := gateway_mac self; psrc := Some target_ip; hwsrc := Some (our_mac self) |}.

(** The two frames of [_restore_target]: to the target, the gateway's
    address with the gateway's own MAC; to the gateway, the target's
    address with the target's own MAC. *)
Definition restore_target_frame (self : ARPGateway) (target_ip target_mac : string) : Frame :=
  {| eth_dst := Some target_mac; op := 2; pdst := Some target_ip;
     hwdst := Some target_mac; psrc := gateway_ip self; hwsrc := gateway_mac self |}.

Definition restore_gateway_frame (self : ARPGateway) (target_ip target_mac : string) : Frame :=
  {| eth_dst := gateway_mac self; op := 2; pdst := gateway_ip self;
     hwdst := gateway_mac self; psrc := Some target_ip; hwsrc := Some target_mac |}.

Section Wire.

(** Whether the link layer takes a frame; [sendp] raises when it does
    not. *)
Variable wire_ok : Frame -> bool.

(** [sendp(packet, iface=..., verbose=False, count=n)]: the frame [n]
    times, each followed by the pause [inter]; [None] when it raises. *)
Definition sendp (f : Frame) (count : nat) (inter : Z) : option (list Event) :=
  if wire_ok f then Some (mjoin (replicate count [Send f; Sleep inter]))
  else None.

(** [ARPGateway._restore_target]: the events, and whether it returned
    ([false]: an exception left it, after the events given). *)
Definition _restore_target (self : ARPGateway) (target_ip target_mac : string)
    : list Event * bool :=
  match sendp (restore_target_frame self target_ip target_mac) 3 sendp_default_inter with
  | None => ([], false)
  | Some es1 =>
      match sendp (restore_gateway_frame self target_ip target_mac) 3 sendp_default_inter with
      | None => (es1, false)
      | Some es2 => (es1 ++ es2, true)
      end
  end.

(** [ARPGateway.remove_target]: the new state and whether the call
    returned; an exception of [_restore_target] leaves the target in
    place. *)
Definition remove_target (self : ARPGateway) (ip : string) : ARPGateway * bool :=
  match PyDict.get (targets self) ip with
  | None => (self, true)
  | Some target =>
      let '(es, ok) := _restore_target self ip (mac target) in
      let self := emit self es in
      if ok then
        let self :=
          {| interface := interface self; gateway_ip := gateway_ip self;
             gateway_mac := gateway_mac self; our_mac := our_mac self;
             targets := PyDict.del (targets self) ip;
             quiet_mode := quiet_mode self;
             spoof_interval := spoof_interval self; running := running self;
             trace := trace self |} in
        (emit self [Callback (MsgTargetRemoved ip)], true)
      else (self, false)
  end.



End Wire.





Section Resolve.

(** [getmacbyip(ip)]: the address the network answers with; [None] when
    there is no answer or the call raises. *)
Variable getmacbyip : string -> option string.

(** [ARPGateway._get_mac]: the address on file for a known target, the
    network's answer otherwise. *)
Definition _get_mac (self : ARPGateway) (ip : string) : option string :=
  match PyDict.get (targets self) ip with
  | Some target => if PyStr.truthy (mac target) then Some (mac target) else getmacbyip ip
  | None => getmacbyip ip
  end.

(** [ARPGateway.add_target]: the new state and the value returned; [now]
    is [datetime.now().isoformat()]. *)
Definition add_target (self : ARPGateway) (now : string) (ip : string)
    (hostname : option string) : ARPGateway * bool :=
  match _get_mac self ip with
  | Some m =>
      if PyStr.truthy m then
        let self :=
          {| interface := interface self; gateway_ip := gateway_ip self;
             gateway_mac := gateway_mac self; our_mac := our_mac self;
             targets :=
               PyDict.set (targets self) ip
                 {| ip := ip; mac := PyStr.upper m; hostname := hostname;
                    last_seen := Some now; active := true |};
             quiet_mode := quiet_mode self;
             spoof_interval := spoof_interval self; running := running self;
             trace := trace self |} in
        (emit self [Callback (MsgTargetAdded ip (PyStr.upper m) hostname)], true)
      else (emit self [Callback (MsgError ("Could not get MAC for " +:+ ip))], false)
  | None => (emit self [Callback (MsgError ("Could not get MAC for " +:+ ip))], false)
  end.

End Resolve.

End ArpGateway.

(** ** python/https/transparent_proxy.py *)

Module Proxy.

(** [TrafficCategory] of [traffic_parser.py]. *)
Inductive TrafficCategory :=
| SOCIAL_MEDIA | STREAMING | GAMING | SHOPPING | SEARCH | EMAIL | NEWS
| ADULT | MESSAGING | EDUCATION | PRODUCTIVITY | FINANCE | ADVERTISING
| ANALYTICS | API | OTHER.

Global Instance TrafficCategory_eq_dec : EqDecision TrafficCategory.
Proof. solve_decision. Defined.

Definition value (c : TrafficCategory) : string :=
  match c with
  | SOCIAL_MEDIA => "social_media" | STREAMING => "streaming"
  | GAMING => "gaming" | SHOPPING => "shopping" | SEARCH => "search"
  | EMAIL => "email" | NEWS => "news" | ADULT => "adult"
  | MESSAGING => "messaging" | EDUCATION => "education"
  | PRODUCTIVITY => "productivity" | FINANCE => "finance"
  | ADVERTISING => "advertising" | ANALYTICS => "analytics"
  | API => "api" | OTHER => "other"
  end.

Definition of_value (s : string) : option TrafficCategory :=
  List.find (fun c => String.eqb (value c) s)
    [ SOCIAL_MEDIA; STREAMING; GAMING; SHOPPING; SEARCH; EMAIL; NEWS; ADULT;
      MESSAGING; EDUCATION; PRODUCTIVITY; FINANCE; ADVERTISING; ANALYTICS;
      API; OTHER ].

Global Program Instance TrafficCategory_countable : Countable TrafficCategory :=
  inj_countable value of_value _.
Next Obligation. by intros []. Qed.

(** The parts of the proxy library's flow object that the addon reads and
    writes.  [response] is what the client will be sent; [error] is set by
    [flow.kill()], after which the proxy closes the client connection
    without a reply. *)
Record Request := { host : string; pretty_url : string }.
Record Response := { status_code : Z; body : string }.
Record HTTPFlow := {
  id : string;
  request : Request;
  response : option Response;
  error : option string }.

(** [flow.kill()] *)
Definition kill (flow : HTTPFlow) : HTTPFlow :=
  {| id := id flow; request := request flow; response := response flow;
     error := Some "Connection killed." |}.

Record ProxyConfig := {
  block_list : gset string;
  category_blocks : gset TrafficCategory;
  keyword_alerts : list string }.

Inductive EventData :=
| DataBlocked (reason host url : string)
| DataParsed (dict : string)
| DataError (error phase : string).

Record FlowEvent := {
  event_type : string;
  flow_id : string;
  timestamp : string;
  data : EventData }.

Record FlowInfo := { start_time : Z; info_host : string; info_url : string }.

(** [TrafficInterceptor]; [emitted] lists the events handed to
    [event_callback]. *)
Record TrafficInterceptor := {
  config : ProxyConfig;
  active_flows : list (string * FlowInfo);
  emitted : list FlowEvent }.

(** [TrafficInterceptor._emit_event] *)
Definition _emit_event (self : TrafficInterceptor) (event : FlowEvent)
    : TrafficInterceptor :=
  {| config := config self; active_flows := active_flows self;
     emitted := emitted self ++ [event] |}.

(** [TrafficInterceptor._should_block] *)
Definition _should_block (self : TrafficInterceptor) (flow : HTTPFlow) : bool :=
  let host := PyStr.lower (host (request flow)) in
  let url := PyStr.lower (pretty_url (request flow)) in
  existsb (fun blocked =>
             PyStr.contains (PyStr.lower blocked) host
             || PyStr.contains (PyStr.lower blocked) url)
          (elements (block_list (config self))).

(** [TrafficInterceptor._block_flow]; [utcnow] is
    [datetime.utcnow().isoformat()]. *)
Definition _block_flow (self : TrafficInterceptor) (utcnow : string)
    (flow : HTTPFlow) (reason : string) : TrafficInterceptor * HTTPFlow :=
  let flow := kill flow in
  (_emit_event self
     {| event_type := "blocked"; flow_id := id flow; timestamp := utcnow;
        data := DataBlocked reason (host (request flow)) (pretty_url (request flow)) |},
   flow).

Section Addon.

(** The traffic parser: [parser._categorize_domain(host)], and
    [parser.to_dict(parser.parse_mitmproxy_flow(flow))] or the text of
    the exception it raises. *)
Variable _categorize_domain : string -> TrafficCategory.
Variable parse_mitmproxy_flow : HTTPFlow -> string + string.

(** [TrafficInterceptor.request]; [clock] is [time.time()]. *)
Definition request_hook (self : TrafficInterceptor) (utcnow : string)
    (clock : Z) (flow : HTTPFlow) : TrafficInterceptor * HTTPFlow :=
  if _should_block self flow then
    _block_flow self utcnow flow "Domain blocked by policy"
  else
    let category := _categorize_domain (host (request flow)) in
    if bool_decide (category ∈ category_blocks (config self)) then
      _block_flow self utcnow flow ("Category blocked: " +:+ value category)
    else
      let self :=
        {| config := config self;
           active_flows :=
             PyDict.set (active_flows self) (id flow)
               {| start_time := clock; info_host := host (request flow);
                  info_url := pretty_url (request flow) |};
           emitted := emitted self |} in
      match parse_mitmproxy_flow flow with
      | inl dict =>
          (_emit_event self
             {| event_type := "request"; flow_id := id flow;
                timestamp := utcnow; data := DataParsed dict |}, flow)
      | inr e =>
          (_emit_event self
             {| event_type := "error"; flow_id := id flow;
                timestamp := utcnow; data := DataError e "request" |}, flow)
      end.

End Addon.

End Proxy.

(** ** python/database/db_manager.py: the [devices] table *)

Module DbManager.

Inductive DeviceType :=
| UNKNOWN | PHONE | TABLET | COMPUTER | SMART_TV | GAMING_CONSOLE | IOT | ROUTER.

(** [Device] of [models.py]; [metadata] is its JSON text. *)
Record Device := {
  id : string;
  mac_address : string;
  ip_address : string;
  hostname : option string;
  device_type : DeviceType;
  manufacturer : option string;
  nickname : option string;
  is_monitored : bool;
  has_certificate : bool;
  first_seen : option string;
  last_seen : option string;
  total_requests : Z;
  total_bytes : Z;
  metadata : string }.

(** The database file: the rows of [devices], oldest first, and the
    non-null [device_id] values of the rows of [dns_queries] and
    [traffic], which refer to [devices(id)]. *)
Record Database := {
  devices : list Device;
  device_refs : list string }.

(** [_init_database] on a new file. *)
Definition _init_database : Database := {| devices := []; device_refs := [] |}.

(** A row that [INSERT OR REPLACE] removes for the new row [d]: the same
    primary key [id], or the same [UNIQUE] column [mac_address]. *)
Definition conflicts (d r : Device) : bool :=
  String.eqb (id r) (id d) || String.eqb (mac_address r) (mac_address d).

(** With [PRAGMA foreign_keys = ON], the statement fails when it removes a
    row that [dns_queries] or [traffic] still refers to and the new row does
    not take its [id]. *)
Definition orphans (db : Database) (d : Device) : bool :=
  existsb (fun r => conflicts d r
                    && negb (String.eqb (id r) (id d))
                    && bool_decide (id r ∈ device_refs db))
          (devices db).

(** [INSERT OR REPLACE INTO devices (...) VALUES (...)] *)
Definition insert_or_replace (db : Database) (d : Device) : option Database :=
  if orphans db d then None
  else Some {| devices := filter (fun r => conflicts d r = false) (devices db) ++ [d];
               device_refs := device_refs db |}.

(** [DatabaseManager.add_device]: [None] stands for the [IntegrityError]
    that the connection raises after rolling back. *)
Definition add_device (db : Database) (device : Device) : option Database :=
  insert_or_replace db device.

(** The row after [UPDATE devices SET ... WHERE id = ?]. *)
Definition bump (requests bytes_transferred : Z) (now : string) (r : Device) : Device :=
  {| id := id r; mac_address := mac_address r; ip_address := ip_address r;
     hostname := hostname r; device_type := device_type r;
     manufacturer := manufacturer r; nickname := nickname r;
     is_monitored := is_monitored r; has_certificate := has_certificate r;
     first_seen := first_seen r; last_seen := Some now;
     total_requests := total_requests r + requests;
     total_bytes := total_bytes r + bytes_transferred;
     metadata := metadata r |}.

(** [DatabaseManager.update_device_stats] *)
Definition update_device_stats (db : Database) (device_id : string)
    (requests bytes_transferred : Z) (now : string) : Database :=
  {| devices := (fun r => if String.eqb (id r) device_id
                          then bump requests bytes_transferred now r else r)
                <$> devices db;
     device_refs := device_refs db |}.

(** [add_dns_query] and [add_traffic_entry], as far as [devices] sees
    them: a row with a [device_id] is taken when that device exists. *)
Definition add_reference (db : Database) (device_id : option string)
    : option Database :=
  match device_id with
  | None => Some db
  | Some i =>
      if existsb (fun r => String.eqb (id r) i) (devices db)
      then Some {| devices := devices db; device_refs := i :: device_refs db |}
      else None
  end.

(** [DatabaseManager.get_device_by_mac] *)
Definition get_device_by_mac (db : Database) (mac : string) : option Device :=
  List.find (fun r => String.eqb (mac_address r) (PyStr.lower mac)) (devices db).

(** The operations that write to [devices]. *)
Inductive Op :=
| AddDevice (d : Device)
| UpdateDeviceStats (device_id : string) (requests bytes_transferred : Z) (now : string)
| AddReference (device_id : option string).

(** One call; a call that raises leaves the file as it was. *)
Definition step (db : Database) (o : Op) : Database :=
  match o with
  | AddDevice d => default db (add_device db d)
  | UpdateDeviceStats i r b now => update_device_stats db i r b now
  | AddReference i => default db (add_reference db i)
  end.

(** The database after a sequence of calls on a new file. *)
Definition run (ops : list Op) : Database := foldl step _init_database ops.


End DbManager.

(** * Fixtures and invariants *)

(** The blocker's state keeps its entries in lower case: the constructor
    and [add_domain] store [domain.lower()]. *)
Definition entries_lower (b : DnsBlocker.DNSBlocker) : Prop :=
  forall e, e ∈ DnsBlocker.blocked_domains b -> PyStr.lower e = e.

(** A query for [ads.example] with transaction id [0x1234], sent by
    [192.168.1.23] with the given opcode. *)
Definition sample_ip : DnsBlocker.IP :=
  {| DnsBlocker.ip_src := "192.168.1.23"; DnsBlocker.ip_dst := "192.168.1.1" |}.

Definition sample_udp : DnsBlocker.UDP :=
  {| DnsBlocker.udp_sport := 40000; DnsBlocker.udp_dport := 53 |}.

Definition sample_question : DnsBlocker.DNSQR :=
  {| DnsBlocker.qname := "ads.example."; DnsBlocker.qtype := 1;
     DnsBlocker.qclass := 1 |}.

Definition sample_dns (opcode : Z) : DnsBlocker.DNS :=
  {| DnsBlocker.dns_id := 0x1234; DnsBlocker.dns_qr := 0;
     DnsBlocker.dns_opcode := opcode; DnsBlocker.dns_aa := 0;
     DnsBlocker.dns_tc := 0; DnsBlocker.dns_rd := 1;
     DnsBlocker.dns_ra := 0; DnsBlocker.dns_z := 0;
     DnsBlocker.dns_ad := 0; DnsBlocker.dns_cd := 0;
     DnsBlocker.dns_rcode := 0;
     DnsBlocker.dns_qd := [ sample_question ];
     DnsBlocker.dns_an := []; DnsBlocker.dns_ns := [];
     DnsBlocker.dns_ar := [] |}.

Definition sample_query (opcode : Z) : DnsBlocker.Packet :=
  {| DnsBlocker.pkt_ip := Some sample_ip;
     DnsBlocker.pkt_udp := Some sample_udp;
     DnsBlocker.pkt_dns := Some (sample_dns opcode) |}.

Definition sample_blocker : DnsBlocker.DNSBlocker :=
  DnsBlocker.init "eth0" ["ads.example"] "0.0.0.0" "nxdomain".

(** The gateway of the restore scenario: target [192.168.1.77], gateway
    [192.168.1.1], started. *)
Definition sample_target : ArpGateway.TargetDevice :=
  {| ArpGateway.ip := "192.168.1.77"; ArpGateway.mac := "AA:BB:CC:00:00:11";
     ArpGateway.hostname := None; ArpGateway.last_seen := None;
     ArpGateway.active := true |}.

Definition sample_gateway : ArpGateway.ARPGateway :=
  {| ArpGateway.interface := "eth0";
     ArpGateway.gateway_ip := Some "192.168.1.1";
     ArpGateway.gateway_mac := Some "CC:DD:EE:00:00:22";
     ArpGateway.our_mac := "02:00:00:00:00:01";
     ArpGateway.targets := [ ("192.168.1.77", sample_target) ];
     ArpGateway.quiet_mode := true; ArpGateway.spoof_interval := 15;
     ArpGateway.running := true; ArpGateway.trace := [] |}.

(** A link layer that takes every frame. *)
Definition wire_up (f : ArpGateway.Frame) : bool := true.

(** Three copies of a frame as [sendp(..., count=3)] emits them. *)
Definition burst (f : ArpGateway.Frame) : list ArpGateway.Event :=
  [ ArpGateway.Send f; ArpGateway.Sleep 0; ArpGateway.Send f; ArpGateway.Sleep 0;
    ArpGateway.Send f; ArpGateway.Sleep 0 ].

(** The tie-break as the specification words it: greatest priority first,
    and among equal priorities the schedule whose id comes first in
    lexicographic order. *)
Definition claimed_before (x y : Schedules.Schedule) : bool :=
  (Schedules.priority y <? Schedules.priority x)%Z
  || ((Schedules.priority x =? Schedules.priority y)%Z
      && String.leb (Schedules.id x) (Schedules.id y)).

Fixpoint claimed_insert (x : Schedules.Schedule) (l : list Schedules.Schedule)
    : list Schedules.Schedule :=
  match l with
  | [] => [x]
  | y :: l' => if claimed_before x y then x :: l else y :: claimed_insert x l'
  end.

Definition claimed_should_block (m : Schedules.ScheduleManager)
    (now : Schedules.datetime) (domain category : string) : bool * option string :=
  Schedules.first_blocking now domain category
    (foldr claimed_insert [] (PyDict.values (Schedules.schedules m))).

(** The schedule that the loop of [ScheduleManager.should_block] settles on,
    read off the dictionary order: the blocking schedule of greatest
    priority, the oldest one among equals. *)
Fixpoint best (blocks : Schedules.Schedule -> bool) (l : list Schedules.Schedule)
    : option Schedules.Schedule :=
  match l with
  | [] => None
  | x :: l' =>
      match best blocks l' with
      | None => if blocks x then Some x else None
      | Some y =>
          if blocks x && (Schedules.priority y <=? Schedules.priority x)%Z
          then Some x else Some y
      end
  end.

(** Greatest key first. *)
Definition descending {A} (key : A -> Z) (l : list A) : Prop :=
  StronglySorted (fun a b => (key b <= key a)%Z) l.

(** Two untargeted schedules that always block, with equal priority. *)
Definition always (i : string) (p : Z) : Schedules.Schedule :=
  {| Schedules.id := i; Schedules.name := i;
     Schedules.schedule_type := Schedules.ALWAYS_BLOCK;
     Schedules.enabled := true; Schedules.categories := ∅;
     Schedules.domains := ∅; Schedules.time_ranges := [];
     Schedules.start_date := None; Schedules.end_date := None;
     Schedules.priority := p; Schedules.created_at := None;
     Schedules.updated_at := None |}.

Definition two_schedules : Schedules.ScheduleManager :=
  {| Schedules.schedules := [ ("b", always "b" 0); ("a", always "a" 0) ] |}.

(** Monday 2024-01-01, 17:00. *)
Definition monday_17h : Schedules.datetime :=
  {| Schedules.dt_date := {| Schedules.year := 2024; Schedules.month := 1; Schedules.day := 1 |};
     Schedules.dt_time := Schedules.mk_time 17 0 |}.

(** A policy with one blocked domain and nothing else. *)
Definition one_blocked : Blocker.BlockingEngine :=
  {| Blocker.schedule_manager := {| Schedules.schedules := [] |};
     Blocker.blocked_domains := {[ "ads.example" ]};
     Blocker.blocked_categories := ∅;
     Blocker.blocked_keywords := [];
     Blocker.url_patterns := [];
     Blocker.custom_rules := [];
     Blocker.whitelisted_domains := ∅ |}.

(** The keyword of the context-elevation scenario. *)
Definition suicide_keyword : Keywords.Keyword :=
  {| Keywords.id := "sh_suicide"; Keywords.word := "suicide";
     Keywords.match_type := Keywords.CONTAINS;
     Keywords.category := Keywords.SELF_HARM;
     Keywords.severity := Keywords.CRITICAL;
     Keywords.enabled := true; Keywords.case_sensitive := false;
     Keywords.context_words := [ "how to"; "method" ];
     Keywords.exclude_words := [ "prevention"; "hotline" ];
     Keywords.description := "" |}.

(** One level up the scale low, medium, high, critical; critical stays. *)
Definition one_level_up (s : Keywords.AlertSeverity) : Keywords.AlertSeverity :=
  match s with
  | Keywords.LOW => Keywords.MEDIUM
  | Keywords.MEDIUM => Keywords.HIGH
  | Keywords.HIGH => Keywords.CRITICAL
  | Keywords.CRITICAL => Keywords.CRITICAL
  end.

(** Some context word of the keyword occurs in the text, case ignored. *)
Definition has_context (kw : Keywords.Keyword) (text : string) : bool :=
  existsb (fun w => PyStr.contains (PyStr.lower w) (PyStr.lower text))
          (Keywords.context_words kw).

(** The request of the blocking scenario: host [ads.example] on the block
    list of the proxy. *)
Definition ads_flow : Proxy.HTTPFlow :=
  {| Proxy.id := "flow-1";
     Proxy.request := {| Proxy.host := "ads.example";
                         Proxy.pretty_url := "https://ads.example/banner.js" |};
     Proxy.response := None; Proxy.error := None |}.

Definition ads_interceptor : Proxy.TrafficInterceptor :=
  {| Proxy.config := {| Proxy.block_list := {[ "ads.example" ]};
                        Proxy.category_blocks := ∅;
                        Proxy.keyword_alerts := [] |};
     Proxy.active_flows := []; Proxy.emitted := [] |}.


(** The schedule of the homework scenario: Monday to Friday, 16:00 to
    18:00, category [gaming]. *)
Definition homework : Schedules.Schedule :=
  let r := [ {| Schedules.start_hour := 16; Schedules.start_minute := 0;
                Schedules.end_hour := 18; Schedules.end_minute := 0 |} ] in
  {| Schedules.id := "homework"; Schedules.name := "Homework";
     Schedules.schedule_type := Schedules.TIME_RANGE;
     Schedules.enabled := true; Schedules.categories := {[ "gaming" ]};
     Schedules.domains := ∅;
     Schedules.time_ranges :=
       [ (Schedules.MONDAY, r); (Schedules.TUESDAY, r); (Schedules.WEDNESDAY, r);
         (Schedules.THURSDAY, r); (Schedules.FRIDAY, r) ];
     Schedules.start_date := None; Schedules.end_date := None;
     Schedules.priority := 0; Schedules.created_at := None;
     Schedules.updated_at := None |}.

Definition homework_engine : Blocker.BlockingEngine :=
  {| Blocker.schedule_manager := {| Schedules.schedules := [ ("homework", homework) ] |};
     Blocker.blocked_domains := ∅;
     Blocker.blocked_categories := ∅;
     Blocker.blocked_keywords := [];
     Blocker.url_patterns := [];
     Blocker.custom_rules := [];
     Blocker.whitelisted_domains := ∅ |}.

(** Monday 2024-01-01, 18:01. *)
Definition monday_18h01 : Schedules.datetime :=
  {| Schedules.dt_date := {| Schedules.year := 2024; Schedules.month := 1; Schedules.day := 1 |};
     Schedules.dt_time := Schedules.mk_time 18 1 |}.

(** A pattern engine that matches nothing. *)
Definition no_match (p : Blocker.Pattern) (url : string) : bool := false.

(** A device row with the given id, MAC address and IP address. *)
Definition device (i mac ip : string) : DbManager.Device :=
  {| DbManager.id := i; DbManager.mac_address := mac; DbManager.ip_address := ip;
     DbManager.hostname := None; DbManager.device_type := DbManager.UNKNOWN;
     DbManager.manufacturer := None; DbManager.nickname := None;
     DbManager.is_monitored := true; DbManager.has_certificate := false;
     DbManager.first_seen := None; DbManager.last_seen := None;
     DbManager.total_requests := 0; DbManager.total_bytes := 0;
     DbManager.metadata := "{}" |}.

(** A policy with one custom rule on [intranet.example]. *)
Definition intranet_rule : Blocker.BlockRule :=
  {| Blocker.rule_id_ := "r1"; Blocker.rule_type_ := "domain";
     Blocker.rule_value := "Intranet.Example"; Blocker.rule_enabled := true;
     Blocker.rule_reason := ""; Blocker.rule_created_at := None |}.

Definition custom_engine : Blocker.BlockingEngine :=
  {| Blocker.schedule_manager := {| Schedules.schedules := [] |};
     Blocker.blocked_domains := ∅;
     Blocker.blocked_categories := ∅;
     Blocker.blocked_keywords := [];
     Blocker.url_patterns := [];
     Blocker.custom_rules := [ ("r1", intranet_rule) ];
     Blocker.whitelisted_domains := ∅ |}.

(** The keywords of a policy are pairwise different, case ignored. *)
Definition keywords_distinct (self : Blocker.BlockingEngine) : Prop :=
  NoDup (PyStr.lower <$> Blocker.blocked_keywords self).

(** The custom rules of a policy are filed under their own ids, each id
    once: what [add_rule] and [_load_config] build. *)
Definition rules_by_id (self : Blocker.BlockingEngine) : Prop :=
  NoDup (PyDict.keys (Blocker.custom_rules self))
  /\ Forall (fun kv => kv.1 = Blocker.rule_id_ kv.2) (Blocker.custom_rules self).

(** A pattern compiler that takes every text. *)
Definition all_valid (text : string) : bool := true.

(** A policy with two blocked keywords. *)
Definition two_keywords : Blocker.BlockingEngine :=
  {| Blocker.schedule_manager := {| Schedules.schedules := [] |};
     Blocker.blocked_domains := ∅;
     Blocker.blocked_categories := {[ Categories.GAMBLING ]};
     Blocker.blocked_keywords := [ "Casino"; "poker" ];
     Blocker.url_patterns := [ {| Blocker.pattern := "/ads/" |} ];
     Blocker.custom_rules := [ ("r1", intranet_rule) ];
     Blocker.whitelisted_domains := {[ "school.example" ]} |}.

(** The range with the two ends of [r] exchanged. *)
Definition reversed (r : Schedules.TimeRange) : Schedules.TimeRange :=
  {| Schedules.start_hour := Schedules.end_hour r;
     Schedules.start_minute := Schedules.end_minute r;
     Schedules.end_hour := Schedules.start_hour r;
     Schedules.end_minute := Schedules.start_minute r |}.

(** The fields of a range are hours and minutes that [time()] takes. *)
Definition valid_range (r : Schedules.TimeRange) : Prop :=
  (0 <= Schedules.start_hour r < 24)%Z /\ (0 <= Schedules.start_minute r < 60)%Z
  /\ (0 <= Schedules.end_hour r < 24)%Z /\ (0 <= Schedules.end_minute r < 60)%Z.

(** The bedtime range, 22:00 to 07:00. *)
Definition night : Schedules.TimeRange :=
  {| Schedules.start_hour := 22; Schedules.start_minute := 0;
     Schedules.end_hour := 7; Schedules.end_minute := 0 |}.

Definition redirecting : DnsBlocker.DNSBlocker :=
  DnsBlocker.init "eth0" ["ads.example"] "10.0.0.1" "redirect".

Definition dropping : DnsBlocker.DNSBlocker :=
  DnsBlocker.init "eth0" ["ads.example"] "0.0.0.0" "drop".

(** What one call of [_process_packet] does to the blocker: [a] queries
    counted, the entries [l] logged, the packets [o] sent. *)
Definition packet_effect (self self' : DnsBlocker.DNSBlocker) (a : nat)
    (l : list DnsBlocker.BlockedQuery) (o : list DnsBlocker.Packet) : Prop :=
  DnsBlocker.blocked_domains self' = DnsBlocker.blocked_domains self
  /\ DnsBlocker.block_mode self' = DnsBlocker.block_mode self
  /\ DnsBlocker.redirect_ip self' = DnsBlocker.redirect_ip self
  /\ DnsBlocker.blocked_count self' = (DnsBlocker.blocked_count self + a)%nat
  /\ DnsBlocker.blocked_log self' = DnsBlocker.blocked_log self ++ l
  /\ DnsBlocker.sent self' = DnsBlocker.sent self ++ o.

(** A network on which [192.168.1.50] answers with a lower-case address. *)
Definition one_host (ip : string) : option string :=
  if String.eqb ip "192.168.1.50" then Some "aa:bb:cc:00:00:33" else None.

(** * Properties *)

(** ** Strings *)

Lemma append_nil_l (s : string) : "" +:+ s = s.
Proof. reflexivity. Qed.

Lemma append_cons (c : ascii) (p s : string) : String c p +:+ s = String c (p +:+ s).
Proof. reflexivity. Qed.

Lemma startswith_spec (s p : string) :
  PyStr.startswith s p = true <-> exists r, s = p +:+ r.
Proof.
  revert s. induction p as [|a p IH]; intros s; cbn [PyStr.startswith].
  - split; [intros _; by exists s | done].
  - destruct s as [|b s].
    + split; [done | intros [r Hr]; rewrite append_cons in Hr; discriminate].
    + rewrite andb_true_iff, IH. split.
      * intros [Hab [r ->]]. apply Ascii.eqb_eq in Hab as ->. by exists r.
      * intros [r Hr]. rewrite append_cons in Hr. injection Hr as -> ->.
        split; [apply Ascii.eqb_refl | by exists r].
Qed.

Lemma endswith_spec (s suf : string) :
  PyStr.endswith s suf = true <-> exists p, s = p +:+ suf.
Proof.
  induction s as [|c s IH]; cbn [PyStr.endswith].
  - destruct (String.eqb_spec "" suf) as [<-|Hne].
    + split; [intros _; by exists "" | done].
    + split; [done|]. intros [p Hp].
      destruct p; [by rewrite append_nil_l in Hp | by rewrite append_cons in Hp].
  - destruct (String.eqb_spec (String c s) suf) as [<-|Hne].
    + split; [intros _; by exists "" | done].
    + rewrite IH. split.
      * intros [p ->]. by exists (String c p).
      * intros [p Hp]. destruct p as [|c' p]; [by rewrite append_nil_l in Hp|].
        rewrite append_cons in Hp. injection Hp as -> ->. by exists p.
Qed.

Lemma lower_ascii_idemp (c : ascii) :
  PyStr.lower_ascii (PyStr.lower_ascii c) = PyStr.lower_ascii c.
Proof. by destruct c as [[] [] [] [] [] [] [] []]. Qed.

Lemma lower_idemp (s : string) : PyStr.lower (PyStr.lower s) = PyStr.lower s.
Proof. induction s as [|c s IH]; simpl; [done|]. by rewrite lower_ascii_idemp, IH. Qed.

Lemma existsb_elements `{Countable A} (f : A -> bool) (X : gset A) :
  existsb f (elements X) = true <-> exists x, x ∈ X /\ f x = true.
Proof.
  rewrite existsb_exists. split; intros [x [Hx Hf]]; exists x; split; try done.
  - apply elem_of_elements. by apply list_elem_of_In.
  - apply list_elem_of_In. by apply elem_of_elements.
Qed.

(** ** The DNS blocker *)

Lemma entry_matches_spec (q e : string) :
  DnsBlocker.entry_matches q e = true <->
  (exists p, q = p +:+ "." +:+ e) \/
  (exists s p, e = "*." +:+ s /\ q = p +:+ "." +:+ s).
Proof.
  unfold DnsBlocker.entry_matches.
  rewrite orb_true_iff, andb_true_iff, !endswith_spec, startswith_spec.
  split.
  - intros [Hsub | [[s ->] [p Hp]]]; [by left | right]. exists s, p. by split.
  - intros [Hsub | (s & p & -> & Hp)]; [by left | right].
    split; [by exists s | by exists p].
Qed.

Lemma init_entries_lower iface ds r m : entries_lower (DnsBlocker.init iface ds r m).
Proof.
  intros e He. simpl in He. apply elem_of_list_to_set in He.
  apply list_elem_of_fmap in He as [d [-> _]]. apply lower_idemp.
Qed.

Lemma add_domain_entries_lower b d :
  entries_lower b -> entries_lower (DnsBlocker.add_domain b d).
Proof.
  intros Hb e He. simpl in He. apply elem_of_union in He as [He|He]; [by apply Hb|].
  apply elem_of_singleton in He as ->. apply lower_idemp.
Qed.

(** C5, as amended.  [is_blocked] answers for the name it normalises first:
    with [q'] the query name in lower case and without its trailing dots,
    [q] is blocked exactly when some entry [e] of the block list equals [q'],
    or [q'] ends with a dot followed by [e], or [e] is [*.s] and [q'] ends
    with [.s]. *)
Theorem is_blocked_iff (self : DnsBlocker.DNSBlocker) (q : string) :
  DnsBlocker.is_blocked self q = true <->
  exists e, e ∈ DnsBlocker.blocked_domains self /\
    (PyStr.rstrip_dot (PyStr.lower q) = e
     \/ (exists p, PyStr.rstrip_dot (PyStr.lower q) = p +:+ "." +:+ e)
     \/ (exists s p, e = "*." +:+ s /\ PyStr.rstrip_dot (PyStr.lower q) = p +:+ "." +:+ s)).
Proof.
  unfold DnsBlocker.is_blocked.
  set (q' := PyStr.rstrip_dot (PyStr.lower q)).
  destruct (decide (q' ∈ DnsBlocker.blocked_domains self)) as [Hin|Hnin].
  - split; [intros _ | done]. exists q'. split; [done | by left].
  - rewrite existsb_elements. split.
    + intros (e & He & Hm). exists e. split; [done|]. right.
      by apply entry_matches_spec.
    + intros (e & He & [Heq | Hm]).
      * subst e. done.
      * exists e. split; [done|]. by apply entry_matches_spec.
Qed.

(** C5, as the specification words it, fails on a fully qualified name: the
    blocker strips the trailing dot of [ads.example.] and blocks it, though
    the name neither equals the entry [ads.example] nor ends with
    [.ads.example]. *)
Lemma is_blocked_trailing_dot :
  let b := DnsBlocker.init "eth0" ["ads.example"] "0.0.0.0" "nxdomain" in
  DnsBlocker.is_blocked b "ads.example." = true
  /\ DnsBlocker.claimed_blocked b "ads.example." = false.
Proof. vm_compute. done. Qed.

(** C4, as amended.  In [nxdomain] mode, a blocked query that has its IP,
    UDP and DNS layers gets exactly one reply: addressed to the source
    address and source port of the query, from port 53, with the query's
    transaction id, QR = 1, AA = 1, RCODE = 3, the question section of the
    query, no answer record, and opcode 0, the default of the packet library
    (the query's opcode is not read). *)
Theorem nxdomain_reply (self : DnsBlocker.DNSBlocker) (now : string)
    (packet : DnsBlocker.Packet) (i : DnsBlocker.IP) (u : DnsBlocker.UDP)
    (d : DnsBlocker.DNS) (q : DnsBlocker.DNSQR) (qs : list DnsBlocker.DNSQR) :
  DnsBlocker.block_mode self = "nxdomain" ->
  DnsBlocker.pkt_ip packet = Some i ->
  DnsBlocker.pkt_udp packet = Some u ->
  DnsBlocker.pkt_dns packet = Some d ->
  DnsBlocker.dns_qr d = 0%Z ->
  DnsBlocker.dns_qd d = q :: qs ->
  DnsBlocker.is_blocked self (PyStr.rstrip_dot (DnsBlocker.qname q)) = true ->
  exists reply rd,
    DnsBlocker.sent (DnsBlocker._process_packet self now packet)
      = DnsBlocker.sent self ++ [reply]
    /\ DnsBlocker.pkt_ip reply
       = Some {| DnsBlocker.ip_src := DnsBlocker.ip_dst i;
                 DnsBlocker.ip_dst := DnsBlocker.ip_src i |}
    /\ DnsBlocker.pkt_udp reply
       = Some {| DnsBlocker.udp_sport := 53;
                 DnsBlocker.udp_dport := DnsBlocker.udp_sport u |}
    /\ DnsBlocker.pkt_dns reply = Some rd
    /\ DnsBlocker.dns_id rd = DnsBlocker.dns_id d
    /\ DnsBlocker.dns_opcode rd = 0%Z
    /\ DnsBlocker.dns_qr rd = 1%Z
    /\ DnsBlocker.dns_aa rd = 1%Z
    /\ DnsBlocker.dns_rcode rd = 3%Z
    /\ DnsBlocker.dns_qd rd = DnsBlocker.dns_qd d
    /\ DnsBlocker.dns_an rd = [].
Proof.
  intros Hmode Hip Hudp Hdns Hqr Hqd Hblocked.
  unfold DnsBlocker._process_packet.
  rewrite Hdns, Hqr, Hqd. cbn [Z.eqb negb].
  rewrite Hblocked. cbn [negb]. rewrite Hip.
  cbn [DnsBlocker.block_mode DnsBlocker.print DnsBlocker.log_query DnsBlocker.set_count].
  rewrite Hmode. cbn [String.eqb Ascii.eqb Bool.eqb].
  unfold DnsBlocker._create_nxdomain_response.
  rewrite Hip, Hudp, Hdns. cbn.
  eexists _, _. repeat split; by cbn.
Qed.

Lemma nxdomain_reply_witness :
  exists reply rd,
    DnsBlocker.sent (DnsBlocker._process_packet sample_blocker "t0" (sample_query 0))
      = DnsBlocker.sent sample_blocker ++ [reply]
    /\ DnsBlocker.pkt_ip reply
       = Some {| DnsBlocker.ip_src := DnsBlocker.ip_dst sample_ip;
                 DnsBlocker.ip_dst := DnsBlocker.ip_src sample_ip |}
    /\ DnsBlocker.pkt_udp reply
       = Some {| DnsBlocker.udp_sport := 53;
                 DnsBlocker.udp_dport := DnsBlocker.udp_sport sample_udp |}
    /\ DnsBlocker.pkt_dns reply = Some rd
    /\ DnsBlocker.dns_id rd = DnsBlocker.dns_id (sample_dns 0)
    /\ DnsBlocker.dns_opcode rd = 0%Z
    /\ DnsBlocker.dns_qr rd = 1%Z
    /\ DnsBlocker.dns_aa rd = 1%Z
    /\ DnsBlocker.dns_rcode rd = 3%Z
    /\ DnsBlocker.dns_qd rd = DnsBlocker.dns_qd (sample_dns 0)
    /\ DnsBlocker.dns_an rd = [].
Proof.
  apply (nxdomain_reply sample_blocker "t0" (sample_query 0)
           sample_ip sample_udp (sample_dns 0) sample_question []);
    vm_compute; reflexivity.
Defined.

(** C4, as the specification words it, fails on the opcode: a status
    request (opcode 2) for a blocked name is answered with opcode 0. *)
Lemma nxdomain_opcode_not_copied :
  exists reply rd,
    DnsBlocker.sent (DnsBlocker._process_packet sample_blocker "t0" (sample_query 2))
      = [reply]
    /\ DnsBlocker.pkt_dns reply = Some rd
    /\ DnsBlocker.dns_id rd = 0x1234%Z
    /\ DnsBlocker.dns_rcode rd = 3%Z
    /\ DnsBlocker.dns_opcode rd = 0%Z
    /\ (DnsBlocker.dns_opcode rd =? 2)%Z = false.
Proof. vm_compute. eexists _, _. repeat split. Qed.

(** ** The ARP gateway *)

Lemma dict_get_elem {V} (d : list (string * V)) (k : string) (v : V) :
  PyDict.get d k = Some v -> (k, v) ∈ d.
Proof.
  induction d as [|[k' v'] d IH]; cbn [PyDict.get]; [done|].
  destruct (String.eqb_spec k' k) as [->|Hne].
  - intros [= ->]. apply list_elem_of_here.
  - intros Hget. apply list_elem_of_further. by apply IH.
Qed.

Lemma restore_target_ok (wire_ok : ArpGateway.Frame -> bool)
    (self : ArpGateway.ARPGateway) (ip mac : string) :
  wire_ok (ArpGateway.restore_target_frame self ip mac) = true ->
  wire_ok (ArpGateway.restore_gateway_frame self ip mac) = true ->
  ArpGateway._restore_target wire_ok self ip mac
  = (burst (ArpGateway.restore_target_frame self ip mac)
     ++ burst (ArpGateway.restore_gateway_frame self ip mac), true).
Proof.
  intros Ht Hg. unfold ArpGateway._restore_target, ArpGateway.sendp.
  by rewrite Ht, Hg.
Qed.









(** ** Blocking and unblocking a domain *)

Lemma block_then_unblock_fields (S : Blocker.BlockingEngine) (d : string) :
  Blocker.blocked_domains (Blocker.block_then_unblock S d)
  = (Blocker.blocked_domains S ∪ {[ PyStr.strip (PyStr.lower d) ]})
      ∖ {[ PyStr.strip (PyStr.lower d) ]}
  /\ Blocker.schedule_manager (Blocker.block_then_unblock S d) = Blocker.schedule_manager S
  /\ Blocker.blocked_categories (Blocker.block_then_unblock S d) = Blocker.blocked_categories S
  /\ Blocker.blocked_keywords (Blocker.block_then_unblock S d) = Blocker.blocked_keywords S
  /\ Blocker.url_patterns (Blocker.block_then_unblock S d) = Blocker.url_patterns S
  /\ Blocker.custom_rules (Blocker.block_then_unblock S d) = Blocker.custom_rules S
  /\ Blocker.whitelisted_domains (Blocker.block_then_unblock S d) = Blocker.whitelisted_domains S.
Proof. by repeat split. Qed.

(** C7, as amended.  For a domain whose normal form (lower case, outer
    white space removed) is not in the blocked set of the policy,
    [block_domain(d)] followed by [unblock_domain(d)] gives back the policy it
    started from, every field included. *)
Theorem block_unblock_roundtrip (S : Blocker.BlockingEngine) (d : string) :
  PyStr.strip (PyStr.lower d) ∉ Blocker.blocked_domains S ->
  Blocker.block_then_unblock S d = S.
Proof.
  intros Hfresh. destruct S as [sm bd bc bk up cr wl].
  unfold Blocker.block_then_unblock, Blocker.unblock_domain, Blocker.block_domain.
  cbn in *. f_equal. apply leibniz_equiv. intros x.
  rewrite elem_of_difference, elem_of_union, elem_of_singleton.
  split; [by intros [[?|?] ?] | intros Hx; split; [by left | by intros ->]].
Qed.

Lemma block_unblock_roundtrip_witness :
  Blocker.block_then_unblock one_blocked "Tracker.Example " = one_blocked.
Proof.
  apply (block_unblock_roundtrip one_blocked "Tracker.Example ").
  apply (bool_decide_unpack _). vm_compute. reflexivity.
Defined.

(** C7, as the specification words it, fails for a domain that is blocked
    already: the pair of calls removes it. *)
Lemma block_unblock_removes :
  "ads.example" ∈ Blocker.blocked_domains one_blocked
  /\ Blocker.blocked_domains (Blocker.block_then_unblock one_blocked "ads.example") = ∅.
Proof.
  split; [set_solver|].
  destruct (block_then_unblock_fields one_blocked "ads.example") as [-> _].
  change (PyStr.strip (PyStr.lower "ads.example")) with "ads.example".
  cbn [Blocker.blocked_domains one_blocked]. set_solver.
Qed.

(** ** Schedules *)

Section Sorting.

Context {A : Type} (key : A -> Z).

Lemma insert_desc_perm (x : A) (l : list A) :
  Schedules.insert_desc key x l ≡ₚ x :: l.
Proof.
  induction l as [|y l IH]; cbn [Schedules.insert_desc]; [done|].
  destruct (key x <? key y)%Z; [|done].
  rewrite IH. apply Permutation_swap.
Qed.

Lemma sorted_reverse_perm (l : list A) : Schedules.sorted_reverse key l ≡ₚ l.
Proof.
  induction l as [|x l IH]; [done|].
  unfold Schedules.sorted_reverse. cbn [foldr].
  rewrite insert_desc_perm. by apply Permutation_skip.
Qed.

Lemma insert_desc_descending (x : A) (l : list A) :
  descending key l -> descending key (Schedules.insert_desc key x l).
Proof.
  unfold descending. induction 1 as [|y l Hl IH Hy]; cbn [Schedules.insert_desc].
  - repeat constructor.
  - destruct (Z.ltb_spec (key x) (key y)) as [Hlt|Hge].
    + constructor; [done|].
      rewrite insert_desc_perm. constructor; [lia | done].
    + constructor; [by constructor|].
      constructor; [done|]. eapply Forall_impl; [exact Hy|]. cbn. intros; lia.
Qed.

Lemma sorted_reverse_descending (l : list A) :
  descending key (Schedules.sorted_reverse key l).
Proof.
  induction l as [|x l IH]; [constructor|].
  by apply insert_desc_descending.
Qed.

End Sorting.

Lemma first_blocking_find now domain category (l : list Schedules.Schedule) :
  Schedules.first_blocking now domain category l
  = match List.find (fun s => Schedules.should_block s now domain category) l with
    | Some s => (true, Some (Schedules.id s))
    | None => (false, None)
    end.
Proof.
  induction l as [|s l IH]; cbn [Schedules.first_blocking List.find]; [done|].
  by destruct (Schedules.should_block s now domain category).
Qed.

Lemma find_insert_desc (blocks : Schedules.Schedule -> bool)
    (x : Schedules.Schedule) (l : list Schedules.Schedule) :
  descending Schedules.priority l ->
  List.find blocks (Schedules.insert_desc Schedules.priority x l)
  = match List.find blocks l with
    | None => if blocks x then Some x else None
    | Some y =>
        if blocks x && (Schedules.priority y <=? Schedules.priority x)%Z
        then Some x else Some y
    end.
Proof.
  unfold descending. induction 1 as [|z l Hl IH Hz]; cbn [Schedules.insert_desc List.find].
  - done.
  - destruct (Z.ltb_spec (Schedules.priority x) (Schedules.priority z)) as [Hlt|Hge];
      cbn [List.find].
    + destruct (blocks z) eqn:Hbz.
      * replace (Schedules.priority z <=? Schedules.priority x)%Z with false by lia.
        by rewrite andb_false_r.
      * exact IH.
    + destruct (blocks x) eqn:Hbx; cbn [andb];
        [|destruct (blocks z); [done | by destruct (List.find blocks l)]].
      destruct (blocks z) eqn:Hbz.
      * by replace (Schedules.priority z <=? Schedules.priority x)%Z with true by lia.
      * destruct (List.find blocks l) as [y|] eqn:Hfind; [|done].
        apply find_some in Hfind as [Hy _]. apply list_elem_of_In in Hy.
        rewrite Forall_forall in Hz. specialize (Hz y Hy). cbn in Hz.
        by replace (Schedules.priority y <=? Schedules.priority x)%Z with true by lia.
Qed.

Lemma find_sorted_reverse (blocks : Schedules.Schedule -> bool)
    (l : list Schedules.Schedule) :
  List.find blocks (Schedules.sorted_reverse Schedules.priority l) = best blocks l.
Proof.
  induction l as [|x l IH]; [done|].
  unfold Schedules.sorted_reverse. cbn [foldr best].
  rewrite find_insert_desc by apply sorted_reverse_descending.
  fold (Schedules.sorted_reverse Schedules.priority l). by rewrite IH.
Qed.

Lemma best_spec (blocks : Schedules.Schedule -> bool) (l : list Schedules.Schedule) :
  match best blocks l with
  | Some s =>
      exists k, l !! k = Some s /\ blocks s = true /\
        forall j s', l !! j = Some s' -> blocks s' = true ->
          (Schedules.priority s' < Schedules.priority s)%Z
          \/ (Schedules.priority s' = Schedules.priority s /\ (k <= j)%nat)
  | None => forall s, s ∈ l -> blocks s = false
  end.
Proof.
  induction l as [|x l IH]; cbn [best].
  - intros s Hs. by apply elem_of_nil in Hs.
  - destruct (best blocks l) as [y|].
    + destruct IH as (k & Hk & Hby & Hmax).
      destruct (blocks x) eqn:Hbx; cbn [andb].
      * destruct (Z.leb_spec (Schedules.priority y) (Schedules.priority x)) as [Hle|Hgt].
        -- exists 0%nat. repeat split; [done|]. intros [|j] s' Hj Hbs'.
           ++ injection Hj as <-. right. split; [done | lia].
           ++ destruct (Hmax j s' Hj Hbs') as [?|[? ?]]; [left; lia|].
              destruct (Z.eq_dec (Schedules.priority s') (Schedules.priority x));
                [right; split; [done | lia] | left; lia].
        -- exists (S k). repeat split; try done. intros [|j] s' Hj Hbs'.
           ++ injection Hj as <-. left. lia.
           ++ destruct (Hmax j s' Hj Hbs') as [?|[? ?]]; [by left | right; split; [done | lia]].
      * exists (S k). repeat split; try done. intros [|j] s' Hj Hbs'.
        -- injection Hj as <-. congruence.
        -- destruct (Hmax j s' Hj Hbs') as [?|[? ?]]; [by left | right; split; [done | lia]].
    + destruct (blocks x) eqn:Hbx.
      * exists 0%nat. repeat split; [done|]. intros [|j] s' Hj Hbs'.
        -- injection Hj as <-. right. split; [done | lia].
        -- change (l !! j = Some s') in Hj. apply list_elem_of_lookup_2 in Hj.
           rewrite (IH s' Hj) in Hbs'. done.
      * intros s Hs. apply elem_of_cons in Hs as [->|Hs]; [done | by apply IH].
Qed.


(** C8, as amended.  [ScheduleManager.should_block] reports the blocking
    schedule of greatest priority and, among blocking schedules of equal
    priority, the one that entered the manager's dictionary first (position
    [k] in [schedules.values()]); it reports no block exactly when no
    schedule blocks.  The schedule id plays no part in the order. *)
Theorem should_block_order (m : Schedules.ScheduleManager)
    (now : Schedules.datetime) (domain category : string) :
  match ScheduleManager.should_block m now domain category with
  | (true, Some i) =>
      exists k s,
        PyDict.values (Schedules.schedules m) !! k = Some s
        /\ Schedules.id s = i
        /\ Schedules.should_block s now domain category = true
        /\ forall j s',
             PyDict.values (Schedules.schedules m) !! j = Some s' ->
             Schedules.should_block s' now domain category = true ->
             (Schedules.priority s' < Schedules.priority s)%Z
             \/ (Schedules.priority s' = Schedules.priority s /\ (k <= j)%nat)
  | (false, None) =>
      forall s, s ∈ PyDict.values (Schedules.schedules m) ->
                Schedules.should_block s now domain category = false
  | _ => False
  end.
Proof.
  unfold ScheduleManager.should_block.
  rewrite first_blocking_find, find_sorted_reverse.
  pose proof (best_spec (fun s => Schedules.should_block s now domain category)
                (PyDict.values (Schedules.schedules m))) as Hbest.
  destruct (best _ _) as [s|]; [|exact Hbest].
  destruct Hbest as (k & Hk & Hb & Hmax). by exists k, s.
Qed.

(** C8, as the specification words it, fails on a tie: of two blocking
    schedules with priority 0, [b] entered before [a], the manager reports
    [b], not the lexicographically smaller [a]. *)
Lemma tie_not_by_id :
  ScheduleManager.should_block two_schedules monday_17h "example.org" ""
  = (true, Some "b")
  /\ claimed_should_block two_schedules monday_17h "example.org" ""
     = (true, Some "a").
Proof. vm_compute. done. Qed.



(** ** Keywords *)

Lemma severity_loop_spec (base : Keywords.AlertSeverity) (text_lower : string)
    (words : list string) :
  Keywords.severity_loop base text_lower words
  = if existsb (fun w => PyStr.contains (PyStr.lower w) text_lower) words
    then one_level_up base else base.
Proof.
  induction words as [|w words IH]; cbn [Keywords.severity_loop existsb]; [done|].
  destruct (PyStr.contains (PyStr.lower w) text_lower); cbn [orb]; [|exact IH].
  destruct base; cbn [Keywords.elevated one_level_up]; try done.
  rewrite IH. by destruct (existsb _ words).
Qed.

Lemma get_severity_spec (kw : Keywords.Keyword) (text : string) :
  Keywords.get_severity_with_context kw text
  = if has_context kw text then one_level_up (Keywords.severity kw)
    else Keywords.severity kw.
Proof.
  unfold Keywords.get_severity_with_context, has_context.
  destruct (Keywords.context_words kw) as [|w ws] eqn:Hws; [done|].
  apply severity_loop_spec.
Qed.

Section KeywordMatching.

Variable re_search : forall (ignorecase : bool) (pattern text : string), option string.
Variable re_escape : string -> string.

Lemma excluded_no_match (kw : Keywords.Keyword) (text : string) :
  Keywords.excluded kw text = true ->
  Keywords.matches re_search re_escape kw text = (false, None).
Proof.
  intros Hex. unfold Keywords.matches. rewrite Hex.
  by destruct (negb (Keywords.enabled kw)).
Qed.

(** C9.  A text that holds an exclusion word of a keyword, case ignored,
    never matches it; for the keyword [suicide] (contains, critical,
    context words [how to] and [method], exclusion words [prevention] and
    [hotline]) the text [searching suicide hotline] gives no match and
    [how to commit suicide] gives one match of severity critical; a context
    word in the text raises the severity one level, low to medium to high
    to critical, and leaves critical as it is. *)
Theorem exclusion_and_context :
  (forall kw text e,
      e ∈ Keywords.exclude_words kw ->
      PyStr.contains (PyStr.lower e) (PyStr.lower text) = true ->
      Keywords.matches re_search re_escape kw text = (false, None))
  /\ Keywords.matches re_search re_escape suicide_keyword "searching suicide hotline"
     = (false, None)
  /\ Keywords.match_ re_search re_escape [ ("sh_suicide", suicide_keyword) ] "t0"
       "searching suicide hotline" "content" 50 = []
  /\ Keywords.matches re_search re_escape suicide_keyword "how to commit suicide"
     = (true, Some "suicide")
  /\ Keywords.match_ re_search re_escape [ ("sh_suicide", suicide_keyword) ] "t0"
       "how to commit suicide" "content" 50
     = [ {| Keywords.keyword := suicide_keyword;
            Keywords.matched_text := "suicide";
            Keywords.context := "how to commit suicide";
            Keywords.location := "content";
            Keywords.match_severity := Keywords.CRITICAL;
            Keywords.timestamp := "t0" |} ]
  /\ (forall kw text,
        Keywords.get_severity_with_context kw text
        = if has_context kw text then one_level_up (Keywords.severity kw)
          else Keywords.severity kw)
  /\ one_level_up Keywords.LOW = Keywords.MEDIUM
  /\ one_level_up Keywords.MEDIUM = Keywords.HIGH
  /\ one_level_up Keywords.HIGH = Keywords.CRITICAL
  /\ one_level_up Keywords.CRITICAL = Keywords.CRITICAL.
Proof.
  split; [|repeat split; try reflexivity; apply get_severity_spec].
  intros kw text e He Hsub. apply excluded_no_match.
  unfold Keywords.excluded. apply existsb_exists. exists e.
  split; [by apply list_elem_of_In | done].
Qed.

End KeywordMatching.

(** ** The transparent proxy *)

Section ProxyAddon.

Variable _categorize_domain : string -> Proxy.TrafficCategory.
Variable parse_mitmproxy_flow : Proxy.HTTPFlow -> string + string.

Lemma blocked_request_killed (self : Proxy.TrafficInterceptor) (utcnow : string)
    (clock : Z) (flow : Proxy.HTTPFlow) :
  Proxy._should_block self flow = true ->
  Proxy.request_hook _categorize_domain parse_mitmproxy_flow self utcnow clock flow
  = ({| Proxy.config := Proxy.config self;
        Proxy.active_flows := Proxy.active_flows self;
        Proxy.emitted :=
          Proxy.emitted self
          ++ [ {| Proxy.event_type := "blocked"; Proxy.flow_id := Proxy.id flow;
                  Proxy.timestamp := utcnow;
                  Proxy.data :=
                    Proxy.DataBlocked "Domain blocked by policy"
                      (Proxy.host (Proxy.request flow))
                      (Proxy.pretty_url (Proxy.request flow)) |} ] |},
     {| Proxy.id := Proxy.id flow; Proxy.request := Proxy.request flow;
        Proxy.response := Proxy.response flow;
        Proxy.error := Some "Connection killed." |}).
Proof. intros Hblock. unfold Proxy.request_hook. by rewrite Hblock. Qed.

(** C3, on the code.  A request for a host on the block list: the addon
    kills the flow and emits one [blocked] event; the flow is left without a
    response, so no 403 is built for the client. *)
Theorem blocked_request_has_no_response :
  Proxy._should_block ads_interceptor ads_flow = true
  /\ Proxy.response
       (Proxy.request_hook _categorize_domain parse_mitmproxy_flow
          ads_interceptor "t0" 0 ads_flow).2 = None
  /\ Proxy.error
       (Proxy.request_hook _categorize_domain parse_mitmproxy_flow
          ads_interceptor "t0" 0 ads_flow).2 = Some "Connection killed."
  /\ Proxy.emitted
       (Proxy.request_hook _categorize_domain parse_mitmproxy_flow
          ads_interceptor "t0" 0 ads_flow).1
     = [ {| Proxy.event_type := "blocked"; Proxy.flow_id := "flow-1";
            Proxy.timestamp := "t0";
            Proxy.data :=
              Proxy.DataBlocked "Domain blocked by policy" "ads.example"
                "https://ads.example/banner.js" |} ].
Proof.
  assert (Hblock : Proxy._should_block ads_interceptor ads_flow = true)
    by (vm_compute; reflexivity).
  split; [exact Hblock|].
  rewrite (blocked_request_killed _ "t0" 0 _ Hblock).
  cbn [fst snd Proxy.response Proxy.error Proxy.emitted ads_interceptor ads_flow
       Proxy.id Proxy.request Proxy.host Proxy.pretty_url app].
  repeat split.
Qed.

End ProxyAddon.

(** ** The device table *)










(** A second sighting of a MAC address under a new id replaces the row; a
    row that DNS records refer to cannot be displaced that way. *)
Example replace_by_mac :
  DbManager.devices
    (DbManager.run [ DbManager.AddDevice (device "d1" "aa:bb:cc:00:00:11" "192.168.1.23");
                     DbManager.AddDevice (device "d2" "aa:bb:cc:00:00:22" "192.168.1.24");
                     DbManager.AddDevice (device "d3" "aa:bb:cc:00:00:11" "192.168.1.25") ])
  = [ device "d2" "aa:bb:cc:00:00:22" "192.168.1.24";
      device "d3" "aa:bb:cc:00:00:11" "192.168.1.25" ]
  /\ DbManager.devices
       (DbManager.run [ DbManager.AddDevice (device "d1" "aa:bb:cc:00:00:11" "192.168.1.23");
                        DbManager.AddReference (Some "d1");
                        DbManager.AddDevice (device "d3" "aa:bb:cc:00:00:11" "192.168.1.25") ])
     = [ device "d1" "aa:bb:cc:00:00:11" "192.168.1.23" ].
Proof. vm_compute. done. Qed.

(** ** The blocking engine *)

Lemma suffix_match_spec (domain entry : string) :
  String.eqb domain entry || PyStr.endswith domain ("." +:+ entry) = true
  <-> domain = entry \/ exists p, domain = p +:+ "." +:+ entry.
Proof. by rewrite orb_true_iff, String.eqb_eq, endswith_spec. Qed.

Lemma _is_whitelisted_spec (self : Blocker.BlockingEngine) (domain : string) :
  Blocker._is_whitelisted self domain = true
  <-> exists w, w ∈ Blocker.whitelisted_domains self
                /\ (domain = w \/ exists p, domain = p +:+ "." +:+ w).
Proof.
  unfold Blocker._is_whitelisted. rewrite existsb_elements.
  by setoid_rewrite suffix_match_spec.
Qed.

Lemma _check_domain_block_spec (self : Blocker.BlockingEngine) (domain : string) :
  Blocker._check_domain_block self domain = true
  <-> exists b, b ∈ Blocker.blocked_domains self
                /\ (domain = b \/ exists p, domain = p +:+ "." +:+ b).
Proof.
  unfold Blocker._check_domain_block. rewrite existsb_elements.
  by setoid_rewrite suffix_match_spec.
Qed.

Lemma blocked_category_of_Some (self : Blocker.BlockingEngine)
    (cats : list Categories.BlockCategory) (c : Categories.BlockCategory) :
  Blocker.blocked_category_of self cats = Some c ->
  c ∈ cats /\ c ∈ Blocker.blocked_categories self.
Proof.
  unfold Blocker.blocked_category_of. intros Hfind.
  apply find_some in Hfind as [Hin Hc].
  split; [by apply list_elem_of_In | by apply bool_decide_eq_true in Hc].
Qed.

Lemma blocked_category_of_None (self : Blocker.BlockingEngine)
    (cats : list Categories.BlockCategory) (c : Categories.BlockCategory) :
  Blocker.blocked_category_of self cats = None ->
  c ∈ cats -> c ∉ Blocker.blocked_categories self.
Proof.
  unfold Blocker.blocked_category_of. intros Hfind Hin.
  apply list_elem_of_In in Hin.
  pose proof (find_none _ _ Hfind c Hin) as Hc.
  by apply bool_decide_eq_false in Hc.
Qed.

Lemma truthy_true (s : string) : PyStr.truthy s = true <-> s <> "".
Proof.
  unfold PyStr.truthy. rewrite negb_true_iff. apply String.eqb_neq.
Qed.

Lemma find_truthy {A} (f : A -> bool) (text : A -> string) (l : list A) :
  (forall x, x ∈ l -> text x <> "") ->
  PyStr.truthy_opt (text <$> List.find f l) = true
  <-> exists x, x ∈ l /\ f x = true.
Proof.
  intros Hne. destruct (List.find f l) as [x|] eqn:Hfind; cbn.
  - apply find_some in Hfind as [Hin Hf]. apply list_elem_of_In in Hin.
    rewrite truthy_true. split; [by exists x | intros _; by apply Hne].
  - split; [done|]. intros (x & Hin & Hf). apply list_elem_of_In in Hin.
    by rewrite (find_none _ _ Hfind x Hin) in Hf.
Qed.

(** Stage 7 in words: when no blocked keyword is the empty string, the
    keyword test fires exactly when some blocked keyword occurs, case
    ignored, in the URL followed by a space and the content. *)
Lemma _check_keywords_fires (self : Blocker.BlockingEngine) (url content : string) :
  (forall k, k ∈ Blocker.blocked_keywords self -> k <> "") ->
  PyStr.truthy_opt (Blocker._check_keywords self url content) = true
  <-> exists k, k ∈ Blocker.blocked_keywords self
                /\ PyStr.contains (PyStr.lower k)
                     (PyStr.lower (url +:+ " " +:+ content)) = true.
Proof.
  intros Hne. unfold Blocker._check_keywords.
  rewrite <- (find_truthy _ id) by done. by rewrite option_fmap_id.
Qed.

Section UrlPatterns.

Variable re_search : Blocker.Pattern -> string -> bool.

(** Stage 3 in words: when no pattern has an empty text, the pattern test
    fires exactly when some pattern of the engine is found in the URL. *)
Lemma _check_url_patterns_fires (self : Blocker.BlockingEngine) (url : string) :
  (forall p, p ∈ Blocker.url_patterns self -> Blocker.pattern p <> "") ->
  PyStr.truthy_opt (Blocker._check_url_patterns re_search self url) = true
  <-> exists p, p ∈ Blocker.url_patterns self /\ re_search p url = true.
Proof. intros Hne. unfold Blocker._check_url_patterns. by apply find_truthy. Qed.

End UrlPatterns.

Section CheckOrder.

Variable re_search : Blocker.Pattern -> string -> bool.


End CheckOrder.

(** The homework scenario: on Monday at 17:00 [steampowered.com] is blocked
    by the schedule, with its category; at 18:01 it is allowed. *)
Example homework_scenario :
  Blocker.check no_match homework_engine monday_17h "steampowered.com" "" "" true
  = (Blocker.block monday_17h "Blocked by schedule: homework" None (Some "schedule")
       (Some "gaming") (Some "homework"),
     [ Blocker.block monday_17h "Blocked by schedule: homework" None (Some "schedule")
         (Some "gaming") (Some "homework") ])
  /\ Blocker.check no_match homework_engine monday_18h01 "steampowered.com" "" "" true
     = (Blocker.allow monday_18h01 "Allowed", []).
Proof. vm_compute. done. Qed.

(** ** More on the blocking engine *)

Section CheckMore.

Variable re_search : Blocker.Pattern -> string -> bool.

(** Splits [check] along the tests of its stages. *)
Ltac check_cases :=
  unfold Blocker.check; cbv zeta;
  repeat (cbv iota beta; case_match); cbv iota beta.

(** X1.  The callbacks hear of a decision exactly when it blocks, and then
    once. *)
Theorem check_notifies_blocks (self : Blocker.BlockingEngine)
    (now : Schedules.datetime) (domain url content : string) (check_schedule : bool) :
  (Blocker.check re_search self now domain url content check_schedule).2
  = if Blocker.should_block
         (Blocker.check re_search self now domain url content check_schedule).1
    then [ (Blocker.check re_search self now domain url content check_schedule).1 ]
    else [].
Proof.
  destruct check_schedule; check_cases;
    cbn [fst snd Blocker.should_block Blocker.allow Blocker.block] in *; congruence.
Qed.

(** X2.  A decision that allows with the schedules consulted is the decision
    reached without them. *)
Theorem allowed_without_schedules (self : Blocker.BlockingEngine)
    (now : Schedules.datetime) (domain url content : string) :
  Blocker.should_block (Blocker.check re_search self now domain url content true).1 = false ->
  Blocker.check re_search self now domain url content false
  = Blocker.check re_search self now domain url content true.
Proof.
  check_cases; cbn [fst snd Blocker.should_block Blocker.allow Blocker.block] in *;
    intros; congruence.
Qed.

End CheckMore.

Lemma allowed_without_schedules_witness :
  Blocker.check no_match homework_engine monday_18h01 "roblox.com" "" "" false
  = Blocker.check no_match homework_engine monday_18h01 "roblox.com" "" "" true.
Proof.
  apply (allowed_without_schedules no_match homework_engine monday_18h01
           "roblox.com" "" "").
  vm_compute. reflexivity.
Defined.

Lemma is_space_lower (c : ascii) :
  PyStr.is_space (PyStr.lower_ascii c) = PyStr.is_space c.
Proof. by destruct c as [[] [] [] [] [] [] [] []]. Qed.

Lemma lower_lstrip (s : string) :
  PyStr.lower (PyStr.lstrip_by PyStr.is_space s)
  = PyStr.lstrip_by PyStr.is_space (PyStr.lower s).
Proof.
  induction s as [|c s IH]; [done|].
  cbn [PyStr.lower PyStr.lstrip_by]. rewrite is_space_lower.
  by destruct (PyStr.is_space c).
Qed.

Lemma lower_rstrip (s : string) :
  PyStr.lower (PyStr.rstrip_by PyStr.is_space s)
  = PyStr.rstrip_by PyStr.is_space (PyStr.lower s).
Proof.
  induction s as [|c s IH]; [done|].
  cbn [PyStr.lower PyStr.rstrip_by]. rewrite <- IH, is_space_lower.
  destruct (PyStr.rstrip_by PyStr.is_space s); cbn [PyStr.lower]; [|done].
  by destruct (PyStr.is_space c).
Qed.

(** A name in the normal form of [check] is in lower case. *)
Lemma lower_normal (s : string) :
  PyStr.lower (PyStr.strip (PyStr.lower s)) = PyStr.strip (PyStr.lower s).
Proof. unfold PyStr.strip. by rewrite lower_rstrip, lower_lstrip, lower_idemp. Qed.

Section EngineUpdates.

Variable re_search : Blocker.Pattern -> string -> bool.

(** X3.  After [whitelist_domain(d)], the domain [d] and every name under it
    is allowed, whatever else the policy holds, and no callback is told. *)
Theorem whitelist_domain_allows (self : Blocker.BlockingEngine) (d : string)
    (now : Schedules.datetime) (domain url content : string) (check_schedule : bool) :
  PyStr.strip (PyStr.lower domain) = PyStr.strip (PyStr.lower d)
  \/ (exists p, PyStr.strip (PyStr.lower domain)
                = p +:+ "." +:+ PyStr.strip (PyStr.lower d)) ->
  Blocker.check re_search (Blocker.whitelist_domain self d).1 now domain url content
    check_schedule
  = (Blocker.allow now "Domain is whitelisted", []).
Proof.
  intros Hmatch. unfold Blocker.check. cbv zeta.
  replace (Blocker._is_whitelisted _ _) with true; [done|].
  symmetry. apply _is_whitelisted_spec. exists (PyStr.strip (PyStr.lower d)).
  split; [|exact Hmatch]. cbn. apply elem_of_union_r, elem_of_singleton_2. done.
Qed.

(** X4.  After [block_domain(d)], the domain [d] and every name under it is
    blocked by the domain rule, unless the whitelist covers the name. *)
Theorem block_domain_blocks (self : Blocker.BlockingEngine) (d : string)
    (now : Schedules.datetime) (domain url content : string) (check_schedule : bool) :
  Blocker._is_whitelisted self (PyStr.strip (PyStr.lower domain)) = false ->
  PyStr.strip (PyStr.lower domain) = PyStr.strip (PyStr.lower d)
  \/ (exists p, PyStr.strip (PyStr.lower domain)
                = p +:+ "." +:+ PyStr.strip (PyStr.lower d)) ->
  (Blocker.check re_search (Blocker.block_domain self d).1 now domain url content
     check_schedule).1
  = Blocker.block now ("Domain blocked: " +:+ PyStr.strip (PyStr.lower domain))
      None (Some "domain") None None.
Proof.
  intros Hwhite Hmatch. unfold Blocker.check. cbv zeta.
  replace (Blocker._is_whitelisted (Blocker.block_domain self d).1 _) with false
    by (by rewrite <- Hwhite).
  replace (Blocker._check_domain_block _ _) with true; [done|].
  symmetry. apply _check_domain_block_spec. exists (PyStr.strip (PyStr.lower d)).
  split; [|exact Hmatch]. cbn. apply elem_of_union_r, elem_of_singleton_2. done.
Qed.

End EngineUpdates.

Lemma whitelist_domain_allows_witness :
  Blocker.check no_match (Blocker.whitelist_domain one_blocked " Ads.Example").1
    monday_17h "CDN.ads.example" "" "" true
  = (Blocker.allow monday_17h "Domain is whitelisted", []).
Proof.
  apply (whitelist_domain_allows no_match one_blocked " Ads.Example" monday_17h
           "CDN.ads.example" "" "" true).
  right. exists "cdn". vm_compute. reflexivity.
Defined.

Lemma block_domain_blocks_witness :
  (Blocker.check no_match (Blocker.block_domain homework_engine "Tracker.Example").1
     monday_18h01 "a.tracker.example " "" "" true).1
  = Blocker.block monday_18h01
      ("Domain blocked: " +:+ PyStr.strip (PyStr.lower "a.tracker.example "))
      None (Some "domain") None None.
Proof.
  apply (block_domain_blocks no_match homework_engine "Tracker.Example" monday_18h01
           "a.tracker.example " "" "" true).
  - vm_compute. reflexivity.
  - right. exists "a". vm_compute. reflexivity.
Defined.

(** ** Categories *)

Lemma member_name_lower (c : Categories.BlockCategory) :
  PyStr.lower (Categories.member_name c) = Categories.value c.
Proof. by destruct c. Qed.

Lemma of_value_Some (s : string) (c : Categories.BlockCategory) :
  Categories.of_value s = Some c -> Categories.value c = s.
Proof.
  unfold Categories.of_value. intros Hfind. apply find_some in Hfind as [_ Heq].
  by apply String.eqb_eq in Heq.
Qed.

Lemma of_value_value (c : Categories.BlockCategory) :
  Categories.of_value (Categories.value c) = Some c.
Proof. by destruct c. Qed.

(** X5.  [get_category] reads a category off its value with the case ignored,
    and off nothing else: the second look-up, by member name, finds no
    category that the first one misses.  Every category is found by its value
    and by its member name. *)
Theorem get_category_by_value (s : string) :
  Categories.get_category s = Categories.of_value (PyStr.lower s)
  /\ (forall c, Categories.get_category s = Some c <-> Categories.value c = PyStr.lower s)
  /\ (forall c, Categories.get_category (Categories.value c) = Some c
                /\ Categories.get_category (Categories.member_name c) = Some c).
Proof.
  assert (Hget : Categories.get_category s = Categories.of_value (PyStr.lower s)).
  { unfold Categories.get_category.
    destruct (Categories.of_value (PyStr.lower s)) as [c|] eqn:Hof; [done|].
    destruct (List.find _ Categories.members) as [c|] eqn:Hfind; [|done].
    apply find_some in Hfind as [_ Heq]. apply String.eqb_eq in Heq.
    rewrite member_name_lower in Heq. by rewrite <- Heq, of_value_value in Hof. }
  split; [exact Hget|]. split.
  - intros c. rewrite Hget. split; [apply of_value_Some|].
    intros <-. apply of_value_value.
  - intros c. by destruct c.
Qed.

Lemma append_assoc (a b c : string) : (a +:+ b) +:+ c = a +:+ b +:+ c.
Proof. induction a as [|x a IH]; [done|]. by rewrite !append_cons, IH. Qed.

Lemma lower_app (a b : string) :
  PyStr.lower (a +:+ b) = PyStr.lower a +:+ PyStr.lower b.
Proof.
  induction a as [|x a IH]; [done|].
  rewrite append_cons. cbn [PyStr.lower]. by rewrite IH, append_cons.
Qed.

Lemma domain_matches_spec (d b : string) :
  Categories.domain_matches d b = true
  <-> d = b \/ exists p, d = p +:+ "." +:+ b.
Proof. apply suffix_match_spec. Qed.

Lemma domain_matches_sub (p d b : string) :
  Categories.domain_matches d b = true ->
  Categories.domain_matches (p +:+ "." +:+ d) b = true.
Proof.
  rewrite !domain_matches_spec. intros [->|[q ->]]; right.
  - by exists p.
  - exists (p +:+ "." +:+ q). by rewrite !append_assoc.
Qed.

Lemma elem_of_check_domain_category
    (defs : list (Categories.BlockCategory * Categories.CategoryDefinition))
    (d : string) (c : Categories.BlockCategory) :
  c ∈ Categories.check_domain_category_in defs d
  <-> exists def b, (c, def) ∈ defs /\ b ∈ Categories.domains def
                    /\ Categories.domain_matches (PyStr.lower d) b = true.
Proof.
  unfold Categories.check_domain_category_in. cbv zeta.
  rewrite list_elem_of_fmap. split.
  - intros ([c' def] & -> & Hin). apply list_elem_of_filter in Hin as [Hex Hin].
    apply Is_true_true in Hex. apply existsb_exists in Hex as (b & Hb & Hm).
    exists def, b. cbn [fst snd] in *.
    split; [done|]. split; [by apply list_elem_of_In | done].
  - intros (def & b & Hin & Hb & Hm). exists (c, def). split; [done|].
    apply list_elem_of_filter. split; [|done].
    apply Is_true_true. apply existsb_exists. exists b. cbn [fst snd].
    split; [by apply list_elem_of_In | done].
Qed.

(** X6.  A name under a domain of a category is in that category too: the
    categories of [d] are categories of every [p.d]. *)
Theorem category_closed_under_subdomains
    (defs : list (Categories.BlockCategory * Categories.CategoryDefinition))
    (p d : string) (c : Categories.BlockCategory) :
  c ∈ Categories.check_domain_category_in defs d ->
  c ∈ Categories.check_domain_category_in defs (p +:+ "." +:+ d).
Proof.
  rewrite !elem_of_check_domain_category. intros (def & b & Hin & Hb & Hm).
  exists def, b. repeat split; try done.
  rewrite !lower_app. change (PyStr.lower ".") with ".".
  by apply domain_matches_sub.
Qed.

Lemma category_closed_under_subdomains_witness :
  Categories.GAMING
  ∈ Categories.check_domain_category_in Categories.CATEGORY_DEFINITIONS
      ("Store" +:+ "." +:+ "SteamPowered.com").
Proof.
  apply (category_closed_under_subdomains Categories.CATEGORY_DEFINITIONS
           "Store" "SteamPowered.com" Categories.GAMING).
  vm_compute. apply list_elem_of_here.
Defined.

Section CategoryBlock.

Variable re_search : Blocker.Pattern -> string -> bool.

(** X7.  After [block_category] of a category, every domain that the table
    lists for it, and every name under such a domain, is blocked, unless the
    whitelist covers the name. *)
Theorem block_category_blocks (self : Blocker.BlockingEngine)
    (c : Categories.BlockCategory) (def : Categories.CategoryDefinition)
    (dom : string) (now : Schedules.datetime) (domain url content : string)
    (check_schedule : bool) :
  (c, def) ∈ Categories.CATEGORY_DEFINITIONS ->
  dom ∈ Categories.domains def ->
  PyStr.strip (PyStr.lower domain) = dom
  \/ (exists p, PyStr.strip (PyStr.lower domain) = p +:+ "." +:+ dom) ->
  Blocker._is_whitelisted self (PyStr.strip (PyStr.lower domain)) = false ->
  (Blocker.block_category self (Categories.value c)).2 = true
  /\ Blocker.should_block
       (Blocker.check re_search (Blocker.block_category self (Categories.value c)).1.1
          now domain url content check_schedule).1 = true.
Proof.
  intros Hdef Hdom Hmatch Hwhite.
  unfold Blocker.block_category.
  replace (Categories.get_category (Categories.value c)) with (Some c)
    by (by destruct c).
  split; [done|]. cbn [fst snd].
  set (self' := Blocker.with_categories self _).
  assert (Hc : c ∈ Categories.check_domain_category (PyStr.strip (PyStr.lower domain))).
  { apply elem_of_check_domain_category. exists def, dom.
    rewrite lower_normal. repeat split; try done. by apply domain_matches_spec. }
  unfold Blocker.check. cbv zeta.
  replace (Blocker._is_whitelisted self' _) with false by (by rewrite <- Hwhite).
  destruct (Blocker._check_domain_block self' _); [done|].
  destruct (PyStr.truthy_opt _); [done|].
  destruct (Blocker.blocked_category_of self' _) as [c'|] eqn:Hcat; [done|].
  exfalso. apply (blocked_category_of_None _ _ c Hcat Hc).
  subst self'. cbn. apply elem_of_union_r, elem_of_singleton_2. done.
Qed.

End CategoryBlock.

Lemma block_category_blocks_witness :
  (Blocker.block_category one_blocked (Categories.value Categories.GAMING)).2 = true
  /\ Blocker.should_block
       (Blocker.check no_match
          (Blocker.block_category one_blocked (Categories.value Categories.GAMING)).1.1
          monday_18h01 "Store.SteamPowered.com" "" "" false).1 = true.
Proof.
  refine (block_category_blocks no_match one_blocked Categories.GAMING _ "steampowered.com"
            monday_18h01 "Store.SteamPowered.com" "" "" false _ _ _ _).
  - apply list_elem_of_further, list_elem_of_further, list_elem_of_further,
      list_elem_of_here.
  - apply list_elem_of_here.
  - right. exists "store". vm_compute. reflexivity.
  - vm_compute. reflexivity.
Defined.

(** ** Keywords and rules of the policy *)

Lemma existsb_eqb_elem (x : string) (l : list string) :
  existsb (String.eqb x) l = true <-> x ∈ l.
Proof.
  rewrite existsb_exists. split.
  - intros (y & Hy & Heq). apply String.eqb_eq in Heq as ->. by apply list_elem_of_In.
  - intros Hx. exists x. split; [by apply list_elem_of_In | apply String.eqb_refl].
Qed.

Lemma pop_keyword_fresh (k : string) (ks : list string) :
  PyStr.lower k ∉ (PyStr.lower <$> ks) ->
  Blocker.pop_keyword (PyStr.lower k) (ks ++ [k]) = Some ks.
Proof.
  induction ks as [|x ks IH]; intros Hfresh.
  - cbn. by rewrite String.eqb_refl.
  - rewrite fmap_cons, not_elem_of_cons in Hfresh. destruct Hfresh as [Hx Hks].
    cbn [app Blocker.pop_keyword].
    destruct (String.eqb_spec (PyStr.lower x) (PyStr.lower k)) as [Heq|_]; [done|].
    by rewrite IH.
Qed.

Lemma pop_keyword_Some (kl : string) (ks ks' : list string) :
  Blocker.pop_keyword kl ks = Some ks' ->
  exists before k after,
    ks = before ++ k :: after /\ ks' = before ++ after /\ PyStr.lower k = kl.
Proof.
  revert ks'. induction ks as [|x ks IH]; intros ks'; cbn [Blocker.pop_keyword]; [done|].
  destruct (String.eqb_spec (PyStr.lower x) kl) as [Heq|_].
  - intros [= <-]. by exists [], x, ks.
  - destruct (Blocker.pop_keyword kl ks) as [r|]; [|done]. intros [= <-].
    destruct (IH r eq_refl) as (before & k & after & -> & -> & Hk).
    by exists (x :: before), k, after.
Qed.

Lemma pop_keyword_None (kl : string) (ks : list string) :
  Blocker.pop_keyword kl ks = None -> kl ∉ (PyStr.lower <$> ks).
Proof.
  induction ks as [|x ks IH]; cbn [Blocker.pop_keyword]; [intros _; apply not_elem_of_nil|].
  destruct (String.eqb_spec (PyStr.lower x) kl) as [Heq|Hne]; [done|].
  destruct (Blocker.pop_keyword kl ks); [done|]. intros _.
  rewrite fmap_cons, not_elem_of_cons. split; [done | by apply IH].
Qed.

(** X8.  [add_keyword] keeps the keywords pairwise different up to case: it
    refuses, and changes nothing, exactly when the policy holds the keyword in
    some spelling. *)
Theorem add_keyword_keeps_distinct (self : Blocker.BlockingEngine) (k : string) :
  keywords_distinct self ->
  keywords_distinct (Blocker.add_keyword self k).1.1
  /\ ((Blocker.add_keyword self k).2 = false
      <-> PyStr.lower k ∈ (PyStr.lower <$> Blocker.blocked_keywords self))
  /\ ((Blocker.add_keyword self k).2 = false -> (Blocker.add_keyword self k).1.1 = self)
  /\ ((Blocker.add_keyword self k).2 = true ->
      Blocker.blocked_keywords (Blocker.add_keyword self k).1.1
      = Blocker.blocked_keywords self ++ [k]).
Proof.
  unfold keywords_distinct, Blocker.add_keyword. intros Hnd.
  destruct (existsb _ _) eqn:Hex; cbn [fst snd].
  - apply existsb_eqb_elem in Hex. repeat split; try done.
  - assert (Hfresh : PyStr.lower k ∉ (PyStr.lower <$> Blocker.blocked_keywords self)).
    { intros Hin. apply existsb_eqb_elem in Hin. congruence. }
    repeat split; try done.
    cbn [Blocker.blocked_keywords Blocker.with_keywords].
    rewrite fmap_app. apply NoDup_app. split; [done|]. split; [|apply NoDup_singleton].
    intros x Hx Hk. cbn in Hk. apply list_elem_of_singleton in Hk as ->. done.
Qed.

Lemma add_keyword_keeps_distinct_witness :
  keywords_distinct (Blocker.add_keyword two_keywords "POKER").1.1
  /\ ((Blocker.add_keyword two_keywords "POKER").2 = false
      <-> PyStr.lower "POKER" ∈ (PyStr.lower <$> Blocker.blocked_keywords two_keywords))
  /\ ((Blocker.add_keyword two_keywords "POKER").2 = false ->
      (Blocker.add_keyword two_keywords "POKER").1.1 = two_keywords)
  /\ ((Blocker.add_keyword two_keywords "POKER").2 = true ->
      Blocker.blocked_keywords (Blocker.add_keyword two_keywords "POKER").1.1
      = Blocker.blocked_keywords two_keywords ++ ["POKER"]).
Proof.
  apply (add_keyword_keeps_distinct two_keywords "POKER").
  apply (bool_decide_unpack _). vm_compute. reflexivity.
Defined.

(** X9.  A keyword that [add_keyword] took is taken out again by
    [remove_keyword], in any spelling, and the policy is the one before. *)
Theorem add_then_remove_keyword (self : Blocker.BlockingEngine) (k k' : string) :
  (Blocker.add_keyword self k).2 = true ->
  PyStr.lower k' = PyStr.lower k ->
  (Blocker.remove_keyword (Blocker.add_keyword self k).1.1 k').2 = true
  /\ (Blocker.remove_keyword (Blocker.add_keyword self k).1.1 k').1.1 = self.
Proof.
  unfold Blocker.add_keyword. intros Hadd Hk.
  destruct (existsb _ _) eqn:Hex; [done|]. cbn [fst snd].
  assert (Hfresh : PyStr.lower k ∉ (PyStr.lower <$> Blocker.blocked_keywords self)).
  { intros Hin. apply existsb_eqb_elem in Hin. congruence. }
  unfold Blocker.remove_keyword.
  cbn [Blocker.blocked_keywords Blocker.with_keywords].
  rewrite Hk, (pop_keyword_fresh k _ Hfresh). cbn [fst snd].
  split; [done|]. by destruct self.
Qed.

Lemma add_then_remove_keyword_witness :
  (Blocker.remove_keyword (Blocker.add_keyword two_keywords "Roulette").1.1 "ROULETTE").2 = true
  /\ (Blocker.remove_keyword (Blocker.add_keyword two_keywords "Roulette").1.1 "ROULETTE").1.1
     = two_keywords.
Proof.
  apply (add_then_remove_keyword two_keywords "Roulette" "ROULETTE"); reflexivity.
Defined.

(** X10.  [remove_keyword] answers [False] exactly when the policy holds the
    keyword in no spelling; when the keywords are pairwise different up to
    case, no spelling of the keyword is left after it. *)
Theorem remove_keyword_removes (self : Blocker.BlockingEngine) (k : string) :
  keywords_distinct self ->
  (PyStr.lower k
     ∉ (PyStr.lower <$> Blocker.blocked_keywords (Blocker.remove_keyword self k).1.1))
  /\ ((Blocker.remove_keyword self k).2 = false
      <-> PyStr.lower k ∉ (PyStr.lower <$> Blocker.blocked_keywords self))
  /\ keywords_distinct (Blocker.remove_keyword self k).1.1.
Proof.
  unfold keywords_distinct, Blocker.remove_keyword. intros Hnd.
  destruct (Blocker.pop_keyword _ _) as [ks|] eqn:Hpop; cbn [fst snd].
  - apply pop_keyword_Some in Hpop as (before & x & after & Hks & -> & Hx).
    rewrite Hks, fmap_app, fmap_cons, Hx in Hnd.
    apply NoDup_app in Hnd as (Hb & Hdisj & Ha). apply NoDup_cons in Ha as [Hx' Ha].
    cbn [Blocker.blocked_keywords Blocker.with_keywords]. rewrite fmap_app.
    split; [|split].
    + rewrite elem_of_app. intros [Hin|Hin]; [|done].
      apply (Hdisj _ Hin). apply list_elem_of_here.
    + split; [done|]. intros Hnot. exfalso. apply Hnot.
      rewrite Hks, fmap_app, fmap_cons, Hx. apply elem_of_app. right. apply list_elem_of_here.
    + apply NoDup_app. split; [done|]. split; [|done].
      intros y Hy1 Hy2. apply (Hdisj _ Hy1). by apply list_elem_of_further.
  - pose proof (pop_keyword_None _ _ Hpop) as Hnone. by repeat split.
Qed.

Lemma remove_keyword_removes_witness :
  (PyStr.lower "CASINO"
     ∉ (PyStr.lower
          <$> Blocker.blocked_keywords (Blocker.remove_keyword two_keywords "CASINO").1.1))
  /\ ((Blocker.remove_keyword two_keywords "CASINO").2 = false
      <-> PyStr.lower "CASINO" ∉ (PyStr.lower <$> Blocker.blocked_keywords two_keywords))
  /\ keywords_distinct (Blocker.remove_keyword two_keywords "CASINO").1.1.
Proof.
  apply (remove_keyword_removes two_keywords "CASINO").
  apply (bool_decide_unpack _). vm_compute. reflexivity.
Defined.

Lemma dict_set_elem {V} (d : list (string * V)) (k : string) (v : V) (k' : string) (v' : V) :
  NoDup (PyDict.keys d) ->
  (k', v') ∈ PyDict.set d k v ->
  (k' = k /\ v' = v) \/ (k' <> k /\ (k', v') ∈ d).
Proof.
  unfold PyDict.keys. induction d as [|[k0 v0] d IH]; cbn [PyDict.set]; intros Hnd Hin.
  - apply list_elem_of_singleton in Hin as [= -> ->]. by left.
  - rewrite fmap_cons, NoDup_cons in Hnd. destruct Hnd as [Hk0 Hnd].
    destruct (String.eqb_spec k0 k) as [->|Hne].
    + apply elem_of_cons in Hin as [[= -> ->]|Hin]; [by left|]. right.
      split; [|by apply list_elem_of_further].
      intros ->. apply Hk0. by apply (list_elem_of_fmap_2 fst _ (k, v')).
    + apply elem_of_cons in Hin as [[= -> ->]|Hin].
      * right. split; [done | apply list_elem_of_here].
      * destruct (IH Hnd Hin) as [?|[? ?]]; [by left|].
        right. split; [done | by apply list_elem_of_further].
Qed.

Lemma dict_get_None {V} (d : list (string * V)) (k : string) :
  PyDict.get d k = None -> k ∉ PyDict.keys d.
Proof.
  unfold PyDict.keys. induction d as [|[k0 v0] d IH]; cbn [PyDict.get].
  - intros _. apply not_elem_of_nil.
  - destruct (String.eqb_spec k0 k) as [->|Hne]; [done|]. intros Hget.
    rewrite fmap_cons, not_elem_of_cons. split; [done | by apply IH].
Qed.

Section CustomRules.

Variable re_search : Blocker.Pattern -> string -> bool.

Lemma rule_id_custom (self : Blocker.BlockingEngine) (now : Schedules.datetime)
    (domain url content : string) (check_schedule : bool) (i : string) :
  Blocker.rule_id (Blocker.check re_search self now domain url content check_schedule).1
  = Some i ->
  exists rule,
    rule ∈ PyDict.values (Blocker.custom_rules self)
    /\ Blocker.rule_id_ rule = i
    /\ Blocker.custom_rule_hits (PyStr.strip (PyStr.lower domain)) rule = true
    /\ (Blocker.check re_search self now domain url content check_schedule).1
       = Blocker.block now (Blocker.custom_reason rule) (Some i) (Some "custom") None None.
Proof.
  unfold Blocker.check. cbv zeta.
  destruct (Blocker._is_whitelisted _ _); [done|].
  destruct (Blocker._check_domain_block _ _); [done|].
  destruct (PyStr.truthy_opt (Blocker._check_url_patterns _ _ _)); [done|].
  destruct (Blocker.blocked_category_of self (Categories.check_domain_category _)); [done|].
  destruct (if check_schedule then Blocker.schedule_for_categories _ _ _ _ else None)
    as [[? ?]|]; [done|].
  destruct (if check_schedule then ScheduleManager.should_block _ _ _ _ else _)
    as [[] ?]; [done|].
  destruct (Blocker.blocked_category_of self (Categories.check_url_keywords _ _)); [done|].
  destruct (PyStr.truthy_opt (Blocker._check_keywords _ _ _)); [done|].
  destruct (List.find (Blocker.custom_rule_hits _) _) as [rule|] eqn:Hfind; [|done].
  cbn [fst Blocker.rule_id Blocker.block]. intros [= <-].
  apply find_some in Hfind as [Hin Hhit]. exists rule.
  split; [by apply list_elem_of_In|]. done.
Qed.

(** X11.  Only a custom rule puts a rule id on a decision, and the rule it
    names is one of the policy's rules, enabled, of type [domain], whose value
    is the checked domain up to case. *)
Theorem rule_id_names_enabled_rule (self : Blocker.BlockingEngine)
    (now : Schedules.datetime) (domain url content : string)
    (check_schedule : bool) (i : string) :
  Blocker.rule_id (Blocker.check re_search self now domain url content check_schedule).1
  = Some i ->
  Blocker.rule_type (Blocker.check re_search self now domain url content check_schedule).1
  = Some "custom"
  /\ exists rule,
       rule ∈ PyDict.values (Blocker.custom_rules self)
       /\ Blocker.rule_id_ rule = i
       /\ Blocker.rule_enabled rule = true
       /\ Blocker.rule_type_ rule = "domain"
       /\ PyStr.lower (Blocker.rule_value rule) = PyStr.strip (PyStr.lower domain).
Proof.
  intros Hid. destruct (rule_id_custom _ _ _ _ _ _ _ Hid) as (rule & Hin & Hi & Hhit & ->).
  split; [done|]. exists rule. unfold Blocker.custom_rule_hits in Hhit.
  apply andb_true_iff in Hhit as [Hhit Hval]. apply andb_true_iff in Hhit as [Hen Hty].
  apply String.eqb_eq in Hval, Hty. by repeat split.
Qed.

(** X12.  Once [disable_rule(i)] has run on a policy whose rules are filed
    under their ids, no decision names the rule [i]. *)
Theorem disabled_rule_never_decides (self : Blocker.BlockingEngine) (i : string)
    (now : Schedules.datetime) (domain url content : string) (check_schedule : bool) :
  rules_by_id self ->
  Blocker.rule_id
    (Blocker.check re_search (Blocker.disable_rule self i).1.1 now domain url content
       check_schedule).1
  <> Some i.
Proof.
  intros [Hnd Hkeys] Hid.
  destruct (rule_id_custom _ _ _ _ _ _ _ Hid) as (rule & Hin & Hi & Hhit & _).
  unfold Blocker.custom_rule_hits in Hhit.
  apply andb_true_iff in Hhit as [Hhit _]. apply andb_true_iff in Hhit as [Hen _].
  unfold PyDict.values in Hin. apply list_elem_of_fmap in Hin as ([k r] & -> & Hin).
  cbn [snd] in *. rewrite Forall_forall in Hkeys.
  unfold Blocker.disable_rule, Blocker.switch_rule in Hin.
  destruct (PyDict.get (Blocker.custom_rules self) i) as [rule0|] eqn:Hget;
    cbn [fst Blocker.custom_rules Blocker.with_rules] in Hin.
  - destruct (dict_set_elem _ _ _ _ _ Hnd Hin) as [[-> ->]|[Hne Hin']].
    + cbn in Hen. done.
    + apply Hne. pose proof (Hkeys _ Hin') as Hk. cbn in Hk. congruence.
  - apply dict_get_None in Hget. apply Hget.
    pose proof (Hkeys _ Hin) as Hk. cbn in Hk. rewrite <- Hi, <- Hk.
    by apply (list_elem_of_fmap_2 fst _ (k, r)).
Qed.

End CustomRules.

Lemma rule_id_names_enabled_rule_witness :
  Blocker.rule_type
    (Blocker.check no_match custom_engine monday_17h "INTRANET.example" "" "" true).1
  = Some "custom"
  /\ exists rule,
       rule ∈ PyDict.values (Blocker.custom_rules custom_engine)
       /\ Blocker.rule_id_ rule = "r1"
       /\ Blocker.rule_enabled rule = true
       /\ Blocker.rule_type_ rule = "domain"
       /\ PyStr.lower (Blocker.rule_value rule)
          = PyStr.strip (PyStr.lower "INTRANET.example").
Proof.
  apply (rule_id_names_enabled_rule no_match custom_engine monday_17h
           "INTRANET.example" "" "" true "r1").
  vm_compute. reflexivity.
Defined.

Lemma custom_engine_by_id : rules_by_id custom_engine.
Proof.
  split; [apply (bool_decide_unpack _); vm_compute; reflexivity|].
  by repeat constructor.
Defined.

Lemma disabled_rule_never_decides_witness :
  Blocker.rule_id
    (Blocker.check no_match (Blocker.disable_rule custom_engine "r1").1.1 monday_17h
       "intranet.example" "" "" true).1
  <> Some "r1".
Proof.
  exact (disabled_rule_never_decides no_match custom_engine "r1" monday_17h
           "intranet.example" "" "" true custom_engine_by_id).
Defined.

(** ** Saving and loading the policy *)

Lemma dict_set_fresh {V} (d : list (string * V)) (k : string) (v : V) :
  k ∉ PyDict.keys d -> PyDict.set d k v = d ++ [(k, v)].
Proof.
  unfold PyDict.keys. induction d as [|[k0 v0] d IH]; cbn [PyDict.set]; [done|].
  rewrite fmap_cons, not_elem_of_cons. intros [Hne Hk].
  destruct (String.eqb_spec k0 k) as [->|_]; [done|]. by rewrite IH.
Qed.

Lemma load_rules_fresh (rules : list Blocker.BlockRule)
    (acc : list (string * Blocker.BlockRule)) :
  NoDup (PyDict.keys acc ++ (Blocker.rule_id_ <$> rules)) ->
  foldl (fun d rule => PyDict.set d (Blocker.rule_id_ rule) rule) acc rules
  = acc ++ ((fun rule => (Blocker.rule_id_ rule, rule)) <$> rules).
Proof.
  revert acc. induction rules as [|r rules IH]; intros acc Hnd.
  - by rewrite app_nil_r.
  - cbn [foldl fmap list_fmap].
    assert (Hfresh : Blocker.rule_id_ r ∉ PyDict.keys acc).
    { apply NoDup_app in Hnd as (_ & Hdisj & _). intros Hin.
      apply (Hdisj _ Hin). apply list_elem_of_here. }
    rewrite (dict_set_fresh _ _ _ Hfresh), IH.
    + by rewrite <- app_assoc.
    + unfold PyDict.keys in *. rewrite fmap_app. cbn [fmap list_fmap fst].
      rewrite <- app_assoc. exact Hnd.
Qed.

Lemma rules_by_id_values (cr : list (string * Blocker.BlockRule)) :
  Forall (fun kv => kv.1 = Blocker.rule_id_ kv.2) cr ->
  (fun rule => (Blocker.rule_id_ rule, rule)) <$> PyDict.values cr = cr
  /\ Blocker.rule_id_ <$> PyDict.values cr = PyDict.keys cr.
Proof.
  unfold PyDict.values, PyDict.keys. induction 1 as [|[k r] cr Hk _ [IH1 IH2]]; [done|].
  cbn in Hk. subst k. cbn [fmap list_fmap fst snd].
  split; f_equal; [exact IH1 | exact IH2].
Qed.

Lemma load_categories (bc : gset Categories.BlockCategory) :
  list_to_set (omap Categories.get_category
                 (elements (set_map (D := gset string) Categories.value bc))) = bc.
Proof.
  apply leibniz_equiv. intros c.
  rewrite elem_of_list_to_set, list_elem_of_omap. split.
  - intros (s & Hs & Hget). apply elem_of_elements, elem_of_map in Hs as (c' & -> & Hc').
    replace (Categories.get_category (Categories.value c')) with (Some c') in Hget
      by (by destruct c').
    by injection Hget as <-.
  - intros Hc. exists (Categories.value c). split; [|by destruct c].
    apply elem_of_elements, elem_of_map. by exists c.
Qed.

Lemma filter_all {A} (f : A -> bool) (l : list A) :
  Forall (fun x => f x = true) l -> List.filter f l = l.
Proof. induction 1 as [|x l Hx _ IH]; [done|]. cbn. by rewrite Hx, IH. Qed.

(** X13.  What [_save_config] writes, [_load_config] reads back into a new
    engine as the same policy, provided the rules are filed under their ids
    and the pattern texts compile (as they did when they were added). *)
Theorem save_then_load (re_valid : string -> bool) (self : Blocker.BlockingEngine) :
  rules_by_id self ->
  Forall (fun p => re_valid (Blocker.pattern p) = true) (Blocker.url_patterns self) ->
  Blocker._load_config re_valid (Blocker.new_engine (Blocker.schedule_manager self))
    (Blocker._save_config self)
  = self.
Proof.
  intros [Hnd Hkeys] Hvalid. destruct self as [sm bd bc bk up cr wl].
  unfold Blocker._load_config, Blocker._save_config, Blocker.new_engine.
  cbn [Blocker.schedule_manager Blocker.blocked_domains Blocker.blocked_categories
       Blocker.blocked_keywords Blocker.url_patterns Blocker.custom_rules
       Blocker.whitelisted_domains Blocker.cfg_blocked_domains
       Blocker.cfg_whitelisted_domains Blocker.cfg_blocked_categories
       Blocker.cfg_blocked_keywords Blocker.cfg_url_patterns Blocker.cfg_custom_rules] in *.
  f_equal.
  - rewrite load_categories. apply leibniz_equiv. intros c.
    rewrite elem_of_union. split; [intros [H|H]; [by apply elem_of_empty in H | done] | by right].
  - rewrite filter_all by (by apply Forall_fmap). rewrite app_nil_l.
    rewrite <- list_fmap_compose. rewrite <- (list_fmap_id up) at 2.
    apply list_fmap_ext. by intros ? [].
  - destruct (rules_by_id_values cr Hkeys) as [Hv Hi].
    rewrite load_rules_fresh; [exact Hv|].
    change (PyDict.keys []) with (@nil string). by rewrite app_nil_l, Hi.
Qed.

Lemma two_keywords_by_id : rules_by_id two_keywords.
Proof.
  split; [apply (bool_decide_unpack _); vm_compute; reflexivity|].
  by repeat constructor.
Defined.

Lemma save_then_load_witness :
  Blocker._load_config all_valid (Blocker.new_engine (Blocker.schedule_manager two_keywords))
    (Blocker._save_config two_keywords)
  = two_keywords.
Proof.
  apply (save_then_load all_valid two_keywords two_keywords_by_id).
  by repeat constructor.
Defined.

(** ** Time ranges and the schedule manager *)

(** X14.  A range and the range with its ends exchanged cover the day between
    them, and share the two end instants only: a range written across
    midnight is the rest of the day of the range written the other way
    round. *)
Theorem range_and_reverse_cover_day (r : Schedules.TimeRange) (t : Schedules.time) :
  valid_range r ->
  Schedules.time_key (Schedules.mk_time (Schedules.start_hour r) (Schedules.start_minute r))
  <> Schedules.time_key (Schedules.mk_time (Schedules.end_hour r) (Schedules.end_minute r)) ->
  Schedules.contains r t || Schedules.contains (reversed r) t = true
  /\ (Schedules.contains r t && Schedules.contains (reversed r) t = true
      <-> Schedules.time_key t
          = Schedules.time_key
              (Schedules.mk_time (Schedules.start_hour r) (Schedules.start_minute r))
          \/ Schedules.time_key t
             = Schedules.time_key
                 (Schedules.mk_time (Schedules.end_hour r) (Schedules.end_minute r))).
Proof.
  unfold Schedules.contains, reversed, Schedules.time_leb. cbv zeta.
  cbn [Schedules.start_hour Schedules.start_minute Schedules.end_hour Schedules.end_minute].
  set (a := Schedules.time_key (Schedules.mk_time _ _)).
  set (b := Schedules.time_key (Schedules.mk_time (Schedules.end_hour r) _)).
  set (x := Schedules.time_key t). intros _ Hab.
  destruct (Z.leb_spec a b), (Z.leb_spec b a), (Z.leb_spec a x), (Z.leb_spec x b),
    (Z.leb_spec b x), (Z.leb_spec x a); cbn; split; try done; try lia;
    (split; [intros; try done; lia | intros; try done; lia]).
Qed.

Lemma range_and_reverse_cover_day_witness :
  Schedules.contains night (Schedules.mk_time 23 30)
  || Schedules.contains (reversed night) (Schedules.mk_time 23 30) = true
  /\ (Schedules.contains night (Schedules.mk_time 23 30)
      && Schedules.contains (reversed night) (Schedules.mk_time 23 30) = true
      <-> Schedules.time_key (Schedules.mk_time 23 30)
          = Schedules.time_key
              (Schedules.mk_time (Schedules.start_hour night) (Schedules.start_minute night))
          \/ Schedules.time_key (Schedules.mk_time 23 30)
             = Schedules.time_key
                 (Schedules.mk_time (Schedules.end_hour night) (Schedules.end_minute night))).
Proof.
  apply (range_and_reverse_cover_day night (Schedules.mk_time 23 30)).
  - unfold valid_range. cbn. lia.
  - vm_compute. discriminate.
Defined.

Lemma hour_minute_of_format (h m : Z) :
  (0 <= h < 24)%Z -> (0 <= m < 60)%Z ->
  Schedules.hour_minute (PyStr.format_02d h +:+ ":" +:+ PyStr.format_02d m) = Some (h, m).
Proof.
  intros Hh Hm.
  assert (Hall : forallb (fun h => forallb (fun m =>
            bool_decide (Schedules.hour_minute
                           (PyStr.format_02d h +:+ ":" +:+ PyStr.format_02d m)
                         = Some (h, m))) (seqZ 0 60)) (seqZ 0 24) = true)
    by (vm_compute; reflexivity).
  rewrite forallb_forall in Hall.
  assert (Hin : In h (seqZ 0 24)) by (apply list_elem_of_In, elem_of_seqZ; lia).
  specialize (Hall h Hin). rewrite forallb_forall in Hall.
  assert (Hin' : In m (seqZ 0 60)) by (apply list_elem_of_In, elem_of_seqZ; lia).
  specialize (Hall m Hin'). by apply bool_decide_eq_true in Hall.
Qed.

(** X15.  [from_dict] reads back the range that [to_dict] wrote, for hours and
    minutes that [time()] takes. *)
Theorem time_range_dict_round_trip (r : Schedules.TimeRange) :
  valid_range r -> Schedules.from_dict (Schedules.to_dict r) = Some r.
Proof.
  intros (Hsh & Hsm & Heh & Hem). unfold Schedules.from_dict, Schedules.to_dict.
  cbn [Schedules.dict_start Schedules.dict_end].
  rewrite !hour_minute_of_format by done. by destruct r.
Qed.

Lemma time_range_dict_round_trip_witness :
  Schedules.from_dict (Schedules.to_dict night) = Some night.
Proof. apply (time_range_dict_round_trip night). unfold valid_range. cbn. lia. Defined.

Lemma dict_get_set {V} (d : list (string * V)) (k : string) (v : V) (k' : string) :
  PyDict.get (PyDict.set d k v) k' = if String.eqb k k' then Some v else PyDict.get d k'.
Proof.
  induction d as [|[k0 v0] d IH]; cbn [PyDict.set PyDict.get]; [done|].
  destruct (String.eqb_spec k0 k) as [->|Hne]; cbn [PyDict.get].
  - by destruct (String.eqb k k').
  - rewrite IH. destruct (String.eqb_spec k0 k') as [->|Hne']; [|done].
    by destruct (String.eqb_spec k k') as [->|_].
Qed.

Lemma dict_keys_set {V} (d : list (string * V)) (k : string) (v : V) :
  PyDict.keys (PyDict.set d k v)
  = if bool_decide (k ∈ PyDict.keys d) then PyDict.keys d else PyDict.keys d ++ [k].
Proof.
  unfold PyDict.keys. induction d as [|[k0 v0] d IH]; cbn [PyDict.set]; [done|].
  destruct (String.eqb_spec k0 k) as [->|Hne].
  - rewrite bool_decide_eq_true_2; [done | apply list_elem_of_here].
  - rewrite !fmap_cons, IH. cbn [fst].
    destruct (decide (k ∈ fst <$> d)) as [Hin|Hnin].
    + rewrite !bool_decide_eq_true_2; [done | by apply list_elem_of_further | done].
    + rewrite !bool_decide_eq_false_2; [done | | done].
      rewrite not_elem_of_cons. split; [done | done].
Qed.

Lemma dict_get_del {V} (d : list (string * V)) (k k' : string) :
  NoDup (PyDict.keys d) ->
  PyDict.get (PyDict.del d k) k' = if String.eqb k k' then None else PyDict.get d k'.
Proof.
  unfold PyDict.keys. induction d as [|[k0 v0] d IH]; cbn [PyDict.del PyDict.get]; intros Hnd.
  - by destruct (String.eqb k k').
  - rewrite fmap_cons, NoDup_cons in Hnd. destruct Hnd as [Hk0 Hnd].
    destruct (String.eqb_spec k0 k) as [->|Hne].
    + destruct (String.eqb k k') eqn:Heq; [|done].
      apply String.eqb_eq in Heq. rewrite <- Heq.
      destruct (PyDict.get d k) as [v|] eqn:Hget; [|done].
      exfalso. apply Hk0. apply dict_get_elem in Hget.
      by apply (list_elem_of_fmap_2 fst _ (k, v)).
    + cbn [PyDict.get]. rewrite IH by done.
      destruct (String.eqb_spec k0 k') as [->|_]; [|done].
      by destruct (String.eqb_spec k k') as [->|_].
Qed.

(** X16.  [add_schedule] files the schedule under its id with both time stamps
    set, leaves every other entry as it was, and keeps the order of the
    dictionary: a schedule whose id is known stays in its place, a new one
    goes last. *)
Theorem add_schedule_files (m : Schedules.ScheduleManager) (now : string)
    (s : Schedules.Schedule) (k : string) :
  Schedules.get_schedule (Schedules.add_schedule m now s) k
  = (if String.eqb (Schedules.id s) k then Some (Schedules.stamped now s)
     else Schedules.get_schedule m k)
  /\ PyDict.keys (Schedules.schedules (Schedules.add_schedule m now s))
     = (if bool_decide (Schedules.id s ∈ PyDict.keys (Schedules.schedules m))
        then PyDict.keys (Schedules.schedules m)
        else PyDict.keys (Schedules.schedules m) ++ [Schedules.id s]).
Proof.
  unfold Schedules.get_schedule, Schedules.add_schedule.
  cbn [Schedules.schedules]. split; [apply dict_get_set | apply dict_keys_set].
Qed.

(** X17.  [delete_schedule] removes the schedule of the given id and no other,
    in a manager whose ids are all different. *)
Theorem delete_schedule_removes (m : Schedules.ScheduleManager) (i k : string) :
  NoDup (PyDict.keys (Schedules.schedules m)) ->
  Schedules.get_schedule (Schedules.delete_schedule m i) k
  = if String.eqb i k then None else Schedules.get_schedule m k.
Proof.
  intros Hnd. unfold Schedules.get_schedule, Schedules.delete_schedule.
  cbn [Schedules.schedules]. by apply dict_get_del.
Qed.

Lemma delete_schedule_removes_witness :
  Schedules.get_schedule (Schedules.delete_schedule two_schedules "b") "a"
  = if String.eqb "b" "a" then None else Schedules.get_schedule two_schedules "a".
Proof.
  apply (delete_schedule_removes two_schedules "b" "a").
  apply (bool_decide_unpack _). vm_compute. reflexivity.
Defined.

(** X18.  The schedule that the manager reports is one of its schedules, and
    it is active at the time of the call: enabled, inside its date window, and
    neither of type [never_block] nor [custom]. *)
Theorem reported_schedule_is_active (m : Schedules.ScheduleManager)
    (now : Schedules.datetime) (domain category : string) (i : string) :
  ScheduleManager.should_block m now domain category = (true, Some i) ->
  exists s,
    s ∈ PyDict.values (Schedules.schedules m)
    /\ Schedules.id s = i
    /\ Schedules.is_active_now s now = true
    /\ Schedules.enabled s = true
    /\ Schedules.before_start s now = false
    /\ Schedules.after_end s now = false
    /\ Schedules.schedule_type s <> Schedules.NEVER_BLOCK
    /\ Schedules.schedule_type s <> Schedules.CUSTOM.
Proof.
  unfold ScheduleManager.should_block. rewrite first_blocking_find.
  destruct (List.find _ _) as [s|] eqn:Hfind; [|done]. intros [= <-].
  apply find_some in Hfind as [Hin Hblock]. apply list_elem_of_In in Hin.
  rewrite (sorted_reverse_perm Schedules.priority) in Hin.
  exists s. split; [done|]. split; [done|].
  unfold Schedules.should_block in Hblock.
  destruct (Schedules.is_active_now s now) eqn:Hactive; [|done].
  split; [done|]. unfold Schedules.is_active_now in Hactive.
  destruct (Schedules.enabled s); [|done].
  destruct (Schedules.before_start s now); [done|].
  destruct (Schedules.after_end s now); [done|].
  by destruct (Schedules.schedule_type s).
Qed.

Lemma reported_schedule_is_active_witness :
  exists s,
    s ∈ PyDict.values (Schedules.schedules two_schedules)
    /\ Schedules.id s = "b"
    /\ Schedules.is_active_now s monday_17h = true
    /\ Schedules.enabled s = true
    /\ Schedules.before_start s monday_17h = false
    /\ Schedules.after_end s monday_17h = false
    /\ Schedules.schedule_type s <> Schedules.NEVER_BLOCK
    /\ Schedules.schedule_type s <> Schedules.CUSTOM.
Proof.
  apply (reported_schedule_is_active two_schedules monday_17h "example.org" "" "b").
  vm_compute. reflexivity.
Defined.

(** ** The DNS blocker at work *)

Lemma is_blocked_ext (a b : DnsBlocker.DNSBlocker) (q : string) :
  DnsBlocker.blocked_domains a = DnsBlocker.blocked_domains b ->
  DnsBlocker.is_blocked a q = DnsBlocker.is_blocked b q.
Proof. unfold DnsBlocker.is_blocked. by intros ->. Qed.

Lemma packet_effect_refl (self : DnsBlocker.DNSBlocker) :
  packet_effect self self 0 [] [].
Proof. unfold packet_effect. rewrite !app_nil_r, Nat.add_0_r. done. Qed.

Lemma send_if_effect (self : DnsBlocker.DNSBlocker) (r : option DnsBlocker.Packet) :
  exists o, (length o <= 1)%nat
    /\ DnsBlocker.sent (DnsBlocker.send_if self r) = DnsBlocker.sent self ++ o
    /\ DnsBlocker.blocked_domains (DnsBlocker.send_if self r) = DnsBlocker.blocked_domains self
    /\ DnsBlocker.block_mode (DnsBlocker.send_if self r) = DnsBlocker.block_mode self
    /\ DnsBlocker.redirect_ip (DnsBlocker.send_if self r) = DnsBlocker.redirect_ip self
    /\ DnsBlocker.blocked_count (DnsBlocker.send_if self r) = DnsBlocker.blocked_count self
    /\ DnsBlocker.blocked_log (DnsBlocker.send_if self r) = DnsBlocker.blocked_log self.
Proof.
  destruct r as [p|]; cbn [DnsBlocker.send_if].
  - exists [p]. cbn. repeat split; lia.
  - exists []. rewrite app_nil_r. cbn. repeat split; lia.
Qed.

Lemma process_packet_effect (self : DnsBlocker.DNSBlocker) (now : string)
    (p : DnsBlocker.Packet) :
  exists a l o,
    packet_effect self (DnsBlocker._process_packet self now p) a l o
    /\ (length o <= length l <= a)%nat /\ (a <= 1)%nat
    /\ (forall q, q ∈ l ->
          DnsBlocker.is_blocked self (DnsBlocker.bq_domain q) = true
          /\ DnsBlocker.bq_action q = DnsBlocker.block_mode self
          /\ DnsBlocker.bq_timestamp q = now)
    /\ (DnsBlocker.block_mode self <> "nxdomain" ->
        DnsBlocker.block_mode self <> "redirect" -> o = []).
Proof.
  pose proof (packet_effect_refl self) as Hrefl.
  assert (exists a l o,
    packet_effect self self a l o
    /\ (length o <= length l <= a)%nat /\ (a <= 1)%nat
    /\ (forall q, q ∈ l ->
          DnsBlocker.is_blocked self (DnsBlocker.bq_domain q) = true
          /\ DnsBlocker.bq_action q = DnsBlocker.block_mode self
          /\ DnsBlocker.bq_timestamp q = now)
    /\ (DnsBlocker.block_mode self <> "nxdomain" ->
        DnsBlocker.block_mode self <> "redirect" -> o = [])) as Hsame.
  { exists 0%nat, [], []. split; [done|]. cbn. split; [lia|]. split; [lia|].
    split; [|done]. intros q Hq. by apply elem_of_nil in Hq. }
  unfold DnsBlocker._process_packet.
  destruct (DnsBlocker.pkt_dns p) as [dns|]; [|done].
  destruct (negb _); [done|].
  destruct (DnsBlocker.dns_qd dns) as [|q0 qs]; [done|].
  destruct (DnsBlocker.is_blocked self _) eqn:Hblocked; cbn [negb]; [|done].
  cbv zeta. clear Hsame.
  destruct (DnsBlocker.pkt_ip p) as [iph|].
  - set (bq := {| DnsBlocker.bq_timestamp := now |}).
    set (S1 := DnsBlocker.print _ _).
    assert (Hq : forall q, q ∈ [bq] ->
          DnsBlocker.is_blocked self (DnsBlocker.bq_domain q) = true
          /\ DnsBlocker.bq_action q = DnsBlocker.block_mode self
          /\ DnsBlocker.bq_timestamp q = now).
    { intros q ->%list_elem_of_singleton. by subst bq. }
    change (DnsBlocker.block_mode S1) with (DnsBlocker.block_mode self).
    destruct (String.eqb_spec (DnsBlocker.block_mode self) "nxdomain") as [Hnx|Hnx];
      [|destruct (String.eqb_spec (DnsBlocker.block_mode self) "redirect") as [Hre|Hre]].
    + destruct (send_if_effect S1 (DnsBlocker._create_nxdomain_response p))
        as (o & Ho & Hs & Hd & Hm & Hr & Hc & Hl).
      exists 1%nat, [bq], o. split.
      { unfold packet_effect. rewrite Hs, Hd, Hm, Hr, Hc, Hl. subst S1. cbn.
        repeat split; lia. }
      split; [cbn; lia|]. split; [lia|]. split; [exact Hq|]. done.
    + destruct (send_if_effect S1 (DnsBlocker._create_redirect_response S1 p))
        as (o & Ho & Hs & Hd & Hm & Hr & Hc & Hl).
      exists 1%nat, [bq], o. split.
      { unfold packet_effect. rewrite Hs, Hd, Hm, Hr, Hc, Hl. subst S1. cbn.
        repeat split; lia. }
      split; [cbn; lia|]. split; [lia|]. split; [exact Hq|]. done.
    + exists 1%nat, [bq], []. split.
      { unfold packet_effect. subst S1. cbn. by rewrite app_nil_r. }
      split; [cbn; lia|]. split; [lia|]. split; [exact Hq|]. done.
  - exists 1%nat, [], []. split.
    { unfold packet_effect. cbn. by rewrite !app_nil_r. }
    split; [cbn; lia|]. split; [lia|]. split; [|done].
    intros q Hq. by apply elem_of_nil in Hq.
Qed.

Lemma sniff_effect (captured : list (string * DnsBlocker.Packet))
    (self : DnsBlocker.DNSBlocker) :
  exists a l o,
    packet_effect self (DnsBlocker.sniff self captured) a l o
    /\ (length o <= length l <= a)%nat /\ (a <= length captured)%nat
    /\ (forall q, q ∈ l ->
          DnsBlocker.is_blocked self (DnsBlocker.bq_domain q) = true
          /\ DnsBlocker.bq_action q = DnsBlocker.block_mode self
          /\ DnsBlocker.bq_timestamp q ∈ captured.*1)
    /\ (DnsBlocker.block_mode self <> "nxdomain" ->
        DnsBlocker.block_mode self <> "redirect" -> o = []).
Proof.
  revert self. induction captured as [|[now p] captured IH]; intros self.
  - exists 0%nat, [], []. split; [apply packet_effect_refl|]. cbn.
    split; [lia|]. split; [lia|]. split; [|done].
    intros q Hq. by apply elem_of_nil in Hq.
  - unfold DnsBlocker.sniff. cbn [foldl fst snd].
    destruct (process_packet_effect self now p)
      as (a1 & l1 & o1 & (Hd1 & Hm1 & Hr1 & Hc1 & Hl1 & Hs1) & Hlen1 & Ha1 & Hq1 & Hdrop1).
    destruct (IH (DnsBlocker._process_packet self now p))
      as (a2 & l2 & o2 & (Hd2 & Hm2 & Hr2 & Hc2 & Hl2 & Hs2) & Hlen2 & Ha2 & Hq2 & Hdrop2).
    unfold DnsBlocker.sniff in *.
    exists (a1 + a2)%nat, (l1 ++ l2), (o1 ++ o2). unfold packet_effect.
    rewrite Hd2, Hm2, Hr2, Hc2, Hl2, Hs2, Hd1, Hm1, Hr1, Hc1, Hl1, Hs1.
    rewrite !length_app, <- !app_assoc. cbn [length].
    split; [repeat split; lia|]. split; [lia|]. split; [lia|]. split.
    + intros q [Hq|Hq]%elem_of_app.
      * destruct (Hq1 q Hq) as (? & ? & ?). repeat split; [done..|].
        rewrite fmap_cons. cbn [fst]. subst now. apply list_elem_of_here.
      * destruct (Hq2 q Hq) as (Hb & Hact & Ht). rewrite Hm1 in Hact.
        rewrite (is_blocked_ext _ self) in Hb by done. repeat split; [done..|].
        rewrite fmap_cons. by apply list_elem_of_further.
    + intros Hnx Hre. rewrite Hdrop1 by done. rewrite Hm1 in Hdrop2.
      by rewrite Hdrop2.
Qed.

(** X19.  Over any run of captured packets the blocker's books agree: no reply is
    sent without a log entry, no entry is logged without the counter going
    up, and the counter goes up by one per packet at most.  The block list,
    the mode and the redirect address are not touched. *)
Theorem sniff_accounting (self : DnsBlocker.DNSBlocker)
    (captured : list (string * DnsBlocker.Packet)) :
  let self' := DnsBlocker.sniff self captured in
  exists a l o,
    DnsBlocker.blocked_count self' = (DnsBlocker.blocked_count self + a)%nat
    /\ DnsBlocker.blocked_log self' = DnsBlocker.blocked_log self ++ l
    /\ DnsBlocker.sent self' = DnsBlocker.sent self ++ o
    /\ (length o <= length l <= a)%nat /\ (a <= length captured)%nat
    /\ DnsBlocker.blocked_domains self' = DnsBlocker.blocked_domains self
    /\ DnsBlocker.block_mode self' = DnsBlocker.block_mode self
    /\ DnsBlocker.redirect_ip self' = DnsBlocker.redirect_ip self.
Proof.
  cbv zeta. destruct (sniff_effect captured self)
    as (a & l & o & (Hd & Hm & Hr & Hc & Hl & Hs) & Hlen & Ha & _).
  exists a, l, o. repeat split; try done; lia.
Qed.

(** X20.  The log only grows, and every entry a run adds names a domain the
    block list covers, the mode in force, and the clock reading of one of the
    captured packets. *)
Theorem logged_queries_are_blocked (self : DnsBlocker.DNSBlocker)
    (captured : list (string * DnsBlocker.Packet)) :
  exists l,
    DnsBlocker.blocked_log (DnsBlocker.sniff self captured)
    = DnsBlocker.blocked_log self ++ l
    /\ Forall (fun q =>
         DnsBlocker.is_blocked self (DnsBlocker.bq_domain q) = true
         /\ DnsBlocker.bq_action q = DnsBlocker.block_mode self
         /\ DnsBlocker.bq_timestamp q ∈ captured.*1) l.
Proof.
  destruct (sniff_effect captured self)
    as (a & l & o & (Hd & Hm & Hr & Hc & Hl & Hs) & Hlen & Ha & Hq & _).
  exists l. split; [done|]. by apply Forall_forall.
Qed.

(** X21.  In a mode other than [nxdomain] and [redirect] (the [drop] mode) the
    blocker never puts a packet on the wire, whatever it captures. *)
Theorem drop_mode_sends_nothing (self : DnsBlocker.DNSBlocker)
    (captured : list (string * DnsBlocker.Packet)) :
  DnsBlocker.block_mode self <> "nxdomain" ->
  DnsBlocker.block_mode self <> "redirect" ->
  DnsBlocker.sent (DnsBlocker.sniff self captured) = DnsBlocker.sent self.
Proof.
  intros Hnx Hre. destruct (sniff_effect captured self)
    as (a & l & o & (Hd & Hm & Hr & Hc & Hl & Hs) & Hlen & Ha & Hq & Hdrop).
  rewrite Hs, Hdrop by done. apply app_nil_r.
Qed.

Lemma drop_mode_sends_nothing_witness :
  DnsBlocker.sent (DnsBlocker.sniff dropping [("t1", sample_query 0); ("t2", sample_query 0)])
  = DnsBlocker.sent dropping.
Proof.
  apply (drop_mode_sends_nothing dropping [("t1", sample_query 0); ("t2", sample_query 0)]).
  - vm_compute. discriminate.
  - vm_compute. discriminate.
Defined.

(** X22.  In [redirect] mode a blocked query that has its IP and UDP layers is
    answered by one packet, addressed back to the asker from port 53: a
    response with the query's id and question, RCODE 0, and a single [A] record
    for the first question's name, with a TTL of 300 and the blocker's
    redirect address.  The opcode is the default one, not the query's. *)
Theorem redirect_reply (self : DnsBlocker.DNSBlocker) (now : string)
    (packet : DnsBlocker.Packet) (i : DnsBlocker.IP) (u : DnsBlocker.UDP)
    (d : DnsBlocker.DNS) (q : DnsBlocker.DNSQR) (qs : list DnsBlocker.DNSQR) :
  DnsBlocker.block_mode self = "redirect" ->
  DnsBlocker.pkt_ip packet = Some i ->
  DnsBlocker.pkt_udp packet = Some u ->
  DnsBlocker.pkt_dns packet = Some d ->
  DnsBlocker.dns_qr d = 0%Z ->
  DnsBlocker.dns_qd d = q :: qs ->
  DnsBlocker.is_blocked self (PyStr.rstrip_dot (DnsBlocker.qname q)) = true ->
  exists reply rd,
    DnsBlocker.sent (DnsBlocker._process_packet self now packet)
      = DnsBlocker.sent self ++ [reply]
    /\ DnsBlocker.pkt_ip reply
       = Some {| DnsBlocker.ip_src := DnsBlocker.ip_dst i;
                 DnsBlocker.ip_dst := DnsBlocker.ip_src i |}
    /\ DnsBlocker.pkt_udp reply
       = Some {| DnsBlocker.udp_sport := 53;
                 DnsBlocker.udp_dport := DnsBlocker.udp_sport u |}
    /\ DnsBlocker.pkt_dns reply = Some rd
    /\ DnsBlocker.dns_id rd = DnsBlocker.dns_id d
    /\ DnsBlocker.dns_opcode rd = 0%Z
    /\ DnsBlocker.dns_qr rd = 1%Z
    /\ DnsBlocker.dns_aa rd = 1%Z
    /\ DnsBlocker.dns_rcode rd = 0%Z
    /\ DnsBlocker.dns_qd rd = DnsBlocker.dns_qd d
    /\ DnsBlocker.dns_an rd
       = [ {| DnsBlocker.rrname := DnsBlocker.qname q; DnsBlocker.rr_type := "A";
              DnsBlocker.rr_ttl := 300;
              DnsBlocker.rdata := DnsBlocker.redirect_ip self |} ].
Proof.
  intros Hmode Hip Hudp Hdns Hqr Hqd Hblocked.
  unfold DnsBlocker._process_packet.
  rewrite Hdns, Hqr, Hqd. cbn [Z.eqb negb].
  rewrite Hblocked. cbn [negb]. rewrite Hip.
  cbn [DnsBlocker.block_mode DnsBlocker.print DnsBlocker.log_query DnsBlocker.set_count].
  rewrite Hmode. cbn [String.eqb Ascii.eqb Bool.eqb].
  unfold DnsBlocker._create_redirect_response.
  rewrite Hip, Hudp, Hdns. cbn [mbind option_bind]. rewrite Hqd. cbn.
  eexists _, _. repeat split; by cbn.
Qed.

Lemma redirect_reply_witness :
  exists reply rd,
    DnsBlocker.sent (DnsBlocker._process_packet redirecting "t" (sample_query 2))
      = DnsBlocker.sent redirecting ++ [reply]
    /\ DnsBlocker.pkt_ip reply
       = Some {| DnsBlocker.ip_src := DnsBlocker.ip_dst sample_ip;
                 DnsBlocker.ip_dst := DnsBlocker.ip_src sample_ip |}
    /\ DnsBlocker.pkt_udp reply
       = Some {| DnsBlocker.udp_sport := 53;
                 DnsBlocker.udp_dport := DnsBlocker.udp_sport sample_udp |}
    /\ DnsBlocker.pkt_dns reply = Some rd
    /\ DnsBlocker.dns_id rd = DnsBlocker.dns_id (sample_dns 2)
    /\ DnsBlocker.dns_opcode rd = 0%Z
    /\ DnsBlocker.dns_qr rd = 1%Z
    /\ DnsBlocker.dns_aa rd = 1%Z
    /\ DnsBlocker.dns_rcode rd = 0%Z
    /\ DnsBlocker.dns_qd rd = DnsBlocker.dns_qd (sample_dns 2)
    /\ DnsBlocker.dns_an rd
       = [ {| DnsBlocker.rrname := DnsBlocker.qname sample_question;
              DnsBlocker.rr_type := "A"; DnsBlocker.rr_ttl := 300;
              DnsBlocker.rdata := DnsBlocker.redirect_ip redirecting |} ].
Proof.
  apply (redirect_reply redirecting "t" (sample_query 2) sample_ip sample_udp
           (sample_dns 2) sample_question []); reflexivity.
Defined.

(** X23.  A blocked query that lacks its IP or its UDP layer is counted but never
    answered, in any mode.  Without the IP layer it is not logged either: the
    handler prints an error instead. *)
Theorem unanswerable_query (self : DnsBlocker.DNSBlocker) (now : string)
    (packet : DnsBlocker.Packet) (d : DnsBlocker.DNS) (q : DnsBlocker.DNSQR)
    (qs : list DnsBlocker.DNSQR) :
  DnsBlocker.pkt_dns packet = Some d ->
  DnsBlocker.dns_qr d = 0%Z ->
  DnsBlocker.dns_qd d = q :: qs ->
  DnsBlocker.is_blocked self (PyStr.rstrip_dot (DnsBlocker.qname q)) = true ->
  DnsBlocker.pkt_ip packet = None \/ DnsBlocker.pkt_udp packet = None ->
  let self' := DnsBlocker._process_packet self now packet in
  DnsBlocker.sent self' = DnsBlocker.sent self
  /\ DnsBlocker.blocked_count self' = (DnsBlocker.blocked_count self + 1)%nat
  /\ (DnsBlocker.pkt_ip packet = None ->
      DnsBlocker.blocked_log self' = DnsBlocker.blocked_log self
      /\ DnsBlocker.stdout self' = DnsBlocker.stdout self ++ [DnsBlocker.OutError]).
Proof.
  intros Hdns Hqr Hqd Hblocked Hlayer. cbv zeta.
  unfold DnsBlocker._process_packet.
  rewrite Hdns, Hqr, Hqd. cbn [Z.eqb negb]. rewrite Hblocked. cbn [negb]. cbv zeta.
  destruct (DnsBlocker.pkt_ip packet) as [iph|] eqn:Hip.
  - destruct Hlayer as [?|Hudp]; [done|].
    cbn [DnsBlocker.block_mode DnsBlocker.print DnsBlocker.log_query DnsBlocker.set_count].
    unfold DnsBlocker._create_nxdomain_response, DnsBlocker._create_redirect_response.
    rewrite Hip, Hudp. cbn [mbind option_bind DnsBlocker.send_if].
    destruct (String.eqb _ "nxdomain"); [by cbn|].
    destruct (String.eqb _ "redirect"); by cbn.
  - by cbn.
Qed.

Lemma unanswerable_query_witness :
  let packet := {| DnsBlocker.pkt_ip := None; DnsBlocker.pkt_udp := Some sample_udp;
                   DnsBlocker.pkt_dns := Some (sample_dns 0) |} in
  let self' := DnsBlocker._process_packet sample_blocker "t" packet in
  DnsBlocker.sent self' = DnsBlocker.sent sample_blocker
  /\ DnsBlocker.blocked_count self' = (DnsBlocker.blocked_count sample_blocker + 1)%nat
  /\ (DnsBlocker.pkt_ip packet = None ->
      DnsBlocker.blocked_log self' = DnsBlocker.blocked_log sample_blocker
      /\ DnsBlocker.stdout self' = DnsBlocker.stdout sample_blocker ++ [DnsBlocker.OutError]).
Proof.
  cbv zeta.
  apply (unanswerable_query sample_blocker "t"
           {| DnsBlocker.pkt_ip := None; DnsBlocker.pkt_udp := Some sample_udp;
              DnsBlocker.pkt_dns := Some (sample_dns 0) |}
           (sample_dns 0) sample_question []);
    [reflexivity | reflexivity | reflexivity | reflexivity | left; reflexivity].
Defined.

Lemma rstrip_by_app (p : ascii -> bool) (a b : string) :
  b <> "" -> PyStr.rstrip_by p b = b -> PyStr.rstrip_by p (a +:+ b) = a +:+ b.
Proof.
  intros Hb Hr. induction a as [|c a IH]; [done|].
  rewrite append_cons. cbn [PyStr.rstrip_by]. rewrite IH.
  destruct (a +:+ b) eqn:Hab; [|done].
  destruct a; [|by rewrite append_cons in Hab]. by rewrite append_nil_l in Hab.
Qed.

(** X24.  [add_domain] blocks the domain it is given and every name below it,
    in any letter case of the entry, provided the domain is not empty and does
    not end with a dot. *)
Theorem add_domain_blocks (self : DnsBlocker.DNSBlocker) (d sub : string) :
  d <> "" ->
  PyStr.rstrip_dot (PyStr.lower d) = PyStr.lower d ->
  DnsBlocker.is_blocked (DnsBlocker.add_domain self d) d = true
  /\ DnsBlocker.is_blocked (DnsBlocker.add_domain self d) (sub +:+ "." +:+ d) = true.
Proof.
  intros Hd Hdot. unfold DnsBlocker.is_blocked, DnsBlocker.add_domain.
  cbn [DnsBlocker.blocked_domains]. cbv zeta. split.
  - rewrite Hdot. rewrite decide_True; [done|].
    apply elem_of_union_r. by apply elem_of_singleton.
  - destruct (decide _); [done|]. apply existsb_elements.
    exists (PyStr.lower d). split; [apply elem_of_union_r; by apply elem_of_singleton|].
    apply entry_matches_spec. left. exists (PyStr.lower sub).
    rewrite !lower_app. change (PyStr.lower ".") with ".". unfold PyStr.rstrip_dot.
    rewrite rstrip_by_app; [done| |].
    + rewrite append_cons. discriminate.
    + rewrite (rstrip_by_app _ "." (PyStr.lower d)); [done| |done].
      destruct d; [done|]. cbn [PyStr.lower]. discriminate.
Qed.

Lemma add_domain_blocks_witness :
  DnsBlocker.is_blocked (DnsBlocker.add_domain sample_blocker "Tracker.Example") "Tracker.Example" = true
  /\ DnsBlocker.is_blocked (DnsBlocker.add_domain sample_blocker "Tracker.Example")
       ("cdn" +:+ "." +:+ "Tracker.Example") = true.
Proof.
  apply (add_domain_blocks sample_blocker "Tracker.Example" "cdn"); [discriminate | reflexivity].
Defined.

(** X25.  [add_domain] never unblocks a name and [remove_domain] never blocks
    one. *)
Theorem add_remove_monotone (self : DnsBlocker.DNSBlocker) (d q : string) :
  (DnsBlocker.is_blocked self q = true ->
   DnsBlocker.is_blocked (DnsBlocker.add_domain self d) q = true)
  /\ (DnsBlocker.is_blocked (DnsBlocker.remove_domain self d) q = true ->
      DnsBlocker.is_blocked self q = true).
Proof.
  unfold DnsBlocker.is_blocked, DnsBlocker.add_domain, DnsBlocker.remove_domain.
  cbn [DnsBlocker.blocked_domains]. cbv zeta.
  set (dom := PyStr.rstrip_dot (PyStr.lower q)). split.
  - destruct (decide (dom ∈ DnsBlocker.blocked_domains self)) as [Hin|Hnin].
    + intros _. rewrite decide_True; [done | by apply elem_of_union_l].
    + rewrite existsb_elements. intros (e & He & Hm).
      destruct (decide _); [done|]. apply existsb_elements.
      exists e. split; [by apply elem_of_union_l | done].
  - destruct (decide (dom ∈ DnsBlocker.blocked_domains self ∖ _)) as [Hin|Hnin].
    + intros _. apply elem_of_difference in Hin as [Hin _]. by rewrite decide_True.
    + rewrite existsb_elements. intros (e & He & Hm).
      apply elem_of_difference in He as [He _].
      destruct (decide _); [done|]. apply existsb_elements. by exists e.
Qed.

(** ** The proxy addon's request hook *)

Lemma contains_spec (needle hay : string) :
  PyStr.contains needle hay = true <-> exists a b, hay = a +:+ needle +:+ b.
Proof.
  induction hay as [|c hay IH]; cbn [PyStr.contains].
  - destruct (PyStr.startswith "" needle) eqn:Hsw.
    + apply startswith_spec in Hsw as [r Hr]. split; [intros _|done].
      exists "", r. by rewrite append_nil_l.
    + split; [done|]. intros (a & b & Hab).
      destruct a; [|by rewrite append_cons in Hab]. rewrite append_nil_l in Hab.
      assert (PyStr.startswith "" needle = true) as Hsw'
        by (apply startswith_spec; by exists b).
      congruence.
  - destruct (PyStr.startswith (String c hay) needle) eqn:Hsw.
    + apply startswith_spec in Hsw as [r Hr]. split; [intros _|done].
      exists "", r. by rewrite append_nil_l.
    + rewrite IH. split.
      * intros (a & b & ->). exists (String c a), b. by rewrite append_cons.
      * intros (a & b & Hab). destruct a as [|c' a].
        -- rewrite append_nil_l in Hab.
           assert (PyStr.startswith (String c hay) needle = true) as Hsw'
             by (apply startswith_spec; by exists b).
           congruence.
        -- rewrite append_cons in Hab. injection Hab as _ ->. by exists a, b.
Qed.

(** X26.  The block list of the proxy blocks by containment, not by domain: a
    flow is blocked exactly when some entry occurs anywhere in its host or in
    its URL, case ignored.  An empty entry therefore blocks every flow. *)
Theorem block_list_blocks_by_containment (self : Proxy.TrafficInterceptor)
    (flow : Proxy.HTTPFlow) :
  (Proxy._should_block self flow = true <->
   exists e a b,
     e ∈ Proxy.block_list (Proxy.config self)
     /\ (PyStr.lower (Proxy.host (Proxy.request flow)) = a +:+ PyStr.lower e +:+ b
         \/ PyStr.lower (Proxy.pretty_url (Proxy.request flow))
            = a +:+ PyStr.lower e +:+ b))
  /\ ("" ∈ Proxy.block_list (Proxy.config self) -> Proxy._should_block self flow = true).
Proof.
  assert (Proxy._should_block self flow = true <->
   exists e a b,
     e ∈ Proxy.block_list (Proxy.config self)
     /\ (PyStr.lower (Proxy.host (Proxy.request flow)) = a +:+ PyStr.lower e +:+ b
         \/ PyStr.lower (Proxy.pretty_url (Proxy.request flow))
            = a +:+ PyStr.lower e +:+ b)) as Hiff.
  { unfold Proxy._should_block. cbv zeta. rewrite existsb_elements. split.
    - intros (e & He & Hm). apply orb_true_iff in Hm as [Hm|Hm];
        apply contains_spec in Hm as (a & b & Hab); exists e, a, b; auto.
    - intros (e & a & b & He & Hm). exists e. split; [done|].
      apply orb_true_iff. destruct Hm as [Hm|Hm]; [left|right];
        apply contains_spec; by exists a, b. }
  split; [done|]. intros Hempty. apply Hiff.
  exists "", "", (PyStr.lower (Proxy.host (Proxy.request flow))).
  split; [done|]. left. reflexivity.
Qed.

Section RequestHook.

Variable _categorize_domain : string -> Proxy.TrafficCategory.
Variable parse_mitmproxy_flow : Proxy.HTTPFlow -> string + string.

(** X27.  Every call of the request hook hands exactly one event to the callback,
    with the flow's id and the time of the call, and leaves the configuration
    alone.  Either the event is [blocked], the flow is killed and the table of
    active flows is as before; or the event is [request] or [error], the
    flow is untouched, and the flow is filed as active under its id with the
    clock reading, its host and its URL. *)
Theorem request_hook_one_event (self : Proxy.TrafficInterceptor) (utcnow : string)
    (clock : Z) (flow : Proxy.HTTPFlow) :
  let '(self', flow') :=
    Proxy.request_hook _categorize_domain parse_mitmproxy_flow self utcnow clock flow in
  exists ev,
    Proxy.emitted self' = Proxy.emitted self ++ [ev]
    /\ Proxy.flow_id ev = Proxy.id flow
    /\ Proxy.timestamp ev = utcnow
    /\ Proxy.config self' = Proxy.config self
    /\ ((Proxy.event_type ev = "blocked"
         /\ flow' = Proxy.kill flow
         /\ Proxy.active_flows self' = Proxy.active_flows self)
        \/ ((Proxy.event_type ev = "request" \/ Proxy.event_type ev = "error")
            /\ flow' = flow
            /\ Proxy.active_flows self'
               = PyDict.set (Proxy.active_flows self) (Proxy.id flow)
                   {| Proxy.start_time := clock;
                      Proxy.info_host := Proxy.host (Proxy.request flow);
                      Proxy.info_url := Proxy.pretty_url (Proxy.request flow) |})).
Proof.
  unfold Proxy.request_hook, Proxy._block_flow, Proxy._emit_event.
  destruct (Proxy._should_block self flow).
  { cbn [Proxy.emitted Proxy.config Proxy.active_flows].
    eexists. split; [reflexivity|]. cbn [Proxy.flow_id Proxy.timestamp Proxy.event_type Proxy.kill Proxy.id].
    repeat split. left. repeat split. }
  destruct (bool_decide _).
  { cbn [Proxy.emitted Proxy.config Proxy.active_flows].
    eexists. split; [reflexivity|]. cbn [Proxy.flow_id Proxy.timestamp Proxy.event_type Proxy.kill Proxy.id].
    repeat split. left. repeat split. }
  destruct (parse_mitmproxy_flow flow) as [dict|e];
    cbn [Proxy.emitted Proxy.config Proxy.active_flows];
    (eexists; split; [reflexivity|]);
    cbn [Proxy.flow_id Proxy.timestamp Proxy.event_type];
    (split; [reflexivity|]); (split; [reflexivity|]); (split; [reflexivity|]);
    right; (split; [|split; reflexivity]); [left|right]; reflexivity.
Qed.

End RequestHook.

(** ** Targets of the ARP gateway *)

Lemma dict_del_set_fresh {V} (d : list (string * V)) (k : string) (v : V) :
  k ∉ PyDict.keys d -> PyDict.del (PyDict.set d k v) k = d.
Proof.
  unfold PyDict.keys. induction d as [|[k0 v0] d IH]; cbn [PyDict.set PyDict.del].
  - intros _. by rewrite String.eqb_refl.
  - rewrite fmap_cons, not_elem_of_cons. cbn [fst]. intros [Hne Hk].
    destruct (String.eqb_spec k0 k) as [->|_]; [done|].
    cbn [PyDict.del]. destruct (String.eqb_spec k0 k) as [->|_]; [done|].
    by rewrite IH.
Qed.

Section Targets.

Variable wire_ok : ArpGateway.Frame -> bool.
Variable getmacbyip : string -> option string.

(** X28.  Adding a new target whose address the network gives, and removing it
    again while the link takes the restoring frames, leaves the target map as
    it was.  The engine reports the target with its address in upper case,
    restores the tables with that address, three frames each way, and reports
    the removal. *)
Theorem add_then_remove_target (self : ArpGateway.ARPGateway) (now ip : string)
    (hostname : option string) (m : string) :
  ip ∉ PyDict.keys (ArpGateway.targets self) ->
  getmacbyip ip = Some m ->
  m <> "" ->
  wire_ok (ArpGateway.restore_target_frame self ip (PyStr.upper m)) = true ->
  wire_ok (ArpGateway.restore_gateway_frame self ip (PyStr.upper m)) = true ->
  let added := ArpGateway.add_target getmacbyip self now ip hostname in
  let removed := ArpGateway.remove_target wire_ok added.1 ip in
  added.2 = true
  /\ removed.2 = true
  /\ ArpGateway.targets removed.1 = ArpGateway.targets self
  /\ ArpGateway.trace removed.1
     = ArpGateway.trace self
       ++ [ArpGateway.Callback (ArpGateway.MsgTargetAdded ip (PyStr.upper m) hostname)]
       ++ burst (ArpGateway.restore_target_frame self ip (PyStr.upper m))
       ++ burst (ArpGateway.restore_gateway_frame self ip (PyStr.upper m))
       ++ [ArpGateway.Callback (ArpGateway.MsgTargetRemoved ip)].
Proof.
  intros Hfresh Hmac Hm Ht Hg. cbv zeta.
  assert (PyDict.get (ArpGateway.targets self) ip = None) as Hnone.
  { destruct (PyDict.get _ ip) as [t|] eqn:Hget; [|done].
    exfalso. apply Hfresh. apply dict_get_elem in Hget.
    by apply (list_elem_of_fmap_2 fst _ (ip, t)). }
  unfold ArpGateway.add_target, ArpGateway._get_mac. rewrite Hnone, Hmac.
  assert (PyStr.truthy m = true) as ->.
  { unfold PyStr.truthy. by destruct (String.eqb_spec m "") as [->|_]. }
  cbn [fst snd]. split; [done|].
  unfold ArpGateway.remove_target.
  cbn [ArpGateway.targets ArpGateway.emit ArpGateway.with_trace].
  rewrite dict_get_set, String.eqb_refl. cbn [ArpGateway.mac].
  match goal with
  | |- context [ArpGateway._restore_target wire_ok ?s ip (PyStr.upper m)] =>
      rewrite (restore_target_ok wire_ok s ip (PyStr.upper m)) by exact Ht || exact Hg
  end.
  cbn [fst snd ArpGateway.targets ArpGateway.emit ArpGateway.with_trace ArpGateway.trace].
  split; [done|]. split; [by apply dict_del_set_fresh|].
  by rewrite <- !app_assoc.
Qed.

End Targets.

Lemma add_then_remove_target_witness :
  let self := sample_gateway in
  let ip := "192.168.1.50" in
  let m := "aa:bb:cc:00:00:33" in
  let added := ArpGateway.add_target one_host self "t0" ip None in
  let removed := ArpGateway.remove_target wire_up added.1 ip in
  added.2 = true
  /\ removed.2 = true
  /\ ArpGateway.targets removed.1 = ArpGateway.targets self
  /\ ArpGateway.trace removed.1
     = ArpGateway.trace self
       ++ [ArpGateway.Callback (ArpGateway.MsgTargetAdded ip (PyStr.upper m) None)]
       ++ burst (ArpGateway.restore_target_frame self ip (PyStr.upper m))
       ++ burst (ArpGateway.restore_gateway_frame self ip (PyStr.upper m))
       ++ [ArpGateway.Callback (ArpGateway.MsgTargetRemoved ip)].
Proof.
  cbv zeta.
  apply (add_then_remove_target wire_up one_host sample_gateway "t0" "192.168.1.50"
           None "aa:bb:cc:00:00:33").
  - apply (bool_decide_unpack _). vm_compute. reflexivity.
  - reflexivity.
  - discriminate.
  - reflexivity.
  - reflexivity.
Defined.

(** ** Looking a device up *)

Lemma find_app_skip {A} (f : A -> bool) (l : list A) (x : A) :
  (forall y, y ∈ l -> f y = false) ->
  List.find f (l ++ [x]) = if f x then Some x else None.
Proof.
  induction l as [|y l IH]; intros Hl; [done|].
  cbn [app List.find]. rewrite (Hl y) by apply list_elem_of_here.
  apply IH. intros z Hz. apply Hl. by apply list_elem_of_further.
Qed.

(** X29.  After [add_device] has stored a device, [get_device_by_mac] returns it
    exactly for the addresses whose lower-case form is the stored address.
    A device stored with an upper-case letter in its address is therefore
    returned by no look-up at all. *)
Theorem added_device_found_by_mac (db db' : DbManager.Database) (d : DbManager.Device) :
  DbManager.add_device db d = Some db' ->
  (forall m, DbManager.get_device_by_mac db' m = Some d
             <-> PyStr.lower m = DbManager.mac_address d)
  /\ (PyStr.lower (DbManager.mac_address d) <> DbManager.mac_address d ->
      forall m, DbManager.get_device_by_mac db' m <> Some d).
Proof.
  intros Hadd.
  assert (forall m, DbManager.get_device_by_mac db' m = Some d
                    <-> PyStr.lower m = DbManager.mac_address d) as Hiff.
  { intros m. unfold DbManager.add_device, DbManager.insert_or_replace in Hadd.
    destruct (DbManager.orphans db d); [done|]. injection Hadd as <-.
    unfold DbManager.get_device_by_mac. cbn [DbManager.devices]. split.
    - intros Hfind. apply find_some in Hfind as [_ Heq].
      apply String.eqb_eq in Heq. done.
    - intros Hm. rewrite find_app_skip.
      + rewrite Hm, String.eqb_refl. done.
      + intros r Hr. apply list_elem_of_filter in Hr as [Hc _].
        unfold DbManager.conflicts in Hc. apply orb_false_iff in Hc as [_ Hc].
        by rewrite Hm. }
  split; [done|]. intros Hcase m Hfind. apply Hiff in Hfind.
  apply Hcase. rewrite <- Hfind. apply lower_idemp.
Qed.

Lemma added_device_found_by_mac_witness :
  let d := device "d1" "aa:bb:cc:00:00:01" "192.168.1.10" in
  let db' := {| DbManager.devices := [d]; DbManager.device_refs := [] |} in
  (forall m, DbManager.get_device_by_mac db' m = Some d
             <-> PyStr.lower m = DbManager.mac_address d)
  /\ (PyStr.lower (DbManager.mac_address d) <> DbManager.mac_address d ->
      forall m, DbManager.get_device_by_mac db' m <> Some d).
Proof.
  cbv zeta.
  apply (added_device_found_by_mac DbManager._init_database
           {| DbManager.devices := [device "d1" "aa:bb:cc:00:00:01" "192.168.1.10"];
              DbManager.device_refs := [] |}
           (device "d1" "aa:bb:cc:00:00:01" "192.168.1.10")).
  reflexivity.
Defined.

(** ** What the keyword matcher returns *)

Section MatcherResults.

Variable re_search : forall (ignorecase : bool) (pattern text : string), option string.
Variable re_escape : string -> string.

Lemma match_one_spec (now text location : string) (n : nat)
    (kw : Keywords.Keyword) (m : Keywords.KeywordMatch) :
  Keywords.match_one re_search re_escape now text location n kw = Some m ->
  Keywords.keyword m = kw
  /\ Keywords.matches re_search re_escape kw text = (true, Some (Keywords.matched_text m))
  /\ Keywords.enabled kw = true
  /\ Keywords.excluded kw text = false
  /\ Keywords.matched_text m <> ""
  /\ Keywords.location m = location
  /\ Keywords.timestamp m = now
  /\ Keywords.context m = Keywords._extract_context text (Keywords.matched_text m) n
  /\ Keywords.match_severity m
     = Keywords.get_severity_with_context kw (Keywords.context m).
Proof.
  unfold Keywords.match_one.
  destruct (Keywords.matches re_search re_escape kw text) as [[] [g|]] eqn:Hm; try done.
  destruct (PyStr.truthy g) eqn:Hg; [|done]. intros [= <-].
  cbn [Keywords.keyword Keywords.matched_text Keywords.location Keywords.timestamp
       Keywords.context Keywords.match_severity].
  assert (Keywords.enabled kw = true /\ Keywords.excluded kw text = false) as [He Hx].
  { unfold Keywords.matches in Hm.
    destruct (Keywords.enabled kw); cbn [negb] in Hm; [|done].
    by destruct (Keywords.excluded kw text). }
  repeat split; try done.
  intros ->. done.
Qed.

(** X30.  Every match the matcher returns is for one of its keywords, which is
    enabled and has no exclusion word in the text; the matched text is not
    empty; the match carries the location and the time given, the context cut
    around the matched text, and a severity that is the keyword's own or one
    level above it.  The matches come in the order of the keywords, at most
    one for each. *)
Theorem match_results_sound (keywords : list (string * Keywords.Keyword))
    (now text location : string) (n : nat) :
  let ms := Keywords.match_ re_search re_escape keywords now text location n in
  Forall (fun m =>
            Keywords.keyword m ∈ PyDict.values keywords
            /\ Keywords.enabled (Keywords.keyword m) = true
            /\ Keywords.excluded (Keywords.keyword m) text = false
            /\ Keywords.matches re_search re_escape (Keywords.keyword m) text
               = (true, Some (Keywords.matched_text m))
            /\ Keywords.matched_text m <> ""
            /\ Keywords.location m = location
            /\ Keywords.timestamp m = now
            /\ Keywords.context m
               = Keywords._extract_context text (Keywords.matched_text m) n
            /\ (Keywords.match_severity m = Keywords.severity (Keywords.keyword m)
                \/ Keywords.match_severity m
                   = one_level_up (Keywords.severity (Keywords.keyword m)))) ms
  /\ sublist (Keywords.keyword <$> ms) (PyDict.values keywords).
Proof.
  cbv zeta. unfold Keywords.match_. split.
  - apply Forall_forall. intros m Hm.
    apply list_elem_of_omap in Hm as (kw & Hkw & Hone).
    apply match_one_spec in Hone
      as (<- & Hmatch & Hen & Hex & Htext & Hloc & Hts & Hctx & Hsev).
    repeat split; try done.
    rewrite Hsev, get_severity_spec.
    destruct (has_context _ _); [by right | by left].
  - induction (PyDict.values keywords) as [|kw l IH]; [done|].
    cbn [omap list_omap].
    destruct (Keywords.match_one re_search re_escape now text location n kw)
      as [m|] eqn:Hone.
    + apply match_one_spec in Hone as (<- & _). rewrite fmap_cons.
      by apply sublist_skip.
    + by apply sublist_cons.
Qed.

End MatcherResults.
